(** * PTD_Gen: schedule-grid layout and workbook sheet grafting

    A shallow embedding of [src/modules/schedule_layout.py] and of the
    sheet-grafting and formatting functions of [src/generate_ptd.py].

    Conventions.
    - Python [str] values are [string]s that hold the UTF-8 encoding of
      the text; [len] counts code points.  The character classes used by
      [str.lower], [str.strip] and the [re] module are Python's on the
      ASCII range (bytes above 127 are letters of no case, not blank, not
      word characters): where blanks or case outside ASCII could matter, a
      statement asks for ASCII text ([is_ascii]).
    - The column labels of a table are looked up by their first occurrence;
      pandas answers a lookup of a repeated label with a [Series], on which
      the program raises, so statements about lookups ask for distinct
      labels.
    - A Python exception is a value of [Exn]; a function that may raise
      returns [Exn + A] ([inl] = raised).
    - An openpyxl worksheet is a finite map from [(row, column)] to cell
      objects together with its merged ranges and dimensions. *)

From Stdlib Require Import ZArith Ascii String DecimalString List Bool Lia.
From stdpp Require Import base option gmap strings list fin_maps.

Open Scope string_scope.

(** ** Python exceptions and the error monad *)

Inductive Exn : Type :=
| KeyError (key : string)
| ValueError (msg : string)
| UnboundLocalError (name : string)
| OverflowError
| AttributeError (msg : string)
| IndexError (msg : string)
| ReadError (cause : string).

Definition Result (A : Type) : Type := (Exn + A)%type.

Definition ret {A} (a : A) : Result A := inr a.
Definition raise {A} (e : Exn) : Result A := inl e.
Definition bind {A B} (m : Result A) (k : A -> Result B) : Result B :=
  match m with
  | inl e => inl e
  | inr a => k a
  end.

Notation "'let!' x ':=' m 'in' k" := (bind m (fun x => k))
  (at level 10, x pattern, m at level 100, k at level 200).

(** A [for] loop whose body may raise: the state is threaded through the
    items in order and the first exception ends the loop. *)
Fixpoint for_each {A S : Type} (items : list A) (s : S) (body : S -> A -> Result S)
    : Result S :=
  match items with
  | [] => ret s
  | x :: items' => let! s1 := body s x in for_each items' s1 body
  end.

(** ** Strings *)

Module PyStr.

Definition code (c : ascii) : nat := nat_of_ascii c.

Definition is_upper (c : ascii) : bool :=
  (65 <=? code c)%nat && (code c <=? 90)%nat.

Definition is_digit (c : ascii) : bool :=
  (48 <=? code c)%nat && (code c <=? 57)%nat.

Definition is_lower (c : ascii) : bool :=
  (97 <=? code c)%nat && (code c <=? 122)%nat.

(** [str.isspace] on the ASCII range: TAB..CR, FS..US and the blank. *)
Definition is_space (c : ascii) : bool :=
  ((9 <=? code c)%nat && (code c <=? 13)%nat)
  || ((28 <=? code c)%nat && (code c <=? 32)%nat).

(** The regex class [\w]: letters, digits and the underscore. *)
Definition is_word (c : ascii) : bool :=
  is_upper c || is_lower c || is_digit c || Ascii.eqb c "_".

Definition lower_char (c : ascii) : ascii :=
  if is_upper c then ascii_of_nat (code c + 32) else c.

(** [s.lower()] *)
Fixpoint lower (s : string) : string :=
  match s with
  | EmptyString => EmptyString
  | String c s' => String (lower_char c) (lower s')
  end.

(** [s.lstrip()] *)
Fixpoint lstrip (s : string) : string :=
  match s with
  | EmptyString => EmptyString
  | String c s' => if is_space c then lstrip s' else s
  end.

(** [s.rstrip()] *)
Fixpoint rstrip (s : string) : string :=
  match s with
  | EmptyString => EmptyString
  | String c s' =>
      match rstrip s' with
      | EmptyString => if is_space c then EmptyString else String c EmptyString
      | r => String c r
      end
  end.

(** [s.strip()] *)
Definition strip (s : string) : string := rstrip (lstrip s).

(** [s.startswith(p)] *)
Fixpoint startswith (p s : string) : bool :=
  match p, s with
  | EmptyString, _ => true
  | String _ _, EmptyString => false
  | String a p', String b s' => Ascii.eqb a b && startswith p' s'
  end.

(** [needle in hay] *)
Fixpoint contains (needle hay : string) : bool :=
  startswith needle hay ||
  match hay with
  | EmptyString => false
  | String _ hay' => contains needle hay'
  end.

(** [s[1:]] *)
Definition tail (s : string) : string :=
  match s with
  | EmptyString => EmptyString
  | String _ s' => s'
  end.

(** [str(n)] for a non-negative integer. *)
Definition of_nat (n : nat) : string := NilZero.string_of_uint (Nat.to_uint n).

(** [str(z)] for an integer. *)
Definition of_Z (z : Z) : string := NilZero.string_of_int (Z.to_int z).

(** [tpl.format(number=n)] for templates whose replacement fields are all
    the plain field [{number}]; [{{] and [}}] are the escaped braces.  A
    lone brace raises [ValueError] and another field name raises
    [KeyError], as in Python; conversions and format specifications
    ([{number!r}], [{number:>3}]) are not modelled and are reported as a
    [KeyError] on the whole field text. *)
Fixpoint read_field (s : string) : option (string * string) :=
  match s with
  | EmptyString => None
  | String c s' =>
      if Ascii.eqb c "}" then Some (EmptyString, s')
      else match read_field s' with
           | Some (f, rest) => Some (String c f, rest)
           | None => None
           end
  end.

Fixpoint format_fuel (fuel : nat) (tpl number : string) : Result string :=
  match fuel with
  | O => ret EmptyString
  | S fuel' =>
      match tpl with
      | EmptyString => ret EmptyString
      | String c rest =>
          if Ascii.eqb c "{" then
            match rest with
            | String "{" rest' =>
                let! r := format_fuel fuel' rest' number in ret (String "{" r)
            | _ =>
                match read_field rest with
                | None => raise (ValueError "expected '}' before end of string")
                | Some (f, rest') =>
                    if String.eqb f "number" then
                      let! r := format_fuel fuel' rest' number in ret (number ++ r)
                    else raise (KeyError f)
                end
            end
          else if Ascii.eqb c "}" then
            match rest with
            | String "}" rest' =>
                let! r := format_fuel fuel' rest' number in ret (String "}" r)
            | _ => raise (ValueError "Single '}' encountered in format string")
            end
          else let! r := format_fuel fuel' rest number in ret (String c r)
      end
  end.

Definition format (tpl number : string) : Result string :=
  format_fuel (S (String.length tpl)) tpl number.

(** Occurrence of a character in a string. *)
Fixpoint occurs (c : ascii) (s : string) : bool :=
  match s with
  | EmptyString => false
  | String x s' => Ascii.eqb c x || occurs c s'
  end.


(** [len(s)]: the number of code points of the text, that is, of the bytes
    of its UTF-8 encoding that are not continuation bytes ([10xxxxxx]). *)
Fixpoint len (s : string) : nat :=
  match s with
  | EmptyString => 0
  | String c s' =>
      (if (128 <=? code c)%nat && (code c <? 192)%nat then 0 else 1) + len s'
  end.

(** [s.endswith(suffix)] *)
Fixpoint endswith (suffix s : string) : bool :=
  if String.eqb s suffix then true
  else match s with
       | EmptyString => false
       | String _ s' => endswith suffix s'
       end.

End PyStr.

(** ** The fragment of [re] used by [make_event_name] *)

Module Re.
Import PyStr.

(** The atoms that occur in the three patterns of the source. *)
Inductive atom : Type :=
| WordB                              (* \b *)
| Lit (c : ascii)                    (* a literal character *)
| LazyStar (cls : ascii -> bool)     (* cls*?  *)
| GroupPlus (cls : ascii -> bool).   (* (cls+), capture group 1, greedy *)

(** A match: the whole matched text and the text of group 1. *)
Record Match : Type := mkMatch { group0 : string; group1 : string }.

Definition is_word_opt (c : option ascii) : bool :=
  match c with
  | Some c => is_word c
  | None => false
  end.

Definition head (s : string) : option ascii :=
  match s with
  | EmptyString => None
  | String c _ => Some c
  end.

Definition cons0 (c : ascii) (m : Match) : Match :=
  mkMatch (String c (group0 m)) (group1 m).

Definition cons01 (c : ascii) (m : Match) : Match :=
  mkMatch (String c (group0 m)) (String c (group1 m)).

(** [cls*?] followed by the continuation [k]: the shortest repetition is
    tried first. *)
Fixpoint lazy_star (cls : ascii -> bool)
    (k : option ascii -> string -> option Match)
    (prev : option ascii) (s : string) : option Match :=
  match k prev s with
  | Some m => Some m
  | None =>
      match s with
      | String c s' =>
          if cls c then option_map (cons0 c) (lazy_star cls k (Some c) s')
          else None
      | EmptyString => None
      end
  end.

(** [cls*] inside the group, followed by [k]: the longest repetition is
    tried first, and shorter ones on failure. *)
Fixpoint greedy_star (cls : ascii -> bool)
    (k : option ascii -> string -> option Match)
    (prev : option ascii) (s : string) : option Match :=
  match s with
  | String c s' =>
      if cls c then
        match greedy_star cls k (Some c) s' with
        | Some m => Some (cons01 c m)
        | None => k prev s
        end
      else k prev s
  | EmptyString => k prev s
  end.

(** Match the atoms at the current position; [prev] is the character just
    before it (for [\b]). *)
Fixpoint match_here (p : list atom) (prev : option ascii) (s : string)
    {struct p} : option Match :=
  match p with
  | [] => Some (mkMatch EmptyString EmptyString)
  | WordB :: p' =>
      if xorb (is_word_opt prev) (is_word_opt (head s))
      then match_here p' prev s else None
  | Lit c :: p' =>
      match s with
      | String c' s' =>
          if Ascii.eqb c c'
          then option_map (cons0 c') (match_here p' (Some c') s')
          else None
      | EmptyString => None
      end
  | LazyStar cls :: p' => lazy_star cls (match_here p') prev s
  | GroupPlus cls :: p' =>
      match s with
      | String c s' =>
          if cls c
          then option_map (cons01 c) (greedy_star cls (match_here p') (Some c) s')
          else None
      | EmptyString => None
      end
  end.

(** [re.search]: the leftmost position at which the pattern matches. *)
Fixpoint search_from (p : list atom) (prev : option ascii) (s : string)
    : option Match :=
  match match_here p prev s with
  | Some m => Some m
  | None =>
      match s with
      | String c s' => search_from p (Some c) s'
      | EmptyString => None
      end
  end.

Definition search (p : list atom) (s : string) : option Match :=
  search_from p None s.

Definition lits (s : string) : list atom :=
  map Lit (list_ascii_of_string s).

(** r'\bV\s*?(\d+)\b' *)
Definition pat_V : list atom :=
  [WordB; Lit "V"; LazyStar is_space; GroupPlus is_digit; WordB].

(** r'\bVisit\s*?(\d+)\b' *)
Definition pat_Visit : list atom :=
  WordB :: lits "Visit" ++ [LazyStar is_space; GroupPlus is_digit; WordB].

(** r'\bP(\d+)\b' *)
Definition pat_P : list atom :=
  [WordB; Lit "P"; GroupPlus is_digit; WordB].

End Re.

(** ** Configuration ([config_schedule_layout.json]) *)

(** The [event_name_mapping] sub-dictionary; an absent key is [None]. *)
Record EventMapping : Type := mkEventMapping {
  em_screening : option string;
  em_random : option string;
  em_rtsm : option string;
  em_visit_pattern : option string;
  em_phone_pattern : option string
}.

Record Config : Type := mkConfig {
  event_name_mapping : option EventMapping;
  left_columns : option (list string);
  extra_headers : option (list string)
}.

(** [{}] *)
Definition empty_mapping : EventMapping := mkEventMapping None None None None None.
Definition empty_config : Config := mkConfig None None None.

(** [d.get(key, dflt)] *)
Definition get {A} (field : option A) (dflt : A) : A :=
  match field with
  | Some v => v
  | None => dflt
  end.

(** ** [make_event_name] (schedule_layout.py, lines 19-46) *)

Module EventName.
Import PyStr Re.

(** [a or b] on match objects. *)
Definition or_else {A} (a b : option A) : option A :=
  match a with
  | Some _ => a
  | None => b
  end.

Definition make_event_name (group label : string) (idx : nat) (config : Config)
    : Result string :=
  let event_mapping := get (event_name_mapping config) empty_mapping in
  let g := lower (strip group) in
  let s := lower (strip label) in
  if contains "screen" g then ret (get (em_screening event_mapping) "SCRN")
  else if contains "random" g then ret (get (em_random event_mapping) "RAND")
  else if contains "rtsm" g then ret (get (em_rtsm event_mapping) "RTSM")
  else
    let visit_pattern := get (em_visit_pattern event_mapping) "V{number}" in
    let phone_pattern := get (em_phone_pattern event_mapping) "P{number}" in
    match or_else (search pat_V s) (or_else (search pat_Visit s) (search pat_P s)) with
    | Some m =>
        if contains "P" (group0 m)
        then format phone_pattern (group1 m)
        else format visit_pattern (group1 m)
    | None => ret ("V" ++ of_nat (idx + 1))
    end.

End EventName.

(** ** Python values held by table and worksheet cells *)

Module PyVal.

(** A binary64 float: not-a-number, an infinity, or the finite number
    [m * 2^e]. *)
Inductive PyFloat : Type :=
| FNaN
| FInf (negative : bool)
| FFin (m e : Z).

Inductive Value : Type :=
| VNone
| VStr (s : string)
| VInt (z : Z)
| VFloat (f : PyFloat)
| VBool (b : bool).

#[export] Instance PyFloat_eq_dec : EqDecision PyFloat.
Proof. solve_decision. Defined.
#[export] Instance Value_eq_dec : EqDecision Value.
Proof. solve_decision. Defined.

(** [int(f)]: truncation towards zero. *)
Definition float_to_int (f : PyFloat) : Result Z :=
  match f with
  | FNaN => raise (ValueError "cannot convert float NaN to integer")
  | FInf _ => raise OverflowError
  | FFin m e => ret (if (0 <=? e)%Z then m * 2 ^ e else Z.quot m (2 ^ (- e)))%Z
  end.

(** [m1 * 2^e1 <= m2 * 2^e2], on a common exponent. *)
Definition dyadic_leb (m1 e1 m2 e2 : Z) : bool :=
  let e := Z.min e1 e2 in
  (m1 * 2 ^ (e1 - e) <=? m2 * 2 ^ (e2 - e))%Z.

Definition dyadic_eqb (m1 e1 m2 e2 : Z) : bool :=
  let e := Z.min e1 e2 in
  (m1 * 2 ^ (e1 - e) =? m2 * 2 ^ (e2 - e))%Z.

(** [a == b] on floats. *)
Definition float_eqb (a b : PyFloat) : bool :=
  match a, b with
  | FFin m1 e1, FFin m2 e2 => dyadic_eqb m1 e1 m2 e2
  | FInf s1, FInf s2 => Bool.eqb s1 s2
  | _, _ => false
  end.

Definition is_inf (a : PyFloat) : bool :=
  match a with
  | FInf _ => true
  | _ => false
  end.

(** The binary64 number nearest to [1e-9]: 0x1.12e0be826d695p-30. *)
Definition rel_tol_m : Z := 4835703278458517.
Definition rel_tol_e : Z := -82.

(** [math.isclose(a, b)] with the default [rel_tol=1e-09], [abs_tol=0.0]:
    equal values are close, an infinity is close to nothing else, and
    otherwise [|b - a|] is compared with [|rel_tol * b|] and
    [|rel_tol * a|].  The difference and the two products are taken
    exactly (binary64 rounding of them is not modelled). *)
Definition isclose (a b : PyFloat) : bool :=
  if float_eqb a b then true
  else if is_inf a || is_inf b then false
  else
    match a, b with
    | FFin m1 e1, FFin m2 e2 =>
        let e := Z.min e1 e2 in
        let diff := Z.abs (m2 * 2 ^ (e2 - e) - m1 * 2 ^ (e1 - e))%Z in
        dyadic_leb diff e (Z.abs (rel_tol_m * m2)) (rel_tol_e + e2)
        || dyadic_leb diff e (Z.abs (rel_tol_m * m1)) (rel_tol_e + e1)
        || dyadic_leb diff e 0 0
    | _, _ => false
    end.

(** [pd.isna(v)] on a scalar. *)
Definition isna (v : Value) : bool :=
  match v with
  | VNone => true
  | VFloat FNaN => true
  | _ => false
  end.

(** Truth value of a scalar ([bool(v)]); a NaN is true. *)
Definition truthy (v : Value) : bool :=
  match v with
  | VNone => false
  | VStr s => negb (String.eqb s "")
  | VInt z => negb (z =? 0)%Z
  | VFloat (FFin m _) => negb (m =? 0)%Z
  | VFloat _ => true
  | VBool b => b
  end.

(** [a or b] *)
Definition por (a b : Value) : Value := if truthy a then a else b.

Section Str.
(** [repr] of a finite float [m * 2^e] (CPython's shortest round-trip
    decimal) is left to the interpreter. *)
Variable float_repr : Z -> Z -> string.

(** [str(v)] *)
Definition str (v : Value) : string :=
  match v with
  | VNone => "None"
  | VStr s => s
  | VInt z => PyStr.of_Z z
  | VFloat FNaN => "nan"
  | VFloat (FInf true) => "-inf"
  | VFloat (FInf false) => "inf"
  | VFloat (FFin m e) => float_repr m e
  | VBool true => "True"
  | VBool false => "False"
  end.
End Str.

End PyVal.

(** ** Worksheets (the part of openpyxl the program uses) *)

Module Xl.
Import PyVal.

(** Style objects, by the attributes this program sets or reads. *)
Record Font : Type := mkFont {
  font_name : option string;
  bold : bool;
  italic : bool
}.

Record Alignment : Type := mkAlignment {
  horizontal : option string;
  vertical : option string;
  wrap_text : bool
}.

(** [cell.fill]: a [PatternFill] with its type and colours, or a
    [GradientFill], which has a type and no [start_color]. *)
Inductive Fill : Type :=
| mkFill (pattern_type : option string) (start_color end_color : string)
| mkGradient (gradient_type : option string).

(** [fill.fill_type] *)
Definition fill_type (f : Fill) : option string :=
  match f with
  | mkFill t _ _ => t
  | mkGradient t => t
  end.

Record Side : Type := mkSide {
  side_style : option string;
  side_color : option string
}.

(** [cell.border]: each side is a [Side] or [None]. *)
Record Border : Type := mkBorder {
  b_left : option Side;
  b_right : option Side;
  b_top : option Side;
  b_bottom : option Side
}.

Record Style : Type := mkStyle {
  font : Font;
  alignment : Alignment;
  fill : Fill;
  border : Border;
  number_format : string
}.

Definition default_font : Font := mkFont None false false.
Definition default_alignment : Alignment := mkAlignment None None false.
Definition default_fill : Fill := mkFill None "00000000" "00000000".
Definition no_side : Side := mkSide None None.
Definition default_border : Border :=
  mkBorder (Some no_side) (Some no_side) (Some no_side) (Some no_side).
Definition default_style : Style :=
  mkStyle default_font default_alignment default_fill default_border "General".

#[export] Instance Font_eq_dec : EqDecision Font.
Proof. solve_decision. Defined.
#[export] Instance Alignment_eq_dec : EqDecision Alignment.
Proof. solve_decision. Defined.
#[export] Instance Fill_eq_dec : EqDecision Fill.
Proof. solve_decision. Defined.
#[export] Instance Side_eq_dec : EqDecision Side.
Proof. solve_decision. Defined.
#[export] Instance Border_eq_dec : EqDecision Border.
Proof. solve_decision. Defined.
#[export] Instance Style_eq_dec : EqDecision Style.
Proof. solve_decision. Defined.

Definition set_font (f : Font) (s : Style) : Style :=
  mkStyle f (alignment s) (fill s) (border s) (number_format s).
Definition set_alignment (a : Alignment) (s : Style) : Style :=
  mkStyle (font s) a (fill s) (border s) (number_format s).
Definition set_fill (f : Fill) (s : Style) : Style :=
  mkStyle (font s) (alignment s) f (border s) (number_format s).
Definition set_border (b : Border) (s : Style) : Style :=
  mkStyle (font s) (alignment s) (fill s) b (number_format s).
Definition set_number_format (n : string) (s : Style) : Style :=
  mkStyle (font s) (alignment s) (fill s) (border s) n.

(** A cell object: a plain cell with its value, or a [MergedCell] (a
    member of a merged range other than its top-left anchor), whose value
    is always [None] and cannot be assigned.  Both carry a style. *)
Inductive Cell : Type :=
| Plain (v : Value) (st : Style)
| MergedCell (st : Style).

Definition value (c : Cell) : Value :=
  match c with
  | Plain v _ => v
  | MergedCell _ => VNone
  end.

Definition style (c : Cell) : Style :=
  match c with
  | Plain _ st => st
  | MergedCell st => st
  end.

(** [isinstance(cell, MergedCell)] *)
Definition is_merged (c : Cell) : bool :=
  match c with
  | Plain _ _ => false
  | MergedCell _ => true
  end.

Definition with_style (f : Style -> Style) (c : Cell) : Cell :=
  match c with
  | Plain v st => Plain v (f st)
  | MergedCell st => MergedCell (f st)
  end.

Definition empty_cell : Cell := Plain VNone default_style.
Definition merged_cell : Cell := MergedCell default_style.

(** [cell.has_style] *)
Definition has_style (c : Cell) : bool :=
  negb (bool_decide (style c = default_style)).

(** A rectangular cell range. *)
Record Range : Type := mkRange {
  min_row : nat;
  min_col : nat;
  max_row_of : nat;
  max_col_of : nat
}.

#[export] Instance Range_eq_dec : EqDecision Range.
Proof. solve_decision. Defined.

Record Worksheet : Type := mkWorksheet {
  cells : gmap (nat * nat) Cell;        (* ws._cells, keyed (row, column) *)
  merged : list Range;                  (* ws.merged_cells.ranges *)
  current_row : nat;                    (* ws._current_row *)
  col_width : gmap nat Value;           (* column_dimensions[..].width *)
  row_height : gmap nat Value;          (* row_dimensions[..].height *)
  freeze_panes : option (nat * nat)
}.

(** A sheet as [create_sheet] or [Workbook()] makes it. *)
Definition empty_sheet : Worksheet := mkWorksheet ∅ [] 0 ∅ ∅ None.

Definition with_cells (ws : Worksheet) (m : gmap (nat * nat) Cell) (cur : nat)
    : Worksheet :=
  mkWorksheet m (merged ws) cur (col_width ws) (row_height ws) (freeze_panes ws).

(** The value and the style read at an address; a cell that does not exist
    reads as an empty one. *)
Definition cell_at (ws : Worksheet) (p : nat * nat) : Cell :=
  default empty_cell (cells ws !! p).
Definition value_at (ws : Worksheet) (p : nat * nat) : Value := value (cell_at ws p).
Definition fill_at (ws : Worksheet) (p : nat * nat) : Fill := fill (style (cell_at ws p)).

(** [ws.max_row], [ws.max_column]: 1 on a sheet without cells. *)
Definition max_row (ws : Worksheet) : nat :=
  if bool_decide (cells ws = ∅) then 1
  else max_list (map (fun kv => fst (fst kv)) (map_to_list (cells ws))).
Definition max_column (ws : Worksheet) : nat :=
  if bool_decide (cells ws = ∅) then 1
  else max_list (map (fun kv => snd (fst kv)) (map_to_list (cells ws))).

(** [ws._get_cell(row, column)]: the cell, created empty when absent. *)
Definition get_cell (ws : Worksheet) (r c : nat) : Worksheet * Cell :=
  match cells ws !! (r, c) with
  | Some x => (ws, x)
  | None =>
      (with_cells ws (<[(r, c) := empty_cell]> (cells ws)) (Nat.max r (current_row ws)),
       empty_cell)
  end.

(** [ws.cell(row, column, value)]: a value other than [None] is assigned;
    assigning to a [MergedCell] raises. *)
Definition cell (ws : Worksheet) (r c : nat) (v : Value) : Result Worksheet :=
  if (r <? 1)%nat || (c <? 1)%nat
  then raise (ValueError "Row or column values must be at least 1")
  else
    let (ws1, x) := get_cell ws r c in
    match v with
    | VNone => ret ws1
    | _ =>
        if is_merged x
        then raise (AttributeError "'MergedCell' object attribute 'value' is read-only")
        else ret (with_cells ws1
                    (<[(r, c) := Plain v (style x)]> (cells ws1))
                    (current_row ws1))
    end.

(** Assignment to style attributes of the cell at an address that holds a
    cell ([ws.cell(row, column).font = ...] after the cell was fetched). *)
Definition restyle (ws : Worksheet) (r c : nat) (f : Style -> Style) : Worksheet :=
  match cells ws !! (r, c) with
  | Some x =>
      with_cells ws (<[(r, c) := with_style f x]> (cells ws))
        (current_row ws)
  | None => ws
  end.

(** [ws.cell(row, column, value)] followed by style assignments to it. *)
Definition put (ws : Worksheet) (r c : nat) (v : Value) (f : Style -> Style)
    : Result Worksheet :=
  let! ws1 := cell ws r c v in ret (restyle ws1 r c f).

(** The addresses of a range, row by row. *)
Definition rect (r1 r2 c1 c2 : nat) : list (nat * nat) :=
  flat_map (fun r => map (fun c => (r, c)) (seq c1 (S c2 - c1))) (seq r1 (S r2 - r1)).

Definition range_cells (rg : Range) : list (nat * nat) :=
  rect (min_row rg) (max_row_of rg) (min_col rg) (max_col_of rg).

Definition anchor (rg : Range) : nat * nat := (min_row rg, min_col rg).

Definition valid_range (rg : Range) : bool :=
  (1 <=? min_row rg)%nat && (1 <=? min_col rg)%nat
  && (min_row rg <=? max_row_of rg)%nat && (min_col rg <=? max_col_of rg)%nat.

(** [a <= b] on ranges: [a] lies inside [b]. *)
Definition subrange (a b : Range) : bool :=
  (min_row b <=? min_row a)%nat && (max_row_of a <=? max_row_of b)%nat
  && (min_col b <=? min_col a)%nat && (max_col_of a <=? max_col_of b)%nat.

(** [ws.merge_cells(...)]: the range is recorded unless a recorded range
    already holds it, its anchor cell is created when absent, and every
    other cell of it is replaced by a [MergedCell].  The recorded ranges
    are kept in the order of their recording.  (openpyxl then copies the
    anchor's border sides to the edge cells of the range; every call of
    this program merges around an anchor without border, where that step
    changes nothing.) *)
Definition merge_cells (ws : Worksheet) (rg : Range) : Result Worksheet :=
  if negb (valid_range rg)
  then raise (ValueError "invalid cell range")
  else
    let rs := if existsb (subrange rg) (merged ws) then merged ws
              else (merged ws ++ [rg])%list in
    let ws1 := fst (get_cell ws (min_row rg) (min_col rg)) in
    let m := foldl (fun m p => <[p := merged_cell]> m) (cells ws1)
               (List.tl (range_cells rg)) in
    ret (mkWorksheet m rs (current_row ws1) (col_width ws1) (row_height ws1)
           (freeze_panes ws1)).

(** [ws.append(values)]: the values fill the row after [_current_row], from
    column 1, each in a new cell. *)
Definition append (ws : Worksheet) (vals : list Value) : Worksheet :=
  let r := S (current_row ws) in
  let m := foldl (fun m cv => <[(r, fst cv) := Plain (snd cv) default_style]> m)
             (cells ws) (combine (seq 1 (length vals)) vals) in
  with_cells ws m r.

(** The addresses that merging the ranges [rs] turns into merged cells. *)
Definition covered (rs : list Range) (q : nat * nat) : Prop :=
  Exists (fun rg => q ∈ List.tl (range_cells rg)) rs.

#[export] Instance covered_dec rs q : Decision (covered rs q).
Proof. unfold covered. apply _. Defined.

(** Every merged range of the sheet is a valid range, and its cells other
    than the anchor are merged cells: the state of a worksheet that was
    loaded from a file or merged through [merge_cells]. *)
Definition merges_bound (ws : Worksheet) : Prop :=
  Forall (fun rg => valid_range rg = true) (merged ws)
  /\ forall q, covered (merged ws) q -> is_merged (cell_at ws q) = true.


(** Two sheets with the same merged ranges, the same values and the same
    merged cells (their styles may differ). *)
Definition same_content (ws ws' : Worksheet) : Prop :=
  merged ws' = merged ws
  /\ forall q, value_at ws' q = value_at ws q
               /\ is_merged (cell_at ws' q) = is_merged (cell_at ws q).


End Xl.

(** ** Sheet copy, grafting and post-formatting (generate_ptd.py) *)

Module Graft.
Import PyVal Xl.

(** The rows [iter_rows()] yields: nothing on a sheet that never received
    a cell, else rows [1..max_row], each over columns [1..max_column]. *)
Definition row_addresses (ncols r : nat) : list (nat * nat) :=
  map (fun c => (r, c)) (seq 1 ncols).

Definition iter_rows (ws : Worksheet) : list (list (nat * nat)) :=
  if (current_row ws =? 0)%nat then []
  else map (row_addresses (max_column ws)) (seq 1 (max_row ws)).

Definition opt_truthy (o : option string) : bool :=
  match o with
  | Some s => negb (String.eqb s "")
  | None => false
  end.

(** Lines 201-205: reading [start_color] of a fill with a type raises on a
    [GradientFill]. *)
Definition fill_error (fl : Fill) : option Exn :=
  match fl with
  | mkGradient t =>
      if opt_truthy t
      then Some (AttributeError "'GradientFill' object has no attribute 'start_color'")
      else None
  | mkFill _ _ _ => None
  end.

(** Lines 207-217: reading [style] of a side that is [None] raises. *)
Definition border_error (b : Border) : option Exn :=
  match b_left b, b_right b, b_top b, b_bottom b with
  | Some _, Some _, Some _, Some _ => None
  | _, _, _, _ => Some (AttributeError "'NoneType' object has no attribute 'style'")
  end.

(** The exception that ends the style assignments for a source cell, if
    there is one. *)
Definition copy_error (c : Cell) : option Exn :=
  if has_style c then
    match fill_error (fill (style c)) with
    | Some e => Some e
    | None => border_error (border (style c))
    end
  else None.

(** The style assignments shared by [_copy_worksheet_contents] and
    [_copy_header_styles] (lines 180-219 and 262-301), as far as they are
    carried out: up to the end, or up to the exception of [copy_error]. *)
Definition copy_style (c : Cell) (d : Style) : Style :=
  if has_style c then
    let f := font (style c) in
    let a := alignment (style c) in
    let fl := fill (style c) in
    let b := border (style c) in
    let d := set_font (mkFont (font_name f) (bold f) (italic f)) d in
    let d := set_alignment (mkAlignment (horizontal a) (vertical a) (wrap_text a)) d in
    match fill_error fl with
    | Some _ => d
    | None =>
        let d := match fl with
                 | mkFill t sc ec => if opt_truthy t then set_fill (mkFill t sc ec) d else d
                 | mkGradient _ => d
                 end in
        match b_left b, b_right b, b_top b, b_bottom b with
        | Some l, Some r, Some t, Some bt =>
            let d := set_border
                       (mkBorder
                          (Some (mkSide (side_style l) (side_color l)))
                          (Some (mkSide (side_style r) (side_color r)))
                          (Some (mkSide (side_style t) (side_color t)))
                          (Some (mkSide (side_style bt) (side_color bt)))) d in
            if negb (String.eqb (number_format (style c)) "")
            then set_number_format (number_format (style c)) d
            else d
        | _, _, _, _ => d
        end
    end
  else d.

(** Copy of the dimensions that are set (truthy) in the source. *)
Definition copy_dims (src dest : gmap nat Value) : gmap nat Value :=
  map_fold (fun k v acc => if truthy v then <[k := v]> acc else acc) dest src.

(** Lines 176-219: the copy of one source cell; a [MergedCell] is
    skipped, and an exception of the style assignments ends the copy. *)
Definition copy_cell (src_ws : Worksheet) (d : Worksheet) (p : nat * nat)
    : Result Worksheet :=
  let c := cell_at src_ws p in
  if is_merged c then ret d
  else
    let! d' := cell d (fst p) (snd p) (value c) in
    match copy_error c with
    | Some e => raise e
    | None => ret (restyle d' (fst p) (snd p) (copy_style c))
    end.

(** No cell that the full copy visits stops the style assignments. *)
Definition copyable (src_ws : Worksheet) : Prop :=
  forall p, p ∈ concat (iter_rows src_ws) -> is_merged (cell_at src_ws p) = false ->
            copy_error (cell_at src_ws p) = None.



(** [_copy_worksheet_contents(src_ws, dest_ws)] (lines 157-219). *)
Definition _copy_worksheet_contents (src_ws dest_ws : Worksheet) : Result Worksheet :=
  let d0 := mkWorksheet (cells dest_ws) (merged dest_ws) (current_row dest_ws)
              (copy_dims (col_width src_ws) (col_width dest_ws))
              (copy_dims (row_height src_ws) (row_height dest_ws))
              (freeze_panes dest_ws) in
  let! d1 := for_each (merged src_ws) d0 merge_cells in
  for_each (iter_rows src_ws) d1 (fun d row => for_each row d (copy_cell src_ws)).

(** [try: dest_ws.merge_cells(...) except Exception: pass] *)
Definition try_merge (d : Worksheet) (rg : Range) : Worksheet :=
  match merge_cells d rg with
  | inr d' => d'
  | inl _ => d
  end.

(** [_copy_worksheet_values_only(src_ws, dest_ws)] (lines 222-247). *)
Definition _copy_worksheet_values_only (src_ws dest_ws : Worksheet) : Worksheet :=
  let d1 := foldl (fun d row => append d (map (value_at src_ws) row))
              dest_ws (iter_rows src_ws) in
  foldl try_merge d1 (merged src_ws).

(** [_copy_header_styles(src_ws, dest_ws, max_header_rows)] (lines 250-304);
    [max_header_rows] is positive at both call sites. *)
Definition _copy_header_styles (src_ws dest_ws : Worksheet) (max_header_rows : nat)
    : Worksheet :=
  if (max_header_rows =? 0)%nat then dest_ws
  else
    let rows_to_copy := Nat.min max_header_rows (max_row src_ws) in
    foldl (fun d r =>
             foldl (fun d c =>
                      match cell d r c VNone with
                      | inr d' => restyle d' r c (copy_style (cell_at src_ws (r, c)))
                      | inl _ => d
                      end)
                   d (seq 1 (max_column src_ws)))
          dest_ws (seq 1 rows_to_copy).

(** *** Workbooks *)

Record Sheet : Type := mkSheet { title : string; content : Worksheet }.

(** A workbook is the ordered list of its sheets ([wb._sheets]); titles are
    unique in it. *)
Definition Workbook : Type := list Sheet.

Definition sheetnames (wb : Workbook) : list string := map title wb.

(** [names.index(name)] for a name that occurs. *)
Fixpoint index_of (name : string) (names : list string) : nat :=
  match names with
  | [] => 0
  | n :: names' => if String.eqb n name then 0 else S (index_of name names')
  end.

(** [wb.remove(wb[name])]: the first sheet of that title leaves the list. *)
Fixpoint remove_sheet (name : string) (wb : Workbook) : Workbook :=
  match wb with
  | [] => []
  | sh :: wb' => if String.eqb (title sh) name then wb' else sh :: remove_sheet name wb'
  end.

(** [list.insert(i, x)]: at the end when [i] is beyond it. *)
Fixpoint list_insert_at {A} (i : nat) (x : A) (l : list A) : list A :=
  match i, l with
  | O, _ => x :: l
  | S i', y :: l' => y :: list_insert_at i' x l'
  | S _, [] => [x]
  end.

(** Case-insensitive prefix test. *)
Definition startswith_ci (p s : string) : bool :=
  PyStr.startswith (PyStr.lower p) (PyStr.lower s).

Fixpoint drop_str (n : nat) (s : string) : string :=
  match n, s with
  | S n', String _ s' => drop_str n' s'
  | _, _ => s
  end.

Fixpoint take_digits (s : string) : string * string :=
  match s with
  | String c s' =>
      if PyStr.is_digit c
      then let (d, rest) := take_digits s' in (String c d, rest)
      else (EmptyString, s)
  | EmptyString => (EmptyString, EmptyString)
  end.

Definition nat_of_digits (d : string) : nat :=
  match NilZero.uint_of_string d with
  | Some u => Nat.of_uint u
  | None => 0
  end.

(** The counts that follow an occurrence of [value] in the joined sheet
    names (the [findall] of openpyxl's [avoid_duplicate_name]). *)
Fixpoint title_counts (fuel : nat) (value joined : string) : list nat :=
  match fuel with
  | O => []
  | S fuel' =>
      match joined with
      | EmptyString => []
      | String _ rest =>
          if startswith_ci value joined then
            let (d, after) := take_digits (drop_str (String.length value) joined) in
            let after := match after with
                         | String "," a => a
                         | a => a
                         end in
            let tl := match value, d with
                      | EmptyString, EmptyString => title_counts fuel' value rest
                      | _, _ => title_counts fuel' value after
                      end in
            match d with
            | EmptyString => tl
            | _ => nat_of_digits d :: tl
            end
          else title_counts fuel' value rest
      end
  end.

Fixpoint join_names (names : list string) : string :=
  match names with
  | [] => EmptyString
  | [n] => n
  | n :: names' => n ++ "," ++ join_names names'
  end.

(** openpyxl's [avoid_duplicate_name(names, value)]. *)
Definition avoid_duplicate_name (names : list string) (value : string) : string :=
  if existsb (fun n => String.eqb (PyStr.lower n) (PyStr.lower value)) names then
    let joined := join_names names in
    let counts := title_counts (S (String.length joined)) value joined in
    value ++ PyStr.of_nat (S (max_list counts))
  else value.

(** [wb.create_sheet(title, index)]: a new empty sheet under a title made
    unique, at [index], or at the end without one.  Returns the workbook
    and the title the sheet received. *)
Definition create_sheet (wb : Workbook) (name : string) (index : option nat)
    : Workbook * string :=
  let t := avoid_duplicate_name (sheetnames wb) name in
  let sh := mkSheet t empty_sheet in
  match index with
  | Some i => (list_insert_at i sh wb, t)
  | None => ((wb ++ [sh])%list, t)
  end.

(** Update, through its reference, of the sheet that carries a title. *)
Fixpoint update_sheet (t : string) (f : Worksheet -> Result Worksheet) (wb : Workbook)
    : Result Workbook :=
  match wb with
  | [] => ret []
  | sh :: wb' =>
      if String.eqb (title sh) t
      then let! w := f (content sh) in ret (mkSheet t w :: wb')
      else let! wb'' := update_sheet t f wb' in ret (sh :: wb'')
  end.

(** [wb.worksheets[0]] *)
Definition first_sheet (wb : Workbook) : Result Worksheet :=
  match wb with
  | sh :: _ => ret (content sh)
  | [] => raise (IndexError "list index out of range")
  end.

(** [replace_sheets_in_template] (lines 307-379) on the three loaded
    workbooks; the result is the workbook that is saved to [out_xlsx]. *)
Definition replace_sheets_in_template
    (wb_template wb_schedule wb_forms : Workbook)
    (schedule_sheet_name forms_sheet_name : string) (fast : bool)
    : Result Workbook :=
  (* Determine insertion indices to preserve original order if sheets existed *)
  let '(schedule_index, wb1) :=
    if bool_decide (schedule_sheet_name ∈ sheetnames wb_template)
    then (Some (index_of schedule_sheet_name (sheetnames wb_template)),
          remove_sheet schedule_sheet_name wb_template)
    else (None, wb_template) in
  let '(forms_index, wb2) :=
    if bool_decide (forms_sheet_name ∈ sheetnames wb1)
    then (Some (index_of forms_sheet_name (sheetnames wb1)),
          remove_sheet forms_sheet_name wb1)
    else (None, wb1) in
  (* Create destination sheets at recorded positions (or append if None) *)
  let '(wb3, dest_schedule) := create_sheet wb2 schedule_sheet_name schedule_index in
  let '(wb4, dest_forms) := create_sheet wb3 forms_sheet_name forms_index in
  let! src_schedule := first_sheet wb_schedule in
  let! src_forms := first_sheet wb_forms in
  if fast then
    let! wb5 := update_sheet dest_schedule
                  (fun d => ret (_copy_worksheet_values_only src_schedule d)) wb4 in
    let! wb6 := update_sheet dest_forms
                  (fun d => ret (_copy_worksheet_values_only src_forms d)) wb5 in
    let! wb7 := update_sheet dest_schedule
                  (fun d => ret (_copy_header_styles src_schedule d 5)) wb6 in
    update_sheet dest_forms (fun d => ret (_copy_header_styles src_forms d 3)) wb7
  else
    let! wb5 := update_sheet dest_schedule (_copy_worksheet_contents src_schedule) wb4 in
    update_sheet dest_forms (_copy_worksheet_contents src_forms) wb5.

(** The sheets of a workbook that carry neither of two titles, in order. *)
Definition others (s f : string) (wb : Workbook) : Workbook :=
  List.filter (fun sh => negb (String.eqb (title sh) s) && negb (String.eqb (title sh) f)) wb.

(** *** [auto_format_sheet] (lines 382-432) *)

Definition header_font : Font := mkFont None true false.
Definition center_align : Alignment := mkAlignment (Some "center") (Some "center") true.
Definition header_fill : Fill := mkFill (Some "solid") "D9E1F2" "D9E1F2".
Definition thin_side : Side := mkSide (Some "thin") None.
Definition thin_border : Border :=
  mkBorder (Some thin_side) (Some thin_side) (Some thin_side) (Some thin_side).

(** The assignments to one header cell (lines 400-412). *)
Definition format_header_cell (skip_fill_rows : list nat) (r col_idx : nat) (st : Style)
    : Style :=
  let st := set_font header_font st in
  let st := set_alignment center_align st in
  let ft := fill_type (fill st) in
  let beyond_ctdm := (r =? 1)%nat && negb (col_idx =? 0)%nat && (4 <? col_idx)%nat in
  let st := if negb (opt_truthy ft) && negb (bool_decide (r ∈ skip_fill_rows))
               && negb beyond_ctdm
            then set_fill header_fill st else st in
  set_border thin_border st.

(** The assignments to one data cell (lines 417-418). *)
Definition format_data_cell (st : Style) : Style :=
  set_border thin_border (set_alignment (mkAlignment None (Some "center") true) st).

(** [for cell in <cells of row r, columns 1..max_column>: <restyle>]; the
    cells are created when absent. *)
Definition style_row (f : nat -> nat -> Style -> Style) (ws : Worksheet) (r : nat)
    : Worksheet :=
  foldl (fun w c => restyle (fst (get_cell w r c)) r c (f r c)) ws (seq 1 (max_column ws)).

Section Widths.
Variable float_repr : Z -> Z -> string.

Definition value_len (v : Value) : nat :=
  match v with
  | VNone => 0
  | _ => PyStr.len (PyVal.str float_repr v)
  end.

(** Lines 420-432: each column as wide as its longest value plus 3,
    between 10 and 80; [sheet.columns] yields nothing on a sheet that never
    received a cell. *)
Definition auto_widths (ws : Worksheet) : Worksheet :=
  if (current_row ws =? 0)%nat then ws
  else
    foldl (fun w c =>
             let w1 := foldl (fun w r => fst (get_cell w r c)) w (seq 1 (max_row w)) in
             let max_length :=
               max_list (map (fun r => value_len (value_at w1 (r, c)))
                           (seq 1 (max_row w1))) in
             mkWorksheet (cells w1) (merged w1) (current_row w1)
               (<[c := VInt (Z.of_nat (Nat.max 10 (Nat.min 80 (max_length + 3))))]>
                  (col_width w1))
               (row_height w1) (freeze_panes w1))
          ws (seq 1 (max_column ws)).

Definition auto_format_sheet (sheet : Worksheet) (header_rows : nat)
    (skip_fill_rows : list nat) : Worksheet :=
  let header_rows := Nat.max 1 (Nat.min header_rows (max_row sheet)) in
  (* Style header rows *)
  let s1 := foldl (style_row (format_header_cell skip_fill_rows)) sheet
              (seq 1 header_rows) in
  (* Style all data rows *)
  let s2 := foldl (style_row (fun _ _ => format_data_cell)) s1
              (seq (S header_rows) (max_row s1 - header_rows)) in
  (* Auto-adjust column widths *)
  auto_widths s2.

(** [finalize_formatting] (lines 435-445) on the loaded workbook. *)
Definition finalize_formatting (wb : Workbook) (forms_sheet_name : string) : Workbook :=
  map (fun sh => if String.eqb (title sh) forms_sheet_name
                 then mkSheet (title sh) (auto_format_sheet (content sh) 3 [])
                 else sh) wb.

End Widths.

End Graft.

(** ** The grid layout builder (schedule_layout.py, lines 49-351) *)

Module Layout.
Import PyStr PyVal Xl EventName.

(** A pandas table: column labels and rows of scalars (every row as long
    as the labels; labels distinct). *)
Record DataFrame : Type := mkDataFrame {
  columns : list string;
  rows : list (list Value)
}.

Fixpoint column_index (name : string) (cols : list string) : option nat :=
  match cols with
  | [] => None
  | c :: cols' =>
      if String.eqb c name then Some 0
      else option_map S (column_index name cols')
  end.

(** [key in r.index], [key in df.columns] *)
Definition has_column (cols : list string) (key : string) : bool :=
  match column_index key cols with
  | Some _ => true
  | None => false
  end.

(** [r.get(key, dflt)] on a row [r] of a table with labels [cols]. *)
Definition row_get (cols : list string) (r : list Value) (key : string) (dflt : Value)
    : Value :=
  match column_index key cols with
  | Some i => nth i r VNone
  | None => dflt
  end.

(** [df[name]]: the values of a column; [KeyError] without it. *)
Definition get_column (df : DataFrame) (name : string) : Result (list Value) :=
  match column_index name (columns df) with
  | Some i => ret (map (fun r => nth i r VNone) (rows df))
  | None => raise (KeyError name)
  end.

(** [df.columns = [c.strip() for c in df.columns]] *)
Definition strip_columns (df : DataFrame) : DataFrame :=
  mkDataFrame (map strip (columns df)) (rows df).

Definition enumerate {A} (l : list A) : list (nat * A) :=
  combine (seq 0 (length l)) l.

(** Styles (lines 98-105). *)
Definition bold_font : Font := mkFont None true false.
Definition center : Alignment := mkAlignment (Some "center") (Some "center") true.
Definition left_align : Alignment := mkAlignment (Some "left") (Some "center") true.
Definition thin : Side := mkSide (Some "thin") (Some "000000").
Definition thin_box : Border := mkBorder (Some thin) (Some thin) (Some thin) (Some thin).
Definition header_fill : Fill := mkFill (Some "solid") "D9E1F2" "D9E1F2".
Definition grey_fill : Fill := mkFill (Some "solid") "E7E6E6" "E7E6E6".

(** font, alignment, fill and border of a header cell. *)
Definition header_style (st : Style) : Style :=
  set_border thin_box (set_fill header_fill (set_alignment center (set_font bold_font st))).

Definition default_left_columns : list string := ["Form Label"; "Form Name"; "Source"].
Definition default_extra_headers : list string :=
  ["Common Forms"; "N/A"; "Is Form Dynamic?"; "Form Dynamic Criteria";
   "Additional Programming Instructions"].

Definition dynamic_rows : list string :=
  ["Visit Dynamics (If Y, then Event should appear based on triggering criteria)";
   "Triggering: Event";
   "Triggering: Form";
   "Triggering: Item = Response (if specific response expected, else leave to accept any entered result)"].

Definition event_window_rows : list string :=
  ["Assign Visit Window";
   "Offset Type (Previous Event, Specific Event, or None)";
   "Offset Days (Planned Visit Date, as calculated from Offset Event)";
   "Day Range - Early";
   "Day Range - Late"].

Definition sections : list (string * list string) :=
  [("Visit Dynamic Properties", dynamic_rows);
   ("Event Window Configuration", event_window_rows)].

(** Lines 77-84: the index of the first visit whose group contains
    "random", else 0. *)
Fixpoint find_rand (i : nat) (groups : list string) : option nat :=
  match groups with
  | [] => None
  | g :: groups' =>
      if contains "random" (lower g) then Some i else find_rand (S i) groups'
  end.

Definition rand_index (visit_groups : list string) : nat :=
  match find_rand 0 visit_groups with
  | Some i => i
  | None => 0
  end.

(** Lines 281-284 and 322-325: a missing value becomes the empty string,
    and a float close to its truncation becomes that integer. *)
Definition coerce (v : Value) : Result Value :=
  let v := if isna v then VStr "" else v in
  match v with
  | VFloat f =>
      let! z := float_to_int f in
      if isclose f (FFin z 0) then ret (VInt z) else ret v
  | _ => ret v
  end.



(** Lines 149-156: the long label of a short code; [prev] is the label
    variable as the previous iterations left it ([None] = unbound). *)
Definition event_label_of (en : string) (prev : option string) : option string :=
  if String.eqb en "SCRN" then Some "Screening"
  else if String.eqb en "RAND" then Some "Randomisation"
  else if contains "V" en then Some ("Visit " ++ tail en)
  else if contains "P" en then Some ("Phone Visit " ++ tail en)
  else prev.

(** Lines 146-160. *)
Definition row2_event_labels (col_start_visits : nat) (event_names : list string)
    (visit_labels : list string) (ws : Worksheet) : Result Worksheet :=
  let! st := for_each (enumerate visit_labels) (ws, None)
    (fun (st : Worksheet * option string) jv =>
       let j := fst jv in
       let c := col_start_visits + j in
       match event_label_of (nth j event_names "") (snd st) with
       | None => raise (UnboundLocalError "event_label")
       | Some event_label =>
           let! w := put (fst st) 2 c (VStr event_label) header_style in
           ret (w, Some event_label)
       end) in
  ret (fst st).

(** Lines 162-168. *)
Definition row3_event_names (col_start_visits : nat) (event_names : list string)
    (ws : Worksheet) : Result Worksheet :=
  for_each (enumerate event_names) ws
    (fun w je => put w 3 (col_start_visits + fst je) (VStr (snd je)) header_style).

(** Lines 94-168: the new sheet with the left columns, the "Event
    Group/Label/Name" column, the RTSM column and rows 2 and 3 of the
    visit columns. *)
Definition header_block (left event_names visit_labels : list string) : Result Worksheet :=
  let ws := empty_sheet in
  (* Left columns *)
  let! ws := for_each (enumerate left) ws
               (fun w il =>
                  for_each [1; 2; 3] w
                    (fun w row =>
                       put w row (fst il + 1)
                         (if (row =? 2)%nat then VStr (snd il) else VNone) header_style)) in
  let col_after_source := length left + 1 in
  let! ws := put ws 1 col_after_source (VStr "Event Group:") header_style in
  let! ws := put ws 2 col_after_source (VStr "Event Label:") header_style in
  let! ws := put ws 3 col_after_source (VStr "Event Name:") header_style in
  let col_rtsm := col_after_source + 1 in
  let! ws := for_each [1; 2; 3] ws (fun w r => put w r col_rtsm (VStr "RTSM") header_style) in
  let col_start_visits := col_rtsm + 1 in
  let! ws := row2_event_labels col_start_visits event_names visit_labels ws in
  row3_event_names col_start_visits event_names ws.

(** [ws.cell(row=1, column=cc).border = border] for [cc] in
    [range(first, stop)]. *)
Definition border_row1 (first stop : nat) (ws : Worksheet) : Result Worksheet :=
  for_each (seq first (stop - first)) ws (fun w cc => put w 1 cc VNone (set_border thin_box)).

(** Lines 177-182 and 185-190: one merged band of row 1, from
    [group_start_col] to [last_col], anchored on the group text. *)
Definition close_group (cur_group : string) (group_start_col last_col : nat)
    (ws : Worksheet) : Result Worksheet :=
  let! w := merge_cells ws (mkRange 1 group_start_col 1 last_col) in
  let! w := put w 1 group_start_col (VStr cur_group)
              (fun st => set_fill header_fill (set_alignment center (set_font bold_font st))) in
  border_row1 group_start_col (S last_col) w.

(** Lines 170-190.  [cur] holds [cur_group] and [group_start_col], which
    are assigned together. *)
Definition row1_step (col_start_visits : nat) (st : Worksheet * option (string * nat))
    (jg : nat * string) : Result (Worksheet * option (string * nat)) :=
  let '(j, g) := jg in
  let c := col_start_visits + j in
  let '(cur_group, group_start_col) := default (g, c) (snd st) in
  if negb (String.eqb g cur_group) then
    let! w := close_group cur_group group_start_col (c - 1) (fst st) in
    ret (w, Some (g, c))
  else ret (fst st, Some (cur_group, group_start_col)).

Definition row1_event_groups (col_start_visits : nat) (visit_groups : list string)
    (ws : Worksheet) : Result Worksheet :=
  let n_visits := length visit_groups in
  let! st := for_each (enumerate visit_groups) (ws, None) (row1_step col_start_visits) in
  match snd st with
  | Some (cur_group, group_start_col) =>
      close_group cur_group group_start_col (col_start_visits + n_visits - 1) (fst st)
  | None => ret (fst st)
  end.

(** The bands the loop of lines 170-190 closes: for the groups [gs] of
    the columns from [c] on, while the group [g] is open since column
    [s]. *)
Fixpoint bands_from (c : nat) (gs : list string) (g : string) (s : nat)
    : list (Range * string) :=
  match gs with
  | [] => [(mkRange 1 s 1 (c - 1), g)]
  | g' :: gs' =>
      if negb (String.eqb g' g)
      then (mkRange 1 s 1 (c - 1), g) :: bands_from (S c) gs' g' c
      else bands_from (S c) gs' g s
  end.

Definition row1_bands (c0 : nat) (groups : list string) : list (Range * string) :=
  match groups with
  | [] => []
  | g :: gs => bands_from (S c0) gs g c0
  end.

Definition close_band (w : Worksheet) (b : Range * string) : Result Worksheet :=
  close_group (snd b) (min_col (fst b)) (max_col_of (fst b)) w.

(** Ranges of row 1 that follow one another from column [c] up to, not
    including, column [stop]. *)
Fixpoint bands_chain (c : nat) (bs : list Range) (stop : nat) : Prop :=
  match bs with
  | [] => c = stop
  | rg :: bs' =>
      min_row rg = 1 /\ max_row_of rg = 1 /\ min_col rg = c /\ c <= max_col_of rg
      /\ bands_chain (S (max_col_of rg)) bs' stop
  end.

(** Lines 192-203. *)
Definition extra_header_cells (first_col : nat) (extra : list string) (ws : Worksheet)
    : Result Worksheet :=
  for_each (enumerate extra) ws
    (fun w ih =>
       let c := first_col + fst ih in
       let box st := set_border thin_box (set_fill header_fill st) in
       let! w := put w 1 c (VStr "") box in
       let! w := put w 2 c (VStr (snd ih)) header_style in
       put w 3 c (VStr "") box).

(** The outcome of one pass through the body of the visit loop of an
    attribute row: the value to write, or leaving the loop ([break]). *)
Inductive Step : Type :=
| Write (v : Value)
| Break.

Section Builder.
Variable float_repr : Z -> Z -> string.

(** Lines 242-279: [mapped_value] for attribute [attr] and visit [j]. *)
Definition mapped_value (df_visits : DataFrame) (visit_groups visit_labels event_names
    : list string) (rand_idx : nat) (attr : string) (j : nat) : Step :=
  let en := nth j event_names "" in
  if startswith "Visit Dynamics" attr then
    let eg := lower (nth j visit_groups "") in
    if (rand_idx <=? j)%nat
       && (negb (contains "end of treatment" eg) && negb (contains "end of study" eg))
    then Write (VStr "Y") else Write (VStr "")
  else if startswith "Triggering: Event" attr then
    if String.eqb en "RAND" then Write (VStr "SCRN")
    else if startswith "V" en && (0 <? j)%nat then Write (VStr (nth (j - 1) event_names ""))
    else if String.eqb (lower en) "follow-up" then Write (VStr "EOT")
    else Write (VStr "")
  else if startswith "Triggering: Form" attr then
    if String.eqb en "RAND" then Write (VStr "ELIGIBILITY_CRITERIA")
    else if (rand_idx <? j)%nat then
      if contains "V" (nth j visit_labels "") then Break
      else Write (VStr "")
    else Write (VStr "")
  else if startswith "Assign Visit Window" attr then Write (VStr "Y")
  else
    let from_column name :=
      Write (row_get (columns df_visits) (nth j (rows df_visits) []) name (VStr "")) in
    if startswith "Offset Type" attr && has_column (columns df_visits) "Offset Type"
    then from_column "Offset Type"
    else if startswith "Offset Days" attr && has_column (columns df_visits) "Offset Days"
    then from_column "Offset Days"
    else if startswith "Day Range - Early" attr
            && has_column (columns df_visits) "Day Range - Early"
    then from_column "Day Range - Early"
    else if startswith "Day Range - Late" attr
            && has_column (columns df_visits) "Day Range - Late"
    then from_column "Day Range - Late"
    else Write (VStr "").

(** Lines 240-287: the visit cells of one attribute row, left to right,
    until the end or a [break]. *)
Fixpoint attr_visit_cells (step : nat -> Step) (col_start_visits cur_row : nat)
    (js : list nat) (ws : Worksheet) : Result Worksheet :=
  match js with
  | [] => ret ws
  | j :: js' =>
      match step j with
      | Break => ret ws
      | Write v =>
          let! v' := coerce v in
          let! w := put ws cur_row (col_start_visits + j) v'
                      (fun st => set_border thin_box (set_alignment center st)) in
          attr_visit_cells step col_start_visits cur_row js' w
      end
  end.

Definition grey_title (al : Alignment) (st : Style) : Style :=
  set_border thin_box (set_fill grey_fill (set_alignment al (set_font bold_font st))).

(** Lines 232-290: one attribute row. *)
Definition attr_row (df_visits : DataFrame) (visit_groups visit_labels event_names
    : list string) (rand_idx n_left col_rtsm col_start_visits : nat)
    (st : Worksheet * nat) (attr : string) : Result (Worksheet * nat) :=
  let '(ws, cur_row) := st in
  let n_visits := length visit_labels in
  let! w := merge_cells ws (mkRange cur_row 1 cur_row n_left) in
  let! w := put w cur_row 1 (VStr attr) (grey_title left_align) in
  let! w := attr_visit_cells
              (mapped_value df_visits visit_groups visit_labels event_names rand_idx attr)
              col_start_visits cur_row (seq 0 n_visits) w in
  let! w := put w cur_row col_rtsm (VStr "") (set_border thin_box) in
  ret (w, S cur_row).

(** Lines 223-290: one section, its title row and its attribute rows. *)
Definition section_rows (df_visits : DataFrame) (visit_groups visit_labels event_names
    : list string) (rand_idx n_left col_rtsm col_start_visits : nat)
    (st : Worksheet * nat) (sec : string * list string) : Result (Worksheet * nat) :=
  let '(ws, cur_row) := st in
  let! w := merge_cells ws (mkRange cur_row 1 cur_row n_left) in
  let! w := put w cur_row 1 (VStr (fst sec)) (grey_title center) in
  for_each (snd sec) (w, S cur_row)
    (attr_row df_visits visit_groups visit_labels event_names rand_idx n_left col_rtsm
       col_start_visits).

(** Lines 313-325: the value of a form row under a visit column. *)
Definition form_visit_value (form_cols : list string) (r : list Value)
    (vlabel en : string) : Result Value :=
  let val :=
    if has_column form_cols vlabel then row_get form_cols r vlabel VNone
    else if has_column form_cols en then row_get form_cols r en VNone
    else VStr "" in
  coerce val.

Definition align (al : Alignment) : Style -> Style := set_alignment al.

(** Lines 307-335: one form row. *)
Definition form_row (form_cols : list string) (visit_labels event_names extra
    : list string) (col_rtsm col_start_visits : nat)
    (st : Worksheet * nat) (r : list Value) : Result (Worksheet * nat) :=
  let '(ws, row_cursor) := st in
  let n_visits := length visit_labels in
  let rget k := row_get form_cols r k (VStr "") in
  let! w := put ws row_cursor 1 (rget "Form Label") (align left_align) in
  let! w := put w row_cursor 2 (rget "Form Name") (align left_align) in
  let! w := put w row_cursor 3 (rget "Source") (align left_align) in
  let! w := put w row_cursor col_rtsm (VStr "") (align center) in
  let! w := for_each (enumerate visit_labels) w
              (fun w jv =>
                 let! val := form_visit_value form_cols r (snd jv)
                               (nth (fst jv) event_names "") in
                 put w row_cursor (col_start_visits + fst jv) val (align center)) in
  let extra_vals (colname : string) : Value :=
    if String.eqb colname "Is Form Dynamic?"
    then por (rget "Is Form Dynamic?") (por (rget "Is Form Dynamic") (rget "IsDynamic"))
    else if String.eqb colname "Form Dynamic Criteria"
    then por (rget "Form Dynamic Criteria") (rget "Form Dynamic Criteria ")
    else VStr "" in
  let! w := for_each (enumerate extra) w
              (fun w ic =>
                 put w row_cursor (col_start_visits + n_visits + fst ic)
                   (extra_vals (snd ic)) (align center)) in
  ret (w, S row_cursor).

(** Lines 337-345: every column as wide as its longest value plus 2, at
    least 10.  Reading a column ([ws[col_letter]]) creates the cells of it
    that do not exist yet, empty. *)
Definition fit_columns (ws : Worksheet) : Worksheet :=
  foldl (fun w c =>
           let w1 := foldl (fun w r => fst (get_cell w r c)) w (seq 1 (max_row w)) in
           let max_len :=
             max_list (map (fun r => match value_at w1 (r, c) with
                                     | VNone => 0
                                     | v => PyStr.len (PyVal.str float_repr v)
                                     end)
                         (seq 1 (max_row w1))) in
           mkWorksheet (cells w1) (merged w1) (current_row w1)
             (<[c := VInt (Z.of_nat (Nat.max 10 (max_len + 2)))]> (col_width w1))
             (row_height w1) (freeze_panes w1))
        ws (seq 1 (max_column ws)).

(** Lines 64-347: the worksheet built from the two loaded tables. *)
Definition build_worksheet (df_visits df_forms : DataFrame) (config : Config)
    : Result Worksheet :=
  let df_visits := strip_columns df_visits in
  let df_forms := strip_columns df_forms in
  let! groups := get_column df_visits "Event Group" in
  let! labels := get_column df_visits "Visit Name" in
  let visit_groups := map (PyVal.str float_repr) groups in
  let visit_labels := map (PyVal.str float_repr) labels in
  let n_visits := length visit_labels in
  let! event_names :=
    for_each (seq 0 n_visits) []
      (fun acc i =>
         let! en := make_event_name (nth i visit_groups "") (nth i visit_labels "") i config in
         ret (acc ++ [en])%list) in
  let rand_idx := rand_index visit_groups in
  let left := get (left_columns config) default_left_columns in
  let extra := get (extra_headers config) default_extra_headers in
  (* HEADER *)
  let! ws := header_block left event_names visit_labels in
  let col_after_source := length left + 1 in
  let col_rtsm := col_after_source + 1 in
  let col_start_visits := col_rtsm + 1 in
  let! ws := row1_event_groups col_start_visits visit_groups ws in
  let! ws := extra_header_cells (col_start_visits + n_visits) extra ws in
  (* BLOCKS: Visit Dynamics + Event Window *)
  let! st := for_each sections (ws, 4)
               (section_rows df_visits visit_groups visit_labels event_names rand_idx
                  (length left) col_rtsm col_start_visits) in
  let '(ws, cur_row) := st in
  (* FORMS TABLE *)
  let forms_start_row := cur_row in
  let row_cursor := forms_start_row in
  let! ws := put ws row_cursor 1 (VStr "RTSM") (align left_align) in
  let! ws := put ws row_cursor 2 (VStr "RTSM") (align left_align) in
  let! ws := put ws row_cursor 3 (VStr "Library") (align left_align) in
  let! ws := put ws row_cursor col_rtsm (VStr "X") (align center) in
  let! ws := for_each (seq 0 (length extra)) ws
               (fun w idx =>
                  put w row_cursor (col_start_visits + n_visits + idx) (VStr "")
                    (align center)) in
  let! st := for_each (rows df_forms) (ws, S row_cursor)
               (form_row (columns df_forms) visit_labels event_names extra col_rtsm
                  col_start_visits) in
  let ws := fst st in
  (* formatting *)
  let ws := fit_columns ws in
  let! ws := cell ws forms_start_row col_rtsm VNone in
  ret (mkWorksheet (cells ws) (merged ws) (current_row ws) (col_width ws)
         (row_height ws) (Some (forms_start_row, col_rtsm))).

End Builder.

(** *** Files, logging and the entry point *)

Inductive LogRecord : Type :=
| LogInfo (msg : string)
| LogError (msg : string) (e : Exn).

Section Files.
(** The content of a file, and the external readers and writer: pandas'
    [read_excel] and [read_csv], openpyxl's [Workbook.save]. *)
Variable FileData : Type.
Variable parse_excel : FileData -> Result DataFrame.
Variable parse_csv : FileData -> Result DataFrame.
Variable encode_workbook : string -> Worksheet -> FileData.
Variable float_repr : Z -> Z -> string.

Record World : Type := mkWorld {
  files : gmap string FileData;
  log : list LogRecord
}.

Definition logging (rec : LogRecord) (w : World) : World :=
  mkWorld (files w) (log w ++ [rec])%list.

Definition read_with (parse : FileData -> Result DataFrame) (w : World) (path : string)
    : Result DataFrame :=
  match files w !! path with
  | Some d => parse d
  | None => raise (ReadError ("No such file or directory: " ++ path))
  end.

(** [build_schedule_layout(visit_schedule_xlsx, forms_csv, output_xlsx,
    config)]: the outcome (the output path, or the exception raised) and
    the world it leaves. *)
Definition build_schedule_layout (visit_schedule_xlsx forms_csv output_xlsx : string)
    (config : Config) (w : World) : Result string * World :=
  let w := logging (LogInfo ("Building schedule layout from " ++ visit_schedule_xlsx
                              ++ " and " ++ forms_csv)) w in
  match (let! df_visits := read_with parse_excel w visit_schedule_xlsx in
         let! df_forms := read_with parse_csv w forms_csv in
         ret (df_visits, df_forms)) with
  | inl e => (raise e, logging (LogError "Error loading input files" e) w)
  | inr (df_visits, df_forms) =>
      match build_worksheet float_repr df_visits df_forms config with
      | inl e => (raise e, w)
      | inr ws =>
          let w := mkWorld (<[output_xlsx := encode_workbook "Final PTD" ws]> (files w))
                     (log w) in
          (ret output_xlsx, logging (LogInfo ("Schedule grid saved to " ++ output_xlsx)) w)
      end
  end.

(** [generate_schedule_grid] (lines 354-378). *)
Definition generate_schedule_grid (visits_xlsx forms_csv output_xlsx : string)
    (config : Config) (w : World) : Result string * World :=
  let w := logging (LogInfo ("Generating schedule grid from " ++ visits_xlsx
                              ++ " and " ++ forms_csv)) w in
  match build_schedule_layout visits_xlsx forms_csv output_xlsx config w with
  | (inr output_path, w') => (ret output_path, w')
  | (inl e, w') => (raise e, logging (LogError "Error generating schedule grid" e) w')
  end.

End Files.

(** The label variable of lines 147-156 after the iteration for visit [j]
    ([None] = still unbound). *)
Fixpoint label_after (event_names : list string) (j : nat) : option string :=
  event_label_of (nth j event_names "")
    (match j with
     | O => None
     | S j' => label_after event_names j'
     end).

Definition is_break (s : Step) : bool :=
  match s with
  | Break => true
  | Write _ => false
  end.

(** The visit loop of an attribute row has been left at or before
    visit [j]. *)
Definition left_by (step : nat -> Step) (j : nat) : bool :=
  existsb (fun i => is_break (step i)) (seq 0 (S j)).

(** The visit loop has been left between visit [j0] and visit [j]. *)
Definition left_between (step : nat -> Step) (j0 j : nat) : bool :=
  existsb (fun i => is_break (step i)) (seq j0 (S j - j0)).

(** No cell of row [r] is a merged cell. *)
Definition row_unmerged (r : nat) (ws : Worksheet) : Prop :=
  forall c, is_merged (cell_at ws (r, c)) = false.

(** The float is an infinity. *)
Definition is_infinite (v : Value) : bool :=
  match v with
  | VFloat (FInf _) => true
  | _ => false
  end.

End Layout.

(** ** Example inputs *)

(** ** The command line entry point (generate_ptd.py, lines 448-476) *)

Module Main.

(** The parsed arguments; [out] is [None] when [--out] is not given. *)
Record Args : Type := mkArgs {
  ecrf : string;
  protocol : string;
  template : string;
  out : option string;
  inplace : bool;
  fast : bool
}.

Section Paths.
(** [os.path.abspath] and the root part of [os.path.splitext]. *)
Variable abspath : string -> string.
Variable splitext_root : string -> string.

(** Truth value of [args.out]. *)
Definition given (o : option string) : bool :=
  match o with
  | Some p => negb (String.eqb p "")
  | None => false
  end.

(** Lines 462-472: whether the warning is logged, and the path chosen
    ([None] when [main] prints the error and returns 2). *)
Definition choose_output (args : Args) : bool * option string :=
  if inplace args then
    (given (out args)
     && negb (String.eqb (abspath (default "" (out args))) (abspath (template args))),
     Some (template args))
  else if negb (given (out args)) then (false, None)
  else (false, Some (default "" (out args))).

(** Lines 474-476: the extension is normalised. *)
Definition normalize_extension (output_path : string) : string :=
  if negb (PyStr.endswith ".xlsx" (PyStr.lower output_path))
  then splitext_root output_path ++ ".xlsx"
  else output_path.

(** The path [main] goes on with. *)
Definition output_path (args : Args) : option string :=
  option_map normalize_extension (snd (choose_output args)).

End Paths.

End Main.

Module Examples.
Import PyVal Xl Graft Layout.

(** A sheet with a grey title in A1, a band text in E1 and a value in A2. *)
Definition banded_sheet : Worksheet :=
  let grey := mkFill (Some "solid") "E7E6E6" "E7E6E6" in
  let m : gmap (nat * nat) Cell :=
    <[(1, 1) := Plain (VStr "Title") (set_fill grey default_style)]>
      (<[(1, 5) := Plain (VStr "Treatment") default_style]>
         (<[(2, 1) := Plain (VInt 7) default_style]> ∅)) in
  mkWorksheet m [] 2 ∅ ∅ None.

(** A loaded sheet: a title merged over A1:C1 and two values below. *)
Definition titled_sheet : Worksheet :=
  let m : gmap (nat * nat) Cell :=
    <[(1, 1) := Plain (VStr "Schedule") default_style]>
      (<[(1, 2) := merged_cell]>
         (<[(1, 3) := merged_cell]>
            (<[(2, 1) := Plain (VInt 7) default_style]>
               (<[(2, 3) := Plain (VStr "X") default_style]> ∅)))) in
  mkWorksheet m [mkRange 1 1 1 3] 2 ∅ ∅ None.

(** A sheet with styled cells: a bold, centred, boxed, grey title with a
    number format in A1; in B1 a fill with colours and no type; a width on
    column A, none on column B, and a height of 0 on row 2. *)
Definition styled_sheet : Worksheet :=
  let title_style :=
    mkStyle (mkFont (Some "Arial") true false) (mkAlignment (Some "center") None true)
      (mkFill (Some "solid") "E7E6E6" "E7E6E6") Graft.thin_border "0.00" in
  let m : gmap (nat * nat) Cell :=
    <[(1, 1) := Plain (VStr "Title") title_style]>
      (<[(1, 2) := Plain (VInt 3)
                     (set_fill (mkFill None "FFFF0000" "FFFF0000") default_style)]>
         (<[(2, 1) := Plain (VInt 7) default_style]> ∅)) in
  mkWorksheet m [] 2 (<[1 := VFloat (FFin 20 0)]> (<[2 := VNone]> ∅))
    (<[2 := VInt 0]> ∅) None.

(** A loaded sheet whose only cell has a border with a left side alone. *)
Definition sideless_sheet : Worksheet :=
  let st := set_border (mkBorder (Some Graft.thin_side) None None None) default_style in
  mkWorksheet (<[(1, 1) := Plain (VStr "x") st]> ∅) [] 1 ∅ ∅ None.

(** A sheet whose only cell holds a text of 14 characters, the first of
    them the three bytes of U+2265. *)
Definition age_sheet : Worksheet :=
  mkWorksheet (<[(1, 1) := Plain (VStr "≥ 18 years old") default_style]> ∅) [] 1 ∅ ∅ None.

(** Row 7 of a grid under construction: the attribute label merged over
    A7:C7, no visit cell yet. *)
Definition attr_sheet : Worksheet :=
  let m : gmap (nat * nat) Cell :=
    <[(7, 1) := Plain (VStr "Triggering: Form") default_style]>
      (<[(7, 2) := merged_cell]> (<[(7, 3) := merged_cell]> ∅)) in
  mkWorksheet m [mkRange 7 1 7 3] 7 ∅ ∅ None.

(** A template with a sheet of notes between the two target sheets. *)
Definition template_wb : Workbook :=
  [mkSheet "Schedule Grid" banded_sheet;
   mkSheet "Notes" titled_sheet;
   mkSheet "Study Specific Forms" banded_sheet].

Definition generated_wb : Workbook := [mkSheet "Final PTD" titled_sheet].

(** Three visits, the first one the randomisation visit. *)
Definition visits_after_rand : DataFrame :=
  mkDataFrame ["Event Group"; "Visit Name"]
    [[VStr "Randomisation"; VStr "V1"];
     [VStr "Treatment"; VStr "V2"];
     [VStr "Treatment"; VStr "V3"]].

Definition no_forms : DataFrame :=
  mkDataFrame ["Form Label"; "Form Name"; "Source"] [].

(** A screening visit followed by an RTSM event. *)
Definition visits_with_rtsm : DataFrame :=
  mkDataFrame ["Event Group"; "Visit Name"]
    [[VStr "Screening"; VStr "V1"];
     [VStr "RTSM"; VStr "Kit assignment"]].

Definition visits_rtsm_first : DataFrame :=
  mkDataFrame ["Event Group"; "Visit Name"]
    [[VStr "RTSM"; VStr "Kit assignment"];
     [VStr "Screening"; VStr "V1"]].



(** A reader of text files that rejects every content. *)
Definition reject (_ : string) : Result DataFrame := raise (ReadError "not a table").

End Examples.

(** * Properties *)


(** ** Event-name derivation *)

Section EventNameFacts.
Import PyStr Re EventName.

Lemma lower_char_not_upper x : is_upper (lower_char x) = false.
Proof. destruct x as [[] [] [] [] [] [] [] []]; reflexivity. Qed.

Lemma occurs_lower c s : is_upper c = true -> occurs c (lower s) = false.
Proof.
  intros Hc. induction s as [|x s IH]; simpl; [reflexivity|].
  rewrite IH, orb_false_r.
  destruct (Ascii.eqb_spec c (lower_char x)) as [->|]; [|reflexivity].
  rewrite lower_char_not_upper in Hc. discriminate.
Qed.

(** A pattern that opens with [\b] and a literal cannot match where the
    literal does not occur. *)
Lemma match_here_absent c p prev s :
  occurs c s = false -> match_here (WordB :: Lit c :: p) prev s = None.
Proof.
  intros H. simpl.
  destruct (xorb _ _); [|reflexivity].
  destruct s as [|x s]; [reflexivity|].
  simpl in H. apply orb_false_iff in H as [H _]. rewrite H. reflexivity.
Qed.

Lemma search_from_absent c p prev s :
  occurs c s = false -> search_from (WordB :: Lit c :: p) prev s = None.
Proof.
  revert prev. induction s as [|x s IH]; intros prev H;
    cbn [search_from]; rewrite (match_here_absent c p prev _ H).
  - reflexivity.
  - simpl in H. apply orb_false_iff in H as [_ H]. apply IH, H.
Qed.

Lemma search_lowered_none s :
  or_else (search pat_V (lower s))
    (or_else (search pat_Visit (lower s)) (search pat_P (lower s))) = None.
Proof.
  unfold search, pat_V, pat_Visit, pat_P. simpl lits. simpl app.
  rewrite !search_from_absent by (apply occurs_lower; reflexivity).
  reflexivity.
Qed.

(** *** Substrings *)

Lemma app_nil_str (s : string) : "" ++ s = s.
Proof. reflexivity. Qed.

Lemma app_cons_str x (a s : string) : String x a ++ s = String x (a ++ s).
Proof. reflexivity. Qed.

Lemma startswith_app p s : startswith p (p ++ s) = true.
Proof. induction p as [|a p IH]; simpl; [reflexivity|]. now rewrite Ascii.eqb_refl. Qed.

Lemma startswith_inv p s : startswith p s = true -> exists t, s = p ++ t.
Proof.
  revert s. induction p as [|a p IH]; intros s H; simpl in *.
  - now exists s.
  - destruct s as [|b s]; [discriminate|].
    apply andb_true_iff in H as [Hab H].
    apply Ascii.eqb_eq in Hab as ->.
    destruct (IH _ H) as [t ->]. now exists t.
Qed.

Lemma contains_inv n h : contains n h = true -> exists a b, h = a ++ n ++ b.
Proof.
  induction h as [|x h IH]; simpl; intros H.
  - rewrite orb_false_r in H. destruct (startswith_inv _ _ H) as [t ->].
    now exists EmptyString, t.
  - apply orb_true_iff in H as [H|H].
    + destruct (startswith_inv _ _ H) as [t ->]. now exists EmptyString, t.
    + destruct (IH H) as (a & b & ->). now exists (String x a), b.
Qed.

Lemma contains_startswith n h : startswith n h = true -> contains n h = true.
Proof. intros H. destruct h; simpl; now rewrite H. Qed.

Lemma contains_intro n a b : contains n (a ++ n ++ b) = true.
Proof.
  induction a as [|x a IH].
  - rewrite app_nil_str. apply contains_startswith, startswith_app.
  - rewrite app_cons_str. simpl. rewrite IH. apply orb_true_r.
Qed.

Lemma string_app_assoc (a b c : string) : (a ++ b) ++ c = a ++ b ++ c.
Proof.
  induction a as [|x a IH]; [reflexivity|].
  rewrite !app_cons_str. now rewrite IH.
Qed.

(** Containment passes from a part of a string to the whole. *)
Lemma contains_infix n h a b : contains n h = true -> contains n (a ++ h ++ b) = true.
Proof.
  intros H. destruct (contains_inv _ _ H) as (a' & b' & ->).
  replace (a ++ (a' ++ n ++ b') ++ b) with ((a ++ a') ++ n ++ (b' ++ b)).
  - apply contains_intro.
  - now rewrite !string_app_assoc.
Qed.

Lemma lower_app a b : lower (a ++ b) = lower a ++ lower b.
Proof.
  induction a as [|x a IH]; [reflexivity|].
  rewrite app_cons_str. simpl. now rewrite IH, app_cons_str.
Qed.

Lemma lstrip_suffix s : exists a, s = a ++ lstrip s.
Proof.
  induction s as [|x s [a IH]]; simpl.
  - now exists EmptyString.
  - destruct (is_space x).
    + exists (String x a). rewrite app_cons_str. now f_equal.
    + now exists EmptyString.
Qed.

Lemma rstrip_prefix s : exists b, s = rstrip s ++ b.
Proof.
  induction s as [|x s [b IH]]; simpl.
  - now exists EmptyString.
  - destruct (rstrip s) as [|y r] eqn:E.
    + destruct (is_space x).
      * now exists (String x s).
      * exists s. reflexivity.
    + exists b. rewrite app_cons_str. now f_equal.
Qed.

Lemma strip_infix s : exists a b, s = a ++ strip s ++ b.
Proof.
  unfold strip. destruct (lstrip_suffix s) as [a Ha].
  destruct (rstrip_prefix (lstrip s)) as [b Hb].
  exists a, b. now rewrite <- Hb.
Qed.

(** A keyword found in the stripped, lowered text is in the lowered text. *)
Lemma contains_lower_strip kw s :
  contains kw (lower (strip s)) = true -> contains kw (lower s) = true.
Proof.
  intros H. destruct (strip_infix s) as (a & b & E).
  rewrite E at 1. rewrite !lower_app. now apply contains_infix.
Qed.

Lemma contains_lower_strip_false kw s :
  contains kw (lower s) = false -> contains kw (lower (strip s)) = false.
Proof.
  intros H. destruct (contains kw (lower (strip s))) eqn:E; [|reflexivity].
  apply contains_lower_strip in E. congruence.
Qed.

(** C10. For a group that contains none of "screen", "random" and "rtsm"
    (case-insensitively), [make_event_name] returns [V{idx+1}] whatever the
    label is: the three patterns carry the capitals V and P and are
    searched in the lowered label, so they never match. *)
Theorem make_event_name_positional (group label : string) (idx : nat) (config : Config) :
  contains "screen" (lower group) = false ->
  contains "random" (lower group) = false ->
  contains "rtsm" (lower group) = false ->
  make_event_name group label idx config = ret ("V" ++ of_nat (idx + 1)).
Proof.
  intros H1 H2 H3. unfold make_event_name.
  rewrite (contains_lower_strip_false _ _ H1), (contains_lower_strip_false _ _ H2),
    (contains_lower_strip_false _ _ H3).
  now rewrite search_lowered_none.
Qed.

Lemma make_event_name_positional_witness :
  make_event_name "Treatment" "Visit 12 (P3)" 4 empty_config = ret "V5".
Proof.
  apply (make_event_name_positional "Treatment" "Visit 12 (P3)" 4 empty_config);
    reflexivity.
Defined.

(** C1. On the group "Treatment" and the label "V5" at position 0 the
    first pattern matches the label itself, with number 5, for which the
    default visit template gives "V5"; in the lowered label that
    [make_event_name] searches nothing matches, and it returns the
    positional "V1". *)
Theorem make_event_name_ignores_label_number :
  search pat_V (strip "V5") = Some (mkMatch "V5" "5")
  /\ format "V{number}" "5" = ret "V5"
  /\ search pat_V (lower (strip "V5")) = None
  /\ make_event_name "Treatment" "V5" 0 empty_config = ret "V1".
Proof. repeat split. Qed.

End EventNameFacts.

(** ** Worksheet operations *)

Section SheetFacts.
Import PyVal Xl.

Lemma foldl_invariant {A B} (P : A -> Prop) (step : A -> B -> A) (l : list B) (a : A) :
  (forall a x, P a -> P (step a x)) -> P a -> P (foldl step a l).
Proof.
  intros Hstep. revert a. induction l as [|x l IH]; intros a Ha; simpl; [exact Ha|].
  apply IH, Hstep, Ha.
Qed.

Lemma cell_at_get_cell ws r c p : cell_at (fst (get_cell ws r c)) p = cell_at ws p.
Proof.
  unfold get_cell, cell_at.
  destruct (cells ws !! (r, c)) as [x|] eqn:E; simpl; [reflexivity|].
  destruct (decide (p = (r, c))) as [->|Hne].
  - now rewrite lookup_insert_eq, E.
  - now rewrite lookup_insert_ne.
Qed.

Lemma snd_get_cell ws r c : snd (get_cell ws r c) = cell_at ws (r, c).
Proof.
  unfold get_cell, cell_at. now destruct (cells ws !! (r, c)).
Qed.

Lemma merged_get_cell ws r c : merged (fst (get_cell ws r c)) = merged ws.
Proof. unfold get_cell. now destruct (cells ws !! (r, c)). Qed.

Lemma lookup_get_cell ws r c :
  cells (fst (get_cell ws r c)) !! (r, c) = Some (cell_at ws (r, c)).
Proof.
  unfold get_cell, cell_at.
  destruct (cells ws !! (r, c)) as [x|] eqn:E; simpl; [exact E|].
  apply lookup_insert_eq.
Qed.

Lemma cell_at_restyle ws r c f p :
  cell_at (restyle ws r c f) p =
  if decide (p = (r, c))
  then match cells ws !! (r, c) with
       | Some x => with_style f x
       | None => empty_cell
       end
  else cell_at ws p.
Proof.
  unfold restyle, cell_at.
  destruct (cells ws !! (r, c)) as [x|] eqn:E; simpl.
  - destruct (decide (p = (r, c))) as [->|Hne].
    + now rewrite lookup_insert_eq.
    + now rewrite lookup_insert_ne.
  - destruct (decide (p = (r, c))) as [->|Hne]; [now rewrite E|reflexivity].
Qed.

Lemma style_with_style f x : style (with_style f x) = f (style x).
Proof. now destruct x. Qed.

Lemma value_with_style f x : value (with_style f x) = value x.
Proof. now destruct x. Qed.

Lemma is_merged_with_style f x : is_merged (with_style f x) = is_merged x.
Proof. now destruct x. Qed.

(** Fetching a cell (created when absent) and restyling it. *)
Lemma cell_at_touch ws r c f p :
  cell_at (restyle (fst (get_cell ws r c)) r c f) p =
  if decide (p = (r, c))
  then with_style f (cell_at ws p)
  else cell_at ws p.
Proof.
  rewrite cell_at_restyle, lookup_get_cell.
  destruct (decide (p = (r, c))) as [->|]; [reflexivity|apply cell_at_get_cell].
Qed.

End SheetFacts.

(** ** Header post-formatting *)

Section AutoFormatFacts.
Import PyVal Xl Graft Examples.

Lemma format_header_cell_fill skip r c st :
  opt_truthy (fill_type (fill st)) = true \/ (r = 1 /\ 4 < c) ->
  fill (format_header_cell skip r c st) = fill st.
Proof.
  intros H. unfold format_header_cell. simpl.
  destruct H as [H|[-> H]].
  - now rewrite H.
  - replace (4 <? c)%nat with true by (symmetry; apply Nat.ltb_lt; lia).
    replace (c =? 0)%nat with false by (symmetry; apply Nat.eqb_neq; lia).
    simpl. now rewrite !andb_false_r.
Qed.

Lemma format_data_cell_fill st : fill (format_data_cell st) = fill st.
Proof. reflexivity. Qed.

(** A pass over a row with assignments that leave the fill at [q] alone
    leaves it alone. *)
Lemma style_row_fill (f : nat -> nat -> Style -> Style) q ws r :
  (forall st, fill st = fill_at ws q -> fill (f (fst q) (snd q) st) = fill st) ->
  fill_at (style_row f ws r) q = fill_at ws q.
Proof.
  intros Hf. unfold style_row.
  apply (foldl_invariant (fun w => fill_at w q = fill_at ws q)); [|reflexivity].
  intros w c Hw. unfold fill_at in *. rewrite cell_at_touch.
  destruct (decide (q = (r, c))) as [->|]; [|exact Hw].
  rewrite style_with_style, <- Hw. apply (Hf (style (cell_at w (r, c)))). exact Hw.
Qed.

Lemma style_rows_fill (f : nat -> nat -> Style -> Style) q ws rs :
  (forall st, fill st = fill_at ws q -> fill (f (fst q) (snd q) st) = fill st) ->
  fill_at (foldl (style_row f) ws rs) q = fill_at ws q.
Proof.
  intros Hf.
  apply (foldl_invariant (fun w => fill_at w q = fill_at ws q)); [|reflexivity].
  intros w r Hw. rewrite <- Hw. apply style_row_fill.
  intros st Hst. apply Hf. congruence.
Qed.

Lemma cell_at_auto_widths float_repr ws p :
  cell_at (auto_widths float_repr ws) p = cell_at ws p.
Proof.
  unfold auto_widths. destruct (current_row ws =? 0)%nat; [reflexivity|].
  apply (foldl_invariant (fun w => cell_at w p = cell_at ws p)); [|reflexivity].
  intros w c Hw. rewrite <- Hw.
  change (cell_at ?x p) with (default empty_cell (cells x !! p)) at 1. simpl.
  apply (foldl_invariant (fun w' => cell_at w' p = cell_at w p)); [|reflexivity].
  intros w' r Hw'. now rewrite cell_at_get_cell.
Qed.

(** C7. [auto_format_sheet] leaves the fill of a cell as it was when the
    cell already carries a fill (a fill type is set), and when the cell is
    in row 1 beyond column 4. *)
Theorem auto_format_sheet_keeps_fill float_repr sheet header_rows skip_fill_rows r c :
  opt_truthy (fill_type (fill_at sheet (r, c))) = true \/ (r = 1 /\ 4 < c) ->
  fill_at (auto_format_sheet float_repr sheet header_rows skip_fill_rows) (r, c)
  = fill_at sheet (r, c).
Proof.
  intros H. unfold auto_format_sheet.
  set (hr := Nat.max 1 (Nat.min header_rows (max_row sheet))).
  set (s1 := foldl (style_row (format_header_cell skip_fill_rows)) sheet (seq 1 hr)).
  assert (H1 : fill_at s1 (r, c) = fill_at sheet (r, c)).
  { apply style_rows_fill. intros st Hst. apply format_header_cell_fill.
    simpl. rewrite Hst. exact H. }
  unfold fill_at at 1. rewrite cell_at_auto_widths.
  fold (fill_at (foldl (style_row (fun _ _ => format_data_cell)) s1
                   (seq (S hr) (max_row s1 - hr))) (r, c)).
  rewrite style_rows_fill; [exact H1|].
  intros st _. apply format_data_cell_fill.
Qed.

Lemma auto_format_sheet_keeps_fill_witness :
  fill_at (auto_format_sheet (fun _ _ => "") banded_sheet 3 []) (1, 1)
  = mkFill (Some "solid") "E7E6E6" "E7E6E6"
  /\ fill_at (auto_format_sheet (fun _ _ => "") banded_sheet 3 []) (1, 5) = default_fill
  /\ fill_at (auto_format_sheet (fun _ _ => "") banded_sheet 3 []) (2, 1) = header_fill.
Proof.
  split; [|split].
  - rewrite (auto_format_sheet_keeps_fill (fun _ _ => "") banded_sheet 3 [] 1 1);
      [reflexivity|left; reflexivity].
  - rewrite (auto_format_sheet_keeps_fill (fun _ _ => "") banded_sheet 3 [] 1 5);
      [reflexivity|right; split; [reflexivity|repeat constructor]].
  - vm_compute. reflexivity.
Defined.

End AutoFormatFacts.

(** ** The two copy modes *)

Section CopyFacts.
Import PyVal Xl Graft Examples.

Lemma for_each_foldl {A S} (items : list A) (s : S) (f : S -> A -> S) :
  for_each items s (fun s x => ret (f s x)) = ret (foldl f s items).
Proof. revert s. induction items as [|x items IH]; intros s; simpl; [reflexivity|apply IH]. Qed.

Lemma lookup_foldl_insert_const (x : Cell) (l : list (nat * nat))
    (m : gmap (nat * nat) Cell) q :
  foldl (fun m p => <[p := x]> m) m l !! q = if decide (q ∈ l) then Some x else m !! q.
Proof.
  revert m. induction l as [|p l IH]; intros m; simpl.
  - destruct (decide (q ∈ [])) as [H|]; [|reflexivity]. apply elem_of_nil in H as [].
  - rewrite IH. destruct (decide (q ∈ l)) as [Hl|Hl].
    + rewrite decide_True by (now right). reflexivity.
    + destruct (decide (q = p)) as [->|Hne].
      * rewrite decide_True by (now left). apply lookup_insert_eq.
      * rewrite decide_False by (intros [?|?]%elem_of_cons; contradiction).
        now apply lookup_insert_ne.
Qed.

Lemma merge_cells_valid ws rg :
  valid_range rg = true ->
  exists ws', merge_cells ws rg = inr ws'
    /\ merged ws' = (if existsb (subrange rg) (merged ws) then merged ws
                     else (merged ws ++ [rg])%list)
    /\ forall q, cell_at ws' q
                 = if decide (q ∈ List.tl (range_cells rg)) then merged_cell
                   else cell_at ws q.
Proof.
  intros Hv. unfold merge_cells. rewrite Hv. simpl. eexists. split; [reflexivity|].
  split; [reflexivity|].
  intros q. unfold cell_at at 1. simpl. rewrite lookup_foldl_insert_const.
  destruct (decide _); [reflexivity|].
  apply (cell_at_get_cell ws (min_row rg) (min_col rg) q).
Qed.


(** *** The rows appended by the fast copy *)






(** *** The cells written by the full copy *)


Lemma cell_spec d r c v :
  1 <= r -> 1 <= c ->
  (v <> VNone -> is_merged (cell_at d (r, c)) = false) ->
  exists d', cell d r c v = inr d'
    /\ merged d' = merged d
    /\ cells d' !! (r, c)
       = Some (if decide (v = VNone) then cell_at d (r, c)
               else Plain v (style (cell_at d (r, c))))
    /\ forall q, q <> (r, c) -> cell_at d' q = cell_at d q.
Proof.
  intros Hr Hc Hm. unfold cell.
  replace (r <? 1)%nat with false by (symmetry; apply Nat.ltb_ge; lia).
  replace (c <? 1)%nat with false by (symmetry; apply Nat.ltb_ge; lia).
  simpl. pose proof (lookup_get_cell d r c) as Hl.
  pose proof (cell_at_get_cell d r c) as Hg.
  pose proof (snd_get_cell d r c) as Hs.
  pose proof (merged_get_cell d r c) as Hmg.
  destruct (get_cell d r c) as [ws1 x]. simpl in *. subst x.
  destruct (decide (v = VNone)) as [->|Hv].
  - exists ws1. split; [reflexivity|]. split; [exact Hmg|].
    split; [exact Hl|]. intros q _. apply Hg.
  - pose proof (Hm Hv) as Hx.
    exists (with_cells ws1
              (<[(r, c) := Plain v (style (cell_at d (r, c)))]> (cells ws1))
              (current_row ws1)).
    split; [destruct v; try contradiction; now rewrite Hx|].
    split; [exact Hmg|].
    split; [simpl; apply lookup_insert_eq|].
    intros q Hq. unfold cell_at at 1. simpl. rewrite lookup_insert_ne by congruence.
    apply Hg.
Qed.

Section FullCopy.
Variable src : Worksheet.




End FullCopy.





Lemma titled_sheet_bound : merges_bound titled_sheet.
Proof.
  split.
  - repeat constructor.
  - intros q Hq. apply Exists_cons in Hq as [Hq|Hq]; [|now apply Exists_nil in Hq].
    simpl in Hq. apply elem_of_cons in Hq as [->|Hq]; [reflexivity|].
    apply elem_of_cons in Hq as [->|Hq]; [reflexivity|]. now apply elem_of_nil in Hq.
Qed.


Lemma default_copyable ws :
  (forall p, p ∈ concat (iter_rows ws) -> has_style (cell_at ws p) = false) ->
  copyable ws.
Proof. intros H p Hp _. unfold copy_error. now rewrite H. Qed.




End CopyFacts.

(** ** The event-group bands of row 1 *)

Section BandFacts.
Import PyVal Xl Layout.

Lemma for_each_preserves {A S} (P : S -> Prop) (items : list A)
    (body : S -> A -> Result S) (s : S) :
  (forall s x, x ∈ items -> P s -> exists s', body s x = inr s' /\ P s') ->
  P s -> exists s', for_each items s body = inr s' /\ P s'.
Proof.
  revert s. induction items as [|x items IH]; intros s Hbody Hs; simpl.
  - now exists s.
  - destruct (Hbody s x) as (s1 & E1 & H1); [now left|exact Hs|].
    rewrite E1. simpl. apply IH; [|exact H1].
    intros s' y Hy. apply Hbody. now right.
Qed.

Lemma put_spec ws r c v f :
  1 <= r -> 1 <= c ->
  (v <> VNone -> is_merged (cell_at ws (r, c)) = false) ->
  exists ws', put ws r c v f = inr ws'
    /\ merged ws' = merged ws
    /\ cell_at ws' (r, c)
       = with_style f (if decide (v = VNone) then cell_at ws (r, c)
                       else Plain v (style (cell_at ws (r, c))))
    /\ forall q, q <> (r, c) -> cell_at ws' q = cell_at ws q.
Proof.
  intros Hr Hc Hm. unfold put.
  destruct (cell_spec ws r c v Hr Hc Hm) as (w1 & E & Hmg & Hl & Ho).
  rewrite E. simpl. eexists. split; [reflexivity|].
  split; [|split].
  - unfold restyle. destruct (cells w1 !! (r, c)); simpl; exact Hmg.
  - rewrite cell_at_restyle, Hl, decide_True by reflexivity. reflexivity.
  - intros q Hq. rewrite cell_at_restyle, decide_False by exact Hq. now apply Ho.
Qed.

Lemma border_row1_spec first stop ws :
  1 <= first ->
  exists ws', border_row1 first stop ws = inr ws' /\ same_content ws ws'.
Proof.
  intros Hf. unfold border_row1.
  apply (for_each_preserves (same_content ws)); [|now split].
  intros w cc Hcc [Hmg Hw].
  apply elem_of_seq in Hcc.
  destruct (put_spec w 1 cc VNone (set_border thin_box)) as (w' & E & Hmg' & Hat & Ho);
    [lia|lia|congruence|].
  exists w'. split; [exact E|]. split; [congruence|].
  intros q. destruct (decide (q = (1, cc))) as [->|Hq].
  - unfold value_at. rewrite Hat. simpl.
    rewrite value_with_style, is_merged_with_style. apply Hw.
  - unfold value_at. rewrite (Ho q Hq). apply Hw.
Qed.

Lemma elem_of_band_tail first last q :
  first <= last ->
  q ∈ List.tl (range_cells (mkRange 1 first 1 last))
  <-> fst q = 1 /\ first < snd q <= last.
Proof.
  intros Hle. unfold range_cells, rect. simpl.
  replace (S last - first) with (S (last - first)) by lia. simpl.
  rewrite app_nil_r, list_elem_of_In, in_map_iff. split.
  - intros (c & <- & Hc%in_seq). simpl. lia.
  - intros [Hr Hc]. exists (snd q). split; [destruct q; simpl in *; congruence|].
    apply in_seq. lia.
Qed.

(** One band: the range is recorded, its anchor receives the group text,
    its other cells become merged cells, and nothing outside it changes. *)
Lemma close_group_spec g first last ws :
  1 <= first -> first <= last ->
  is_merged (cell_at ws (1, first)) = false ->
  exists ws', close_group g first last ws = inr ws'
    /\ merged ws' = (if existsb (subrange (mkRange 1 first 1 last)) (merged ws)
                     then merged ws
                     else (merged ws ++ [mkRange 1 first 1 last])%list)
    /\ value_at ws' (1, first) = VStr g
    /\ (forall q, is_merged (cell_at ws' q) = true ->
                  is_merged (cell_at ws q) = true \/ (fst q = 1 /\ first < snd q <= last))
    /\ (forall q, ~ (fst q = 1 /\ first <= snd q <= last) -> value_at ws' q = value_at ws q).
Proof.
  intros H1 Hle Hm. unfold close_group.
  destruct (merge_cells_valid ws (mkRange 1 first 1 last)) as (w1 & E1 & M1 & C1).
  { unfold valid_range. cbn [min_row min_col max_row_of max_col_of].
    rewrite !andb_true_iff, !Nat.leb_le. lia. }
  rewrite E1. simpl.
  assert (Ha : cell_at w1 (1, first) = cell_at ws (1, first)).
  { rewrite C1, decide_False; [reflexivity|]. rewrite elem_of_band_tail by exact Hle.
    simpl. lia. }
  destruct (put_spec w1 1 first (VStr g)
              (fun st => set_fill header_fill (set_alignment center (set_font bold_font st))))
    as (w2 & E2 & M2 & A2 & O2); [lia|lia|intros _; now rewrite Ha|].
  rewrite E2. simpl.
  destruct (border_row1_spec first (S last) w2 H1) as (w3 & E3 & M3 & S3).
  exists w3. split; [exact E3|]. split; [congruence|].
  split; [|split].
  - rewrite (proj1 (S3 _)). unfold value_at. rewrite A2. reflexivity.
  - intros q Hq. rewrite (proj2 (S3 q)) in Hq.
    destruct (decide (q = (1, first))) as [->|Hne].
    + rewrite A2 in Hq. discriminate.
    + rewrite (O2 q Hne), C1 in Hq.
      destruct (decide (q ∈ _)) as [Hin|]; [|now left].
      right. now apply elem_of_band_tail in Hin.
  - intros q Hq. rewrite (proj1 (S3 q)). unfold value_at.
    rewrite O2 by (intros ->; simpl in Hq; lia).
    rewrite C1, decide_False; [reflexivity|].
    rewrite elem_of_band_tail by exact Hle. lia.
Qed.

Lemma bind_ret {A} (m : Result A) : bind m ret = m.
Proof. now destruct m. Qed.

Lemma row1_loop_bands c0 gs :
  forall j ws g s,
    (let! st := for_each (combine (seq j (length gs)) gs) (ws, Some (g, s)) (row1_step c0) in
     match snd st with
     | Some (cur_group, group_start_col) =>
         close_group cur_group group_start_col (c0 + (j + length gs) - 1) (fst st)
     | None => ret (fst st)
     end)
    = for_each (bands_from (c0 + j) gs g s) ws close_band.
Proof.
  induction gs as [|g' gs IH]; intros j ws g s.
  - simpl. rewrite Nat.add_0_r. unfold close_band. simpl. now rewrite bind_ret.
  - cbn [length seq combine for_each bands_from]. unfold row1_step at 1.
    cbv [default from_option id]. cbn [snd fst].
    replace (c0 + (j + S (length gs))) with (c0 + (S j + length gs)) by lia.
    specialize (IH (S j)). rewrite Nat.add_succ_r in IH.
    destruct (String.eqb g' g); cbn [negb].
    + cbn [bind ret]. apply IH.
    + cbn [for_each]. unfold close_band at 1. cbn [fst snd min_col max_col_of].
      destruct (close_group g s (c0 + j - 1) ws) as [e|w]; [reflexivity|].
      cbn [bind ret]. apply IH.
Qed.

Lemma row1_event_groups_bands c0 groups ws :
  row1_event_groups c0 groups ws = for_each (row1_bands c0 groups) ws close_band.
Proof.
  unfold row1_event_groups, row1_bands, enumerate. destruct groups as [|g gs].
  - reflexivity.
  - cbn [length seq combine for_each]. unfold row1_step at 1.
    cbv [default from_option id]. cbn [snd fst]. rewrite String.eqb_refl. cbn [negb bind ret].
    pose proof (row1_loop_bands c0 gs 1 ws g (c0 + 0)) as H.
    replace (c0 + 1) with (S c0) in H by lia.
    replace (c0 + 0) with c0 in * by lia.
    replace (c0 + (1 + length gs)) with (c0 + S (length gs)) in H by lia.
    exact H.
Qed.

Lemma run_bands bs :
  forall c ws stop,
    bands_chain c (map fst bs) stop -> 1 <= c ->
    (forall c', c <= c' -> is_merged (cell_at ws (1, c')) = false) ->
    (forall rg, rg ∈ merged ws -> max_col_of rg < c) ->
    exists ws', for_each bs ws close_band = inr ws'
      /\ merged ws' = (merged ws ++ map fst bs)%list
      /\ (forall b, b ∈ bs -> value_at ws' (anchor (fst b)) = VStr (snd b))
      /\ (forall q, fst q <> 1 \/ snd q < c -> value_at ws' q = value_at ws q).
Proof.
  induction bs as [|[rg v] bs IH]; intros c ws stop Hch Hc Hfree Hfresh.
  - exists ws. split; [reflexivity|]. split; [now rewrite app_nil_r|].
    split; [|reflexivity]. intros b Hb. now apply elem_of_nil in Hb.
  - destruct Hch as (Hr1 & Hr2 & Hmin & Hle & Hch). simpl in Hr1, Hr2, Hmin, Hle, Hch.
    assert (Erg : mkRange 1 c 1 (max_col_of rg) = rg)
      by (destruct rg; simpl in *; congruence).
    destruct (close_group_spec v c (max_col_of rg) ws Hc Hle) as (w1 & E1 & M1 & V1 & G1 & F1);
      [now apply Hfree|].
    rewrite Erg in M1.
    assert (Hnew : existsb (subrange rg) (merged ws) = false).
    { destruct (existsb _ _) eqn:Hex; [|reflexivity].
      apply existsb_exists in Hex as (rg' & Hin%list_elem_of_In & Hsub).
      apply Hfresh in Hin. unfold subrange in Hsub.
      rewrite !andb_true_iff, !Nat.leb_le in Hsub. lia. }
    rewrite Hnew in M1.
    destruct (IH (S (max_col_of rg)) w1 stop Hch) as (w2 & E2 & M2 & V2 & F2); [lia| | |].
    { intros c' Hc'. destruct (is_merged (cell_at w1 (1, c'))) eqn:Hm; [|reflexivity].
      apply G1 in Hm as [Hm|[_ Hm]]; [|simpl in Hm; lia].
      rewrite Hfree in Hm by lia. discriminate. }
    { intros rg' Hin. rewrite M1 in Hin.
      apply elem_of_app in Hin as [Hin|Hin%list_elem_of_singleton].
      - apply Hfresh in Hin. lia.
      - subst rg'. lia. }
    exists w2. cbn [for_each]. unfold close_band at 1. cbn [fst snd]. rewrite Hmin, E1.
    split; [exact E2|]. split; [|split].
    + rewrite M2, M1. cbn [map fst]. now rewrite <- app_assoc.
    + intros b [->|Hb]%elem_of_cons; [|now apply V2].
      cbn [fst snd]. unfold anchor. rewrite Hr1, Hmin.
      rewrite F2 by (simpl; lia). exact V1.
    + intros q Hq. rewrite F2 by lia. apply F1. lia.
Qed.

(** *** The bands against the groups *)

Section BandsOfGroups.
(** The group of the visit column [x]. *)
Variable grp : nat -> option string.

Lemma bands_from_chain gs :
  forall c g s, s < c ->
    bands_chain s (map fst (bands_from c gs g s)) (c + length gs).
Proof.
  induction gs as [|g' gs IH]; intros c g s Hs; cbn [bands_from].
  - simpl. repeat split; lia.
  - destruct (negb (String.eqb g' g)); cbn [map fst bands_chain min_row max_row_of min_col max_col_of length].
    + repeat split; try lia.
      replace (S (c - 1)) with c by lia.
      replace (c + S (length gs)) with (S c + length gs) by lia. apply IH. lia.
    + replace (c + S (length gs)) with (S c + length gs) by lia. apply IH. lia.
Qed.

Lemma bands_from_groups gs :
  forall c g s, s < c ->
    (forall i g', gs !! i = Some g' -> grp (c + i) = Some g') ->
    (forall x, s <= x < c -> grp x = Some g) ->
    forall b, b ∈ bands_from c gs g s ->
      (forall x, min_col (fst b) <= x <= max_col_of (fst b) -> grp x = Some (snd b))
      /\ (S (max_col_of (fst b)) < c + length gs ->
          grp (S (max_col_of (fst b))) <> Some (snd b)).
Proof.
  induction gs as [|g' gs IH]; intros c g s Hs Hgs Hopen b Hb; cbn [bands_from] in Hb.
  - apply list_elem_of_singleton in Hb as ->. simpl. split; [|intros H; exfalso; lia].
    intros x Hx. apply Hopen. lia.
  - assert (Hc : grp c = Some g').
    { rewrite <- (Nat.add_0_r c). now apply Hgs. }
    assert (Hrest : forall i g'', gs !! i = Some g'' -> grp (S c + i) = Some g'').
    { intros i g'' Hi. replace (S c + i) with (c + S i) by lia. now apply Hgs. }
    destruct (String.eqb_spec g' g) as [->|Hne]; cbn [negb] in Hb.
    + replace (c + length (g :: gs)) with (S c + length gs) by (simpl; lia).
      apply (IH (S c) g s); [lia|exact Hrest| |exact Hb].
      intros x Hx. destruct (decide (x = c)) as [->|]; [exact Hc|apply Hopen; lia].
    + apply elem_of_cons in Hb as [->|Hb].
      * simpl. split.
        -- intros x Hx. apply Hopen. lia.
        -- intros _. replace (S (c - 1)) with c by lia. rewrite Hc. congruence.
      * replace (c + length (g' :: gs)) with (S c + length gs) by (simpl; lia).
        apply (IH (S c) g' c); [lia|exact Hrest| |exact Hb].
        intros x Hx. replace x with c by lia. exact Hc.
Qed.

End BandsOfGroups.

Lemma chain_bounds bs :
  forall c stop rg, bands_chain c bs stop -> rg ∈ bs ->
    c <= min_col rg /\ min_col rg <= max_col_of rg /\ max_col_of rg < stop.
Proof.
  induction bs as [|r0 bs IH]; intros c stop rg Hch Hin.
  - now apply elem_of_nil in Hin.
  - destruct Hch as (_ & _ & Hmin & Hle & Hch).
    assert (Hstop : S (max_col_of r0) <= stop).
    { clear -Hch. revert Hch. generalize (S (max_col_of r0)).
      induction bs as [|r1 bs IHb]; intros n Hn; simpl in Hn; [lia|].
      destruct Hn as (_ & _ & ? & ? & Hn). apply IHb in Hn. lia. }
    apply elem_of_cons in Hin as [->|Hin]; [lia|].
    destruct (IH _ _ _ Hch Hin) as (? & ? & ?). lia.
Qed.

Lemma chain_cover bs :
  forall c stop x, bands_chain c bs stop -> c <= x < stop ->
    exists rg, rg ∈ bs /\ min_col rg <= x <= max_col_of rg.
Proof.
  induction bs as [|r0 bs IH]; intros c stop x Hch Hx; simpl in Hch; [lia|].
  destruct Hch as (_ & _ & Hmin & Hle & Hch).
  destruct (decide (x <= max_col_of r0)) as [Hin|Hout].
  - exists r0. split; [now left|lia].
  - destruct (IH _ _ x Hch) as (rg & Hrg & Hb); [lia|].
    exists rg. split; [now right|exact Hb].
Qed.

Lemma chain_unique bs :
  forall c stop x rg rg', bands_chain c bs stop ->
    rg ∈ bs -> rg' ∈ bs ->
    min_col rg <= x <= max_col_of rg -> min_col rg' <= x <= max_col_of rg' ->
    rg' = rg.
Proof.
  induction bs as [|r0 bs IH]; intros c stop x rg rg' Hch Hin Hin' Hx Hx'.
  - now apply elem_of_nil in Hin.
  - destruct Hch as (_ & _ & Hmin & Hle & Hch).
    apply elem_of_cons in Hin as [->|Hin]; apply elem_of_cons in Hin' as [->|Hin'].
    + reflexivity.
    + destruct (chain_bounds _ _ _ _ Hch Hin') as (? & _). lia.
    + destruct (chain_bounds _ _ _ _ Hch Hin) as (? & _). lia.
    + exact (IH _ _ x _ _ Hch Hin Hin' Hx Hx').
Qed.

(** *** The sheet the builder hands to the loop *)




(** C5. On a sheet without merged ranges and without merged cells in the
    visit columns of row 1 (as the header block leaves it, lemma
    [header_block_unmerged]), the loop of lines 170-190 succeeds, and the
    ranges it merges (i) lie in row 1, follow one another without gap from
    the first visit column to the last, (ii) hold every visit column in
    exactly one of them, (iii) carry at their anchor the group text that
    every member column has, and (iv) end only where the group of the next
    column differs. *)
Theorem row1_bands_partition (c0 : nat) (visit_groups : list string) (ws : Worksheet) :
  1 <= c0 ->
  merged ws = [] ->
  (forall c, c0 <= c -> is_merged (cell_at ws (1, c)) = false) ->
  exists ws',
    row1_event_groups c0 visit_groups ws = inr ws'
    /\ bands_chain c0 (merged ws') (c0 + length visit_groups)
    /\ (forall j, j < length visit_groups ->
          exists rg, (rg ∈ merged ws' /\ min_col rg <= c0 + j <= max_col_of rg)
            /\ forall rg', rg' ∈ merged ws' /\ min_col rg' <= c0 + j <= max_col_of rg' ->
                           rg' = rg)
    /\ (forall rg, rg ∈ merged ws' ->
          exists g, value_at ws' (anchor rg) = VStr g
            /\ forall j, min_col rg <= c0 + j <= max_col_of rg ->
                         visit_groups !! j = Some g)
    /\ (forall rg j, rg ∈ merged ws' -> c0 + j = max_col_of rg ->
          S j < length visit_groups -> visit_groups !! S j <> visit_groups !! j).
Proof.
  intros Hc0 Hnone Hfree. rewrite row1_event_groups_bands.
  set (grp := fun x => visit_groups !! (x - c0)).
  assert (Hchain : bands_chain c0 (map fst (row1_bands c0 visit_groups))
                     (c0 + length visit_groups)).
  { unfold row1_bands. destruct visit_groups as [|g gs]; simpl; [lia|].
    replace (c0 + S (length gs)) with (S c0 + length gs) by lia.
    apply bands_from_chain. lia. }
  assert (Hgroups : forall b, b ∈ row1_bands c0 visit_groups ->
            (forall x, min_col (fst b) <= x <= max_col_of (fst b) -> grp x = Some (snd b))
            /\ (S (max_col_of (fst b)) < c0 + length visit_groups ->
                grp (S (max_col_of (fst b))) <> Some (snd b))).
  { unfold row1_bands. destruct visit_groups as [|g gs] eqn:Eg; intros b Hb.
    - now apply elem_of_nil in Hb.
    - replace (c0 + length (g :: gs)) with (S c0 + length gs) by (simpl; lia).
      apply (bands_from_groups grp gs (S c0) g c0); [lia| | |exact Hb].
      + intros i g' Hi. unfold grp. replace (S c0 + i - c0) with (S i) by lia. exact Hi.
      + intros x Hx. unfold grp. replace (x - c0) with 0 by lia. reflexivity. }
  destruct (run_bands (row1_bands c0 visit_groups) c0 ws _ Hchain Hc0 Hfree)
    as (ws' & E & M & V & _).
  { intros rg Hrg. rewrite Hnone in Hrg. now apply elem_of_nil in Hrg. }
  rewrite Hnone in M. simpl in M.
  exists ws'. split; [exact E|]. rewrite M.
  split; [exact Hchain|]. split; [|split].
  - intros j Hj.
    destruct (chain_cover _ _ _ (c0 + j) Hchain) as (rg & Hrg & Hx); [lia|].
    exists rg. split; [now split|].
    intros rg' [Hrg' Hx']. exact (chain_unique _ _ _ _ _ _ Hchain Hrg Hrg' Hx Hx').
  - intros rg Hrg. apply list_elem_of_fmap in Hrg as ([rg0 g] & -> & Hb).
    exists g. split; [exact (V _ Hb)|].
    intros j Hj. destruct (Hgroups _ Hb) as [Hg _]. specialize (Hg (c0 + j) Hj).
    unfold grp in Hg. now replace (c0 + j - c0) with j in Hg by lia.
  - intros rg j Hrg Hlast Hj. pose proof Hrg as Hrg0.
    apply list_elem_of_fmap in Hrg as ([rg0 g] & -> & Hb).
    destruct (chain_bounds _ _ _ _ Hchain Hrg0) as (_ & Hle & _).
    destruct (Hgroups _ Hb) as [Hg Hmax]. cbn [fst snd] in *.
    specialize (Hg (c0 + j)). unfold grp in Hg, Hmax.
    replace (c0 + j - c0) with j in Hg by lia.
    rewrite <- Hlast in Hmax. replace (S (c0 + j) - c0) with (S j) in Hmax by lia.
    rewrite Hg by lia. apply Hmax. lia.
Qed.

Lemma row1_bands_partition_witness :
  exists ws',
    row1_event_groups 6 ["Screening"; "Treatment"; "Treatment"] empty_sheet = inr ws'
    /\ merged ws' = [mkRange 1 6 1 6; mkRange 1 7 1 8]
    /\ value_at ws' (1, 6) = VStr "Screening"
    /\ value_at ws' (1, 7) = VStr "Treatment".
Proof.
  destruct (row1_bands_partition 6 ["Screening"; "Treatment"; "Treatment"] empty_sheet)
    as (ws' & E & _); [lia|reflexivity|intros c _; reflexivity|].
  exists ws'. split; [exact E|].
  vm_compute in E. injection E as <-. vm_compute. repeat split.
Defined.

End BandFacts.

(** ** Sheet grafting *)

Section GraftFacts.
Import PyVal Xl Graft Examples.

(** C2. On the template [Schedule Grid, Notes, Study Specific Forms] the
    forms index is taken after the schedule sheet has left the list (1,
    not 2), and the result is [Schedule Grid, Study Specific Forms, Notes]:
    the forms sheet is put back one place early and "Notes" moves from
    index 1 to index 2. *)
Theorem replace_sheets_shifts_between_sheet :
  sheetnames template_wb = ["Schedule Grid"; "Notes"; "Study Specific Forms"]
  /\ (let! wb := replace_sheets_in_template template_wb generated_wb generated_wb
                   "Schedule Grid" "Study Specific Forms" false in
      ret (sheetnames wb))
     = ret ["Schedule Grid"; "Study Specific Forms"; "Notes"]
  /\ (let! wb := replace_sheets_in_template template_wb generated_wb generated_wb
                   "Schedule Grid" "Study Specific Forms" true in
      ret (sheetnames wb))
     = ret ["Schedule Grid"; "Study Specific Forms"; "Notes"].
Proof. repeat split; vm_compute; reflexivity. Qed.

End GraftFacts.

(** ** The grid body *)

Section BodyFacts.
Import PyVal Xl Layout Examples.

(** C3. With the default configuration the visit columns are 6, 7, 8 and
    "Triggering: Form" is row 7.  For the visits (Randomisation, V1),
    (Treatment, V2), (Treatment, V3) the row holds ELIGIBILITY_CRITERIA
    under the first visit and nothing under the second and third: the
    loop over the visits is left at the first visit that should receive
    RANDOMISATION, before its cell is written. *)
Theorem triggering_form_row_stops_early (float_repr : Z -> Z -> string) :
  (let! ws := build_worksheet float_repr visits_after_rand no_forms empty_config in
   ret (map (value_at ws) [(3, 6); (3, 7); (3, 8); (7, 1); (7, 6); (7, 7); (7, 8)]))
  = ret [VStr "RAND"; VStr "V2"; VStr "V3"; VStr "Triggering: Form";
         VStr "ELIGIBILITY_CRITERIA"; VNone; VNone].
Proof. vm_compute. reflexivity. Qed.

(** C4. The code RTSM matches none of the four cases.  After a screening
    visit its row-2 cell receives the label of that visit, "Screening";
    as the first visit it stops the builder on the unbound label. *)
Theorem unmatched_code_takes_previous_label (float_repr : Z -> Z -> string) :
  (let! ws := build_worksheet float_repr visits_with_rtsm no_forms empty_config in
   ret (map (value_at ws) [(3, 6); (2, 6); (3, 7); (2, 7)]))
  = ret [VStr "SCRN"; VStr "Screening"; VStr "RTSM"; VStr "Screening"]
  /\ build_worksheet float_repr visits_rtsm_first no_forms empty_config
     = raise (UnboundLocalError "event_label").
Proof. split; vm_compute; reflexivity. Qed.

(** The labelled cases of lines 149-156: the two fixed codes, a code that
    starts with V, and a code that starts with P and holds no V. *)
Lemma event_label_cases prev rest :
  event_label_of "SCRN" prev = Some "Screening"
  /\ event_label_of "RAND" prev = Some "Randomisation"
  /\ event_label_of (String "V" rest) prev = Some ("Visit " ++ rest)
  /\ (PyStr.contains "V" rest = false ->
      event_label_of (String "P" rest) prev = Some ("Phone Visit " ++ rest)).
Proof.
  repeat split.
  intros H. unfold event_label_of. simpl. now rewrite H.
Qed.

(** *** Coercion of body values *)

Lemma float_eqb_refl m e : float_eqb (FFin m e) (FFin m e) = true.
Proof. unfold float_eqb, dyadic_eqb. apply Z.eqb_refl. Qed.



(** *** The values found in the grid body *)





Section Body.
Variables c0 n : nat.













End Body.



End BodyFacts.

(** ** Input failures *)

Section ReadFacts.
Import PyVal Xl Layout Examples.

(** C9. When reading the visit workbook fails, or reading it succeeds and
    reading the forms CSV fails, [build_schedule_layout] raises that very
    error and leaves every file as it was. *)
Theorem read_failure_propagates (FileData : Type)
    (parse_excel parse_csv : FileData -> Result DataFrame)
    (encode_workbook : string -> Worksheet -> FileData)
    (float_repr : Z -> Z -> string)
    (visit_schedule_xlsx forms_csv output_xlsx : string) (config : Config)
    (w : World FileData) (e : Exn) :
  read_with FileData parse_excel w visit_schedule_xlsx = inl e
  \/ (exists df, read_with FileData parse_excel w visit_schedule_xlsx = inr df
                 /\ read_with FileData parse_csv w forms_csv = inl e) ->
  let out := build_schedule_layout FileData parse_excel parse_csv encode_workbook
               float_repr visit_schedule_xlsx forms_csv output_xlsx config w in
  fst out = raise e /\ files FileData (snd out) = files FileData w.
Proof.
  intros H. unfold build_schedule_layout.
  set (w1 := logging FileData _ w).
  change (read_with FileData parse_excel w1 visit_schedule_xlsx)
    with (read_with FileData parse_excel w visit_schedule_xlsx).
  change (read_with FileData parse_csv w1 forms_csv)
    with (read_with FileData parse_csv w forms_csv).
  destruct H as [H|(df & H & H')]; rewrite H; cbn [bind ret]; [|rewrite H'];
    split; reflexivity.
Qed.

Lemma read_failure_propagates_witness :
  let w := mkWorld string (<["visits.xlsx" := "PK.."]> ∅) [] in
  let out := build_schedule_layout string reject reject (fun _ _ => "xlsx")
               (fun _ _ => "") "visits.xlsx" "forms.csv" "out.xlsx" empty_config w in
  fst out = raise (ReadError "not a table") /\ files string (snd out) = files string w.
Proof.
  apply (read_failure_propagates string reject reject (fun _ _ => "xlsx") (fun _ _ => "")
           "visits.xlsx" "forms.csv" "out.xlsx" empty_config).
  left. reflexivity.
Defined.

End ReadFacts.

(** * Further properties of the code *)

(** ** Event names and the randomisation index *)

Section EventNameMore.
Import PyStr Re EventName Layout.










Lemma find_rand_spec groups :
  forall i0,
    match find_rand i0 groups with
    | Some i =>
        i0 <= i
        /\ (exists g, groups !! (i - i0) = Some g /\ contains "random" (lower g) = true)
        /\ forall k g, k < i - i0 -> groups !! k = Some g ->
                       contains "random" (lower g) = false
    | None => forall g, g ∈ groups -> contains "random" (lower g) = false
    end.
Proof.
  induction groups as [|g0 groups IH]; intros i0; simpl.
  - intros g Hg. now apply elem_of_nil in Hg.
  - destruct (contains "random" (lower g0)) eqn:E.
    + split; [lia|]. rewrite Nat.sub_diag. split; [now exists g0|]. intros k g Hk. lia.
    + specialize (IH (S i0)). destruct (find_rand (S i0) groups) as [i|].
      * destruct IH as (Hle & (g & Hg & Hr) & Hbefore). split; [lia|].
        replace (i - i0) with (S (i - S i0)) by lia. split; [now exists g|].
        intros [|k] g' Hk Hg'; simpl in Hg'; [congruence|].
        apply (Hbefore k); [lia|exact Hg'].
      * intros g [->|Hg]%elem_of_cons; [exact E|now apply IH].
Qed.

(** X2. The randomisation index is the position of the first group that
    holds "random" (case-insensitively): no earlier group holds it, and
    when some group does, the group at the index does.  When no group
    holds it the index is 0. *)
Theorem rand_index_first (visit_groups : list string) :
  (forall k g, k < rand_index visit_groups -> visit_groups !! k = Some g ->
               contains "random" (lower g) = false)
  /\ ((exists g, g ∈ visit_groups /\ contains "random" (lower g) = true) ->
      exists g, visit_groups !! rand_index visit_groups = Some g
                /\ contains "random" (lower g) = true)
  /\ ((forall g, g ∈ visit_groups -> contains "random" (lower g) = false) ->
      rand_index visit_groups = 0).
Proof.
  unfold rand_index. pose proof (find_rand_spec visit_groups 0) as H.
  destruct (find_rand 0 visit_groups) as [i|].
  - destruct H as (_ & (g & Hg & Hr) & Hbefore). rewrite Nat.sub_0_r in *.
    split; [exact Hbefore|]. split; [intros _; now exists g|].
    intros Hnone. apply list_elem_of_lookup_2 in Hg. apply Hnone in Hg. congruence.
  - split; [intros k g Hk; lia|]. split; [|reflexivity].
    intros (g & Hg & Hr). apply H in Hg. congruence.
Qed.

End EventNameMore.

(** ** Coercion of body values *)

Section CoerceMore.
Import PyVal Layout.

(** X3. [coerce] raises on the two infinities, with [OverflowError] (from
    [int(inf)]), and on nothing else. *)
Theorem coerce_raises_on_infinity_only (v : Value) (e : Exn) :
  coerce v = raise e <-> (exists neg, v = VFloat (FInf neg)) /\ e = OverflowError.
Proof.
  unfold coerce. split.
  - destruct v as [|s|z|[|neg|m ex]|b]; simpl; try discriminate.
    + intros [= <-]. split; [now exists neg|reflexivity].
    + destruct (isclose _ _); discriminate.
  - intros [[neg ->] ->]. reflexivity.
Qed.

(** X4. What [coerce] returns is never a missing value: neither [None]
    nor NaN reaches a cell through it. *)
Theorem coerce_never_missing (v v' : Value) :
  coerce v = ret v' -> isna v' = false.
Proof.
  unfold coerce.
  destruct v as [|s|z|[|neg|m ex]|b]; simpl; try (intros [= <-]; reflexivity);
    try discriminate.
  destruct (isclose _ _); intros [= <-]; reflexivity.
Qed.

Lemma coerce_never_missing_witness :
  coerce (VFloat FNaN) = ret (VStr "") /\ isna (VStr "") = false.
Proof.
  split; [reflexivity|].
  exact (coerce_never_missing (VFloat FNaN) (VStr "") eq_refl).
Defined.

(** X5. [coerce] is idempotent: a value it returned passes through it
    unchanged. *)
Theorem coerce_idempotent (v v' : Value) :
  coerce v = ret v' -> coerce v' = ret v'.
Proof.
  unfold coerce.
  destruct v as [|s|z|[|neg|m ex]|b]; simpl; try (intros [= <-]; reflexivity);
    try discriminate.
  destruct (isclose (FFin m ex) _) eqn:E; intros [= <-]; [reflexivity|].
  simpl. now rewrite E.
Qed.

Lemma coerce_idempotent_witness :
  coerce (VFloat (FFin 7 0)) = ret (VInt 7) /\ coerce (VInt 7) = ret (VInt 7).
Proof.
  split; [reflexivity|].
  exact (coerce_idempotent (VFloat (FFin 7 0)) (VInt 7) eq_refl).
Defined.

End CoerceMore.

(** ** Rows written cell by cell *)

Section RowMore.
Import PyStr PyVal Xl Layout.

(** One assignment in a row without merged cells. *)
Lemma put_in_row ws r c v f :
  1 <= r -> 1 <= c -> row_unmerged r ws ->
  exists ws', put ws r c v f = inr ws'
    /\ row_unmerged r ws'
    /\ merged ws' = merged ws
    /\ value_at ws' (r, c) = (if decide (v = VNone) then value_at ws (r, c) else v)
    /\ forall q, q <> (r, c) -> cell_at ws' q = cell_at ws q.
Proof.
  intros Hr Hc Hrow.
  destruct (put_spec ws r c v f Hr Hc) as (w & E & Hmg & Hat & Ho); [intros _; apply Hrow|].
  exists w. split; [exact E|]. split; [|split; [exact Hmg|split; [|exact Ho]]].
  - intros c'. destruct (decide ((r, c') = (r, c))) as [->|Hne].
    + rewrite Hat, is_merged_with_style. destruct (decide _); [apply Hrow|reflexivity].
    + rewrite Ho by exact Hne. apply Hrow.
  - unfold value_at. rewrite Hat, value_with_style. now destruct (decide _).
Qed.

Lemma value_at_frame ws ws' q : cell_at ws' q = cell_at ws q -> value_at ws' q = value_at ws q.
Proof. unfold value_at. now intros ->. Qed.

(** *** Row 3 *)

Lemma row3_run c0 names :
  forall j0 ws,
    1 <= c0 -> row_unmerged 3 ws ->
    exists ws',
      for_each (combine (seq j0 (length names)) names) ws
        (fun w je => put w 3 (c0 + fst je) (VStr (snd je)) header_style) = inr ws'
      /\ row_unmerged 3 ws'
      /\ merged ws' = merged ws
      /\ (forall j e, names !! j = Some e -> value_at ws' (3, c0 + (j0 + j)) = VStr e)
      /\ (forall q, ~ (fst q = 3 /\ c0 + j0 <= snd q < c0 + j0 + length names) ->
                    cell_at ws' q = cell_at ws q).
Proof.
  induction names as [|e names IH]; intros j0 ws Hc Hrow.
  - exists ws. simpl. repeat split; auto. intros j e' H. discriminate.
  - cbn [length seq combine for_each fst snd].
    destruct (put_in_row ws 3 (c0 + j0) (VStr e) header_style) as (w1 & E1 & R1 & M1 & V1 & F1);
      [lia|lia|exact Hrow|].
    rewrite E1. cbn [bind].
    destruct (IH (S j0) w1 Hc R1) as (w2 & E2 & R2 & M2 & V2 & F2).
    exists w2. split; [exact E2|]. split; [exact R2|]. split; [congruence|]. split.
    + intros [|j] e' Hj; simpl in Hj.
      * injection Hj as <-. rewrite Nat.add_0_r.
        rewrite (value_at_frame w1 w2) by (apply F2; simpl; lia). exact V1.
      * replace (c0 + (j0 + S j)) with (c0 + (S j0 + j)) by lia. now apply V2.
    + intros q Hq. rewrite F2 by (simpl in *; lia). apply F1.
      intros ->. simpl in Hq. lia.
Qed.

(** X6. Row 3 receives the short codes: after [row3_event_names], on a
    sheet whose row 3 has no merged cell, the cell of row 3 under visit [j]
    holds the [j]-th event name, and no cell outside the visit columns of
    row 3 has changed. *)
Theorem row3_holds_event_names (c0 : nat) (event_names : list string) (ws : Worksheet) :
  1 <= c0 -> row_unmerged 3 ws ->
  exists ws',
    row3_event_names c0 event_names ws = inr ws'
    /\ (forall j e, event_names !! j = Some e -> value_at ws' (3, c0 + j) = VStr e)
    /\ (forall q, ~ (fst q = 3 /\ c0 <= snd q < c0 + length event_names) ->
                  cell_at ws' q = cell_at ws q).
Proof.
  intros Hc Hrow. unfold row3_event_names, enumerate.
  destruct (row3_run c0 event_names 0 ws Hc Hrow) as (ws' & E & _ & _ & V & F).
  exists ws'. split; [exact E|]. split.
  - intros j e Hj. specialize (V j e Hj). now rewrite Nat.add_0_l in V.
  - intros q Hq. apply F. rewrite Nat.add_0_r. exact Hq.
Qed.

Lemma row3_holds_event_names_witness :
  exists ws',
    row3_event_names 6 ["SCRN"; "V2"] empty_sheet = inr ws'
    /\ value_at ws' (3, 6) = VStr "SCRN" /\ value_at ws' (3, 7) = VStr "V2".
Proof.
  destruct (row3_holds_event_names 6 ["SCRN"; "V2"] empty_sheet) as (ws' & E & V & _);
    [lia|intros c; reflexivity|].
  exists ws'. split; [exact E|]. split.
  - exact (V 0 "SCRN" eq_refl).
  - exact (V 1 "V2" eq_refl).
Defined.

(** *** Row 2 *)





(** X8. When the code of the first visit is none of SCRN and RAND and
    holds neither V nor P, the loop of lines 146-160 raises
    [UnboundLocalError] for [event_label], whatever the sheet and the
    later visits are. *)
Theorem row2_unbound_on_first_visit (c0 : nat) (event_names visit_labels : list string)
    (ws : Worksheet) :
  visit_labels <> [] -> label_after event_names 0 = None ->
  row2_event_labels c0 event_names visit_labels ws = raise (UnboundLocalError "event_label").
Proof.
  intros Hne H0. unfold row2_event_labels, enumerate.
  destruct visit_labels as [|lb labels]; [contradiction|].
  cbn [length seq combine for_each fst snd]. cbn [label_after] in H0. now rewrite H0.
Qed.

Lemma row2_unbound_on_first_visit_witness :
  row2_event_labels 6 ["RTSM"; "SCRN"] ["Kit"; "V1"] empty_sheet
  = raise (UnboundLocalError "event_label").
Proof.
  apply (row2_unbound_on_first_visit 6 ["RTSM"; "SCRN"] ["Kit"; "V1"] empty_sheet);
    [discriminate|reflexivity].
Defined.

End RowMore.

(** ** Attribute rows and form rows *)

Section BodyMore.
Import PyStr PyVal Xl Layout Examples.

Lemma coerce_succeeds v :
  is_infinite v = false -> exists v', coerce v = ret v' /\ v' <> VNone.
Proof.
  unfold coerce. destruct v as [|s|z|[|neg|m ex]|b]; simpl; try discriminate; intros _;
    try (eexists; split; [reflexivity|discriminate]).
  destruct (isclose _ _); eexists; (split; [reflexivity|discriminate]).
Qed.

Lemma left_between_first step j0 j :
  j0 <= j ->
  left_between step j0 j
  = is_break (step j0) || (if decide (j = j0) then false else left_between step (S j0) j).
Proof.
  intros Hle. unfold left_between.
  replace (S j - j0) with (S (j - j0)) by lia. cbn [seq existsb].
  destruct (decide (j = j0)) as [->|Hne].
  - now rewrite Nat.sub_diag.
  - now replace (S j - S j0) with (j - j0) by lia.
Qed.

(** A cell that is not a merged cell can be written, and writing it
    makes no cell a merged cell. *)
Lemma put_at ws r c v f :
  1 <= r -> 1 <= c -> is_merged (cell_at ws (r, c)) = false ->
  exists ws', put ws r c v f = inr ws'
    /\ (forall q, is_merged (cell_at ws' q) = is_merged (cell_at ws q))
    /\ merged ws' = merged ws
    /\ value_at ws' (r, c) = (if decide (v = VNone) then value_at ws (r, c) else v)
    /\ forall q, q <> (r, c) -> cell_at ws' q = cell_at ws q.
Proof.
  intros Hr Hc Hm.
  destruct (put_spec ws r c v f Hr Hc) as (w & E & Hmg & Hat & Ho); [intros _; exact Hm|].
  exists w. split; [exact E|]. split; [|split; [exact Hmg|split; [|exact Ho]]].
  - intros q. destruct (decide (q = (r, c))) as [->|Hne]; [|now rewrite Ho].
    rewrite Hat, is_merged_with_style, Hm. now destruct (decide _).
  - unfold value_at. rewrite Hat, value_with_style. now destruct (decide _).
Qed.

Lemma attr_cells_run (step : nat -> Step) (c0 row n : nat) :
  forall j0 ws,
    1 <= row -> 1 <= c0 ->
    (forall c, c0 <= c -> is_merged (cell_at ws (row, c)) = false) ->
    (forall j v, step j = Write v -> is_infinite v = false) ->
    exists ws',
      attr_visit_cells step c0 row (seq j0 n) ws = inr ws'
      /\ (forall q, is_merged (cell_at ws' q) = is_merged (cell_at ws q))
      /\ merged ws' = merged ws
      /\ (forall j, j0 <= j < j0 + n ->
            if left_between step j0 j
            then cell_at ws' (row, c0 + j) = cell_at ws (row, c0 + j)
            else exists v v', step j = Write v /\ coerce v = ret v'
                              /\ value_at ws' (row, c0 + j) = v')
      /\ (forall q, ~ (fst q = row /\ c0 + j0 <= snd q < c0 + j0 + n) ->
                    cell_at ws' q = cell_at ws q).
Proof.
  induction n as [|n IH]; intros j0 ws Hr Hc Hfree Hfin.
  - exists ws. simpl. repeat split; auto. intros j Hj. lia.
  - cbn [seq attr_visit_cells]. destruct (step j0) as [v|] eqn:Es.
    + destruct (coerce_succeeds v (Hfin _ _ Es)) as (v' & Ev & Hv').
      rewrite Ev. cbn [bind ret].
      destruct (put_at ws row (c0 + j0) v'
                  (fun st => set_border thin_box (set_alignment center st)))
        as (w1 & E1 & R1 & M1 & V1 & F1); [lia|lia|apply Hfree; lia|].
      rewrite E1. cbn [bind].
      destruct (IH (S j0) w1 Hr Hc) as (w2 & E2 & R2 & M2 & V2 & F2);
        [intros c Hc'; rewrite R1; now apply Hfree|exact Hfin|].
      exists w2. split; [exact E2|]. split; [intros q; now rewrite R2, R1|].
      split; [congruence|]. split.
      * intros j Hj. rewrite left_between_first, Es by lia. cbn [is_break orb].
        destruct (decide (j = j0)) as [->|Hne].
        -- exists v, v'. split; [exact Es|]. split; [exact Ev|].
           rewrite (value_at_frame w1 w2) by (apply F2; simpl; lia).
           rewrite V1. now rewrite decide_False.
        -- specialize (V2 j). destruct (left_between step (S j0) j).
           ++ rewrite V2 by lia. apply F1. intros [= ?]. lia.
           ++ apply V2. lia.
      * intros q Hq. rewrite F2 by (simpl in *; lia). apply F1.
        intros ->. simpl in Hq. lia.
    + exists ws. split; [reflexivity|]. split; [reflexivity|]. split; [reflexivity|].
      split; [|reflexivity].
      intros j Hj. rewrite left_between_first, Es by lia. reflexivity.
Qed.

(** X9. The visit cells of an attribute row are written from the left up
    to the first visit at which the loop is left: a visit before that one
    receives its coerced value, and the cell of that visit and of every
    later visit is left as it was.  The row may hold its merged label
    cells: no cell of the row from the first visit column on is a merged
    cell, as in the builder, where the label is merged over the left
    columns.  (The values are taken finite, so that the coercion does not
    raise.) *)
Theorem attr_visit_cells_until_break (step : nat -> Step) (c0 row n : nat)
    (ws : Worksheet) :
  1 <= row -> 1 <= c0 ->
  (forall c, c0 <= c -> is_merged (cell_at ws (row, c)) = false) ->
  (forall j v, step j = Write v -> is_infinite v = false) ->
  exists ws',
    attr_visit_cells step c0 row (seq 0 n) ws = inr ws'
    /\ forall j, j < n ->
         if left_by step j
         then cell_at ws' (row, c0 + j) = cell_at ws (row, c0 + j)
         else exists v v', step j = Write v /\ coerce v = ret v'
                           /\ value_at ws' (row, c0 + j) = v'.
Proof.
  intros Hr Hc Hfree Hfin.
  destruct (attr_cells_run step c0 row n 0 ws Hr Hc Hfree Hfin) as (ws' & E & _ & _ & V & _).
  exists ws'. split; [exact E|]. intros j Hj. apply (V j). lia.
Qed.

Lemma attr_sheet_free c : 6 <= c -> is_merged (cell_at attr_sheet (7, c)) = false.
Proof.
  intros Hc. unfold cell_at, attr_sheet. cbn [cells].
  rewrite !lookup_insert_ne by (intros [= ?]; lia). reflexivity.
Qed.

Lemma attr_visit_cells_until_break_witness :
  is_merged (cell_at attr_sheet (7, 2)) = true
  /\ exists ws',
       attr_visit_cells (fun j => if (j =? 1)%nat then Break else Write (VStr "Y")) 6 7
         (seq 0 3) attr_sheet = inr ws'
       /\ value_at ws' (7, 6) = VStr "Y"
       /\ cell_at ws' (7, 7) = empty_cell /\ cell_at ws' (7, 8) = empty_cell.
Proof.
  split; [reflexivity|].
  destruct (attr_visit_cells_until_break
              (fun j => if (j =? 1)%nat then Break else Write (VStr "Y")) 6 7 3 attr_sheet)
    as (ws' & E & V); [lia|lia|exact attr_sheet_free| |].
  { intros j v. destruct (j =? 1)%nat; [discriminate|]. now intros [= <-]. }
  exists ws'. split; [exact E|].
  pose proof (V 0) as V0. pose proof (V 1) as V1. pose proof (V 2) as V2.
  cbn in V0, V1, V2.
  destruct V0 as (v & v' & Hs & Hc & Hv); [lia|].
  injection Hs as <-. injection Hc as <-.
  repeat split; [exact Hv|apply V1; lia|apply V2; lia].
Defined.

Lemma existsb_pointwise {A} (f g : A -> bool) (l : list A) :
  (forall x, f x = g x) -> existsb f l = existsb g l.
Proof. intros H. induction l as [|x l IH]; simpl; [reflexivity|]. now rewrite H, IH. Qed.

(** The step of the "Triggering: Form" row. *)
Lemma triggering_form_step df_visits visit_groups visit_labels event_names rand_idx j :
  mapped_value df_visits visit_groups visit_labels event_names rand_idx
    "Triggering: Form" j
  = if String.eqb (nth j event_names "") "RAND" then Write (VStr "ELIGIBILITY_CRITERIA")
    else if (rand_idx <? j)%nat && contains "V" (nth j visit_labels "") then Break
    else Write (VStr "").
Proof.
  unfold mapped_value.
  change (startswith "Visit Dynamics" "Triggering: Form") with false.
  change (startswith "Triggering: Event" "Triggering: Form") with false.
  change (startswith "Triggering: Form" "Triggering: Form") with true.
  cbv iota.
  destruct (String.eqb _ "RAND"); [reflexivity|].
  destruct (rand_idx <? j)%nat; [|reflexivity].
  now destruct (contains "V" _).
Qed.

(** X10. In the "Triggering: Form" row no cell ever receives
    RANDOMISATION: after the visit loop a visit cell holds
    ELIGIBILITY_CRITERIA (the code of the visit is RAND), or the empty
    string, or - from the first visit after the randomisation index whose
    label holds a V and whose code is not RAND on - is left as it was.
    As in the builder, the row may hold its merged label cells: no cell of
    the row from the first visit column on is a merged cell. *)
Theorem triggering_form_row_cells (df_visits : DataFrame)
    (visit_groups visit_labels event_names : list string) (rand_idx c0 row n : nat)
    (ws : Worksheet) :
  1 <= row -> 1 <= c0 ->
  (forall c, c0 <= c -> is_merged (cell_at ws (row, c)) = false) ->
  let due j := negb (String.eqb (nth j event_names "") "RAND")
               && ((rand_idx <? j)%nat && contains "V" (nth j visit_labels "")) in
  exists ws',
    attr_visit_cells
      (mapped_value df_visits visit_groups visit_labels event_names rand_idx
         "Triggering: Form") c0 row (seq 0 n) ws = inr ws'
    /\ forall j, j < n ->
         if existsb due (seq 0 (S j))
         then cell_at ws' (row, c0 + j) = cell_at ws (row, c0 + j)
         else value_at ws' (row, c0 + j)
              = VStr (if String.eqb (nth j event_names "") "RAND"
                      then "ELIGIBILITY_CRITERIA" else "").
Proof.
  intros Hr Hc Hrow due.
  set (step := mapped_value df_visits visit_groups visit_labels event_names rand_idx
                 "Triggering: Form").
  assert (Hstep : forall j, step j
            = if String.eqb (nth j event_names "") "RAND"
              then Write (VStr "ELIGIBILITY_CRITERIA")
              else if (rand_idx <? j)%nat && contains "V" (nth j visit_labels "") then Break
              else Write (VStr "")) by (intros j; apply triggering_form_step).
  assert (Hdue : forall j, is_break (step j) = due j).
  { intros j. rewrite Hstep. unfold due.
    destruct (String.eqb _ "RAND"); [reflexivity|].
    now destruct ((rand_idx <? j)%nat && _). }
  destruct (attr_cells_run step c0 row n 0 ws Hr Hc Hrow) as (ws' & E & _ & _ & V & _).
  { intros j v. rewrite Hstep. destruct (String.eqb _ "RAND"); [now intros [= <-]|].
    destruct ((rand_idx <? j)%nat && _); [discriminate|now intros [= <-]]. }
  exists ws'. split; [exact E|]. intros j Hj. specialize (V j).
  unfold left_between in V. rewrite Nat.sub_0_r in V.
  rewrite (existsb_pointwise _ due _ Hdue) in V.
  destruct (existsb due (seq 0 (S j))); [apply V; lia|].
  destruct V as (v & v' & Hs & Hco & Hv); [lia|]. rewrite Hv.
  rewrite Hstep in Hs. destruct (String.eqb _ "RAND").
  - injection Hs as <-. now injection Hco as <-.
  - destruct ((rand_idx <? j)%nat && _); [discriminate|].
    injection Hs as <-. now injection Hco as <-.
Qed.

Lemma triggering_form_row_cells_witness :
  is_merged (cell_at attr_sheet (7, 2)) = true
  /\ exists ws',
       attr_visit_cells
         (mapped_value (mkDataFrame [] []) ["Randomisation"; "Treatment"; "Treatment"]
            ["V1"; "V2"; "V3"] ["RAND"; "V2"; "V3"] 0 "Triggering: Form")
         6 7 (seq 0 3) attr_sheet = inr ws'
       /\ value_at ws' (7, 6) = VStr "ELIGIBILITY_CRITERIA"
       /\ cell_at ws' (7, 7) = empty_cell /\ cell_at ws' (7, 8) = empty_cell.
Proof.
  split; [reflexivity|].
  destruct (triggering_form_row_cells (mkDataFrame [] [])
              ["Randomisation"; "Treatment"; "Treatment"] ["V1"; "V2"; "V3"]
              ["RAND"; "V2"; "V3"] 0 6 7 3 attr_sheet)
    as (ws' & E & V); [lia|lia|exact attr_sheet_free|].
  exists ws'. split; [exact E|].
  pose proof (V 0) as V0. pose proof (V 1) as V1. pose proof (V 2) as V2.
  cbn in V0, V1, V2.
  repeat split; [apply V0; lia|apply V1; lia|apply V2; lia].
Defined.

End BodyMore.

Section FormRowMore.
Import PyStr PyVal Xl Layout.








End FormRowMore.

(** ** More on the two copy modes *)

Section CopyMore.
Import PyVal Xl Graft Examples.


Lemma append_keeps d vals :
  merged (append d vals) = merged d
  /\ col_width (append d vals) = col_width d /\ row_height (append d vals) = row_height d.
Proof. repeat split. Qed.




Lemma restyle_keeps d r c f :
  merged (restyle d r c f) = merged d
  /\ col_width (restyle d r c f) = col_width d
  /\ row_height (restyle d r c f) = row_height d.
Proof. unfold restyle. destruct (cells d !! (r, c)); repeat split. Qed.

Lemma copy_style_idem c st : copy_style c (copy_style c st) = copy_style c st.
Proof.
  unfold copy_style. destruct (has_style c); [|reflexivity].
  destruct (fill_error _); [reflexivity|].
  destruct (fill (style c)) as [t sc ec|t];
    destruct (border (style c)) as [[l|] [r|] [tp|] [bt|]]; cbn [b_left b_right b_top b_bottom];
    try (destruct (opt_truthy t)); try (destruct (negb (String.eqb _ _)));
    reflexivity.
Qed.

Section FullCopyStyles.
Variable src : Worksheet.



End FullCopyStyles.





(** X29. On a sheet whose cell A1 has a border with a left side alone,
    the full-fidelity copy raises the AttributeError of lines 213-216,
    whereas the values-only copy returns a sheet with the value of A1, and
    the header-style copy passes over the error (lines 302-304) and leaves
    the border of the destination cell as it was. *)
Theorem missing_side_stops_full_copy :
  _copy_worksheet_contents sideless_sheet empty_sheet
  = raise (AttributeError "'NoneType' object has no attribute 'style'")
  /\ value_at (_copy_worksheet_values_only sideless_sheet empty_sheet) (1, 1) = VStr "x"
  /\ border (style (cell_at (_copy_header_styles sideless_sheet empty_sheet 1) (1, 1)))
     = default_border.
Proof. repeat split; vm_compute; reflexivity. Qed.

End CopyMore.

(** ** Styles and dimensions carried by the copies *)

Section StyleMore.
Import PyVal Xl Graft Examples.








(** One cell of the header pass: the destination cell is fetched (created
    when absent) and restyled; nothing happens on a failure. *)
Lemma header_step src_ws d r c :
  1 <= r -> 1 <= c ->
  match cell d r c VNone with
  | inr d' => restyle d' r c (copy_style (cell_at src_ws (r, c)))
  | inl _ => d
  end = restyle (fst (get_cell d r c)) r c (copy_style (cell_at src_ws (r, c))).
Proof.
  intros Hr Hc. unfold cell.
  replace (r <? 1)%nat with false by (symmetry; apply Nat.ltb_ge; lia).
  replace (c <? 1)%nat with false by (symmetry; apply Nat.ltb_ge; lia).
  simpl. now destruct (get_cell d r c).
Qed.

Lemma header_rows_run src_ws cs rs :
  Forall (fun c => 1 <= c) cs -> Forall (fun r => 1 <= r) rs ->
  forall d,
    let d' := foldl (fun d r =>
                foldl (fun d c =>
                         match cell d r c VNone with
                         | inr d' => restyle d' r c (copy_style (cell_at src_ws (r, c)))
                         | inl _ => d
                         end) d cs) d rs in
    merged d' = merged d /\ col_width d' = col_width d /\ row_height d' = row_height d
    /\ forall q,
         cell_at d' q
         = if decide (fst q ∈ rs /\ snd q ∈ cs)
           then with_style (copy_style (cell_at src_ws q)) (cell_at d q)
           else cell_at d q.
Proof.
  intros Hcs. induction 1 as [|r rs Hr _ IH]; intros d; simpl.
  - repeat split.
  - set (inner := foldl _ d cs).
    assert (Hin : merged inner = merged d /\ col_width inner = col_width d
                  /\ row_height inner = row_height d
                  /\ forall q, cell_at inner q
                     = if decide (fst q = r /\ snd q ∈ cs)
                       then with_style (copy_style (cell_at src_ws q)) (cell_at d q)
                       else cell_at d q).
    { subst inner. clear IH. revert d. induction Hcs as [|c cs Hc _ IHc]; intros d; simpl.
      - repeat split. intros q. rewrite decide_False; [reflexivity|].
        intros [_ H]. now apply elem_of_nil in H.
      - rewrite header_step by assumption.
        set (d1 := restyle _ r c _).
        destruct (IHc d1) as (A & B & C & D).
        destruct (restyle_keeps (fst (get_cell d r c)) r c
                    (copy_style (cell_at src_ws (r, c)))) as (A1 & B1 & C1).
        fold d1 in A1, B1, C1.
        assert (G : merged (fst (get_cell d r c)) = merged d
                    /\ col_width (fst (get_cell d r c)) = col_width d
                    /\ row_height (fst (get_cell d r c)) = row_height d).
        { unfold get_cell. destruct (cells d !! (r, c)); repeat split. }
        destruct G as (A0 & B0 & C0).
        split; [congruence|]. split; [congruence|]. split; [congruence|].
        intros q. rewrite D. subst d1. rewrite cell_at_touch.
        destruct q as [qr qc]. simpl fst. simpl snd.
        destruct (decide (qr = r /\ qc ∈ cs)) as [[-> Hi]|Hn].
        + rewrite (decide_True (P := r = r /\ qc ∈ c :: cs)) by (split; [reflexivity|now right]).
          destruct (decide ((r, qc) = (r, c))) as [[= ->]|_]; [|reflexivity].
          destruct (cell_at d (r, c)); simpl; now rewrite copy_style_idem.
        + destruct (decide ((qr, qc) = (r, c))) as [[= -> ->]|Hq].
          * rewrite decide_True; [reflexivity|]. split; [reflexivity|now left].
          * rewrite decide_False; [reflexivity|].
            intros [-> [->|Hi]%elem_of_cons]; [now apply Hq|apply Hn; auto]. }
    destruct Hin as (A & B & C & D). destruct (IH inner) as (A2 & B2 & C2 & D2).
    split; [congruence|]. split; [congruence|]. split; [congruence|].
    intros q. rewrite D2, D. destruct q as [qr qc]. simpl fst. simpl snd.
    destruct (decide (qr ∈ rs /\ qc ∈ cs)) as [[Hi Hj]|Hn].
    + rewrite (decide_True (P := qr ∈ r :: rs /\ _)) by (split; [now right|exact Hj]).
      destruct (decide (qr = r /\ qc ∈ cs)) as [_|_]; [|reflexivity].
      destruct (cell_at d (qr, qc)); simpl; now rewrite copy_style_idem.
    + destruct (decide (qr = r /\ qc ∈ cs)) as [[-> Hj]|Hn'].
      * rewrite decide_True; [reflexivity|]. split; [now left|exact Hj].
      * rewrite decide_False; [reflexivity|].
        intros [[->|Hi]%elem_of_cons Hj]; [apply Hn'|apply Hn]; auto.
Qed.

Lemma header_styles_run src_ws d K :
  let d' := _copy_header_styles src_ws d K in
  merged d' = merged d /\ col_width d' = col_width d /\ row_height d' = row_height d
  /\ forall q,
       cell_at d' q
       = if decide ((1 <= fst q <= Nat.min K (max_row src_ws))
                    /\ 1 <= snd q <= max_column src_ws)
         then with_style (copy_style (cell_at src_ws q)) (cell_at d q)
         else cell_at d q.
Proof.
  unfold _copy_header_styles. destruct (K =? 0)%nat eqn:HK.
  - apply Nat.eqb_eq in HK. subst K. repeat split. intros q.
    rewrite decide_False; [reflexivity|]. simpl. lia.
  - destruct (header_rows_run src_ws (seq 1 (max_column src_ws))
                (seq 1 (Nat.min K (max_row src_ws)))) with (d := d) as (A & B & C & D).
    + apply Forall_forall. intros c Hc%list_elem_of_In%in_seq. lia.
    + apply Forall_forall. intros r Hr%list_elem_of_In%in_seq. lia.
    + split; [exact A|]. split; [exact B|]. split; [exact C|].
      intros q. rewrite D.
      destruct (decide (fst q ∈ _ /\ snd q ∈ _)) as [[H1%list_elem_of_In%in_seq H2%list_elem_of_In%in_seq]|Hn].
      * rewrite decide_True; [reflexivity|lia].
      * rewrite decide_False; [reflexivity|]. intros [H1 H2]. apply Hn.
        split; apply list_elem_of_In, in_seq; lia.
Qed.

(** X16. The header-style pass changes styles only: the destination
    keeps its merged ranges, its dimensions, and at every address its value
    and whether the cell is a merged cell. *)
Theorem copy_header_styles_keeps_content (src_ws dest_ws : Worksheet) (K : nat) :
  same_content dest_ws (_copy_header_styles src_ws dest_ws K)
  /\ col_width (_copy_header_styles src_ws dest_ws K) = col_width dest_ws
  /\ row_height (_copy_header_styles src_ws dest_ws K) = row_height dest_ws.
Proof.
  destruct (header_styles_run src_ws dest_ws K) as (A & B & C & D).
  split; [|split; assumption]. split; [exact A|].
  intros q. unfold value_at. rewrite D. destruct (decide _); [|split; reflexivity].
  now rewrite value_with_style, is_merged_with_style.
Qed.

(** X17. The header-style pass restyles exactly the block of the first
    [min(K, max_row)] rows over the source's columns: there the
    destination style receives the source cell's style assignments, and
    every cell outside the block is left as it was. *)
Theorem copy_header_styles_block (src_ws dest_ws : Worksheet) (K : nat) (q : nat * nat) :
  (1 <= fst q <= Nat.min K (max_row src_ws) /\ 1 <= snd q <= max_column src_ws ->
   style (cell_at (_copy_header_styles src_ws dest_ws K) q)
   = copy_style (cell_at src_ws q) (style (cell_at dest_ws q)))
  /\ (~ (1 <= fst q <= Nat.min K (max_row src_ws) /\ 1 <= snd q <= max_column src_ws) ->
      cell_at (_copy_header_styles src_ws dest_ws K) q = cell_at dest_ws q).
Proof.
  destruct (header_styles_run src_ws dest_ws K) as (_ & _ & _ & D).
  split; intros H; rewrite D.
  - rewrite decide_True by exact H. apply style_with_style.
  - now rewrite decide_False by exact H.
Qed.

Lemma copy_header_styles_block_witness :
  style (cell_at (_copy_header_styles styled_sheet empty_sheet 3) (1, 1))
  = mkStyle (mkFont (Some "Arial") true false) (mkAlignment (Some "center") None true)
      (mkFill (Some "solid") "E7E6E6" "E7E6E6") thin_border "0.00"
  /\ fill (style (cell_at (_copy_header_styles styled_sheet empty_sheet 3) (1, 2)))
     = default_fill
  /\ cell_at (_copy_header_styles styled_sheet empty_sheet 1) (2, 1) = empty_cell.
Proof.
  split; [|split].
  - rewrite (proj1 (copy_header_styles_block styled_sheet empty_sheet 3 (1, 1))).
    + vm_compute. reflexivity.
    + vm_compute. repeat split; apply Nat.le_refl || (repeat constructor).
  - rewrite (proj1 (copy_header_styles_block styled_sheet empty_sheet 3 (1, 2))).
    + vm_compute. reflexivity.
    + vm_compute. repeat split; apply Nat.le_refl || (repeat constructor).
  - apply (proj2 (copy_header_styles_block styled_sheet empty_sheet 1 (2, 1))).
    vm_compute. intros [[_ H] _]. inversion H as [|? H']. inversion H'.
Defined.

End StyleMore.

(** ** More on the post-formatting *)

Section AutoFormatMore.
Import PyVal Xl Graft Examples.
Variable float_repr : Z -> Z -> string.

Lemma keys_max_insert (g : nat * nat -> nat) (m : gmap (nat * nat) Cell) k x :
  max_list (map (fun kv => g (fst kv)) (map_to_list (<[k := x]> m)))
  = Nat.max (g k) (max_list (map (fun kv => g (fst kv)) (map_to_list (delete k m)))).
Proof.
  rewrite <- insert_delete_eq.
  transitivity (max_list (map (fun kv : nat * nat * Cell => g (fst kv))
                            ((k, x) :: map_to_list (delete k m)))); [|reflexivity].
  apply max_list_with_Permutation_proper, Permutation.Permutation_map.
  apply map_to_list_insert, lookup_delete_eq.
Qed.

Lemma keys_max_present (g : nat * nat -> nat) (m : gmap (nat * nat) Cell) k y :
  m !! k = Some y ->
  max_list (map (fun kv => g (fst kv)) (map_to_list m))
  = Nat.max (g k) (max_list (map (fun kv => g (fst kv)) (map_to_list (delete k m)))).
Proof.
  intros H.
  transitivity (max_list (map (fun kv : nat * nat * Cell => g (fst kv))
                            ((k, y) :: map_to_list (delete k m)))); [|reflexivity].
  apply max_list_with_Permutation_proper, Permutation.Permutation_map.
  symmetry. now apply map_to_list_delete.
Qed.

Lemma max_get_cell ws r c :
  1 <= r <= max_row ws -> 1 <= c <= max_column ws ->
  max_row (fst (get_cell ws r c)) = max_row ws
  /\ max_column (fst (get_cell ws r c)) = max_column ws.
Proof.
  unfold get_cell. destruct (cells ws !! (r, c)) as [x|] eqn:E; [split; reflexivity|].
  unfold max_row, max_column. simpl.
  rewrite (bool_decide_eq_false_2 (<[_ := _]> _ = ∅)) by apply insert_non_empty.
  rewrite (keys_max_insert fst), (keys_max_insert snd), delete_id by exact E.
  destruct (bool_decide_reflect (cells ws = ∅)) as [E0|_].
  - rewrite E0, map_to_list_empty. simpl. lia.
  - simpl. lia.
Qed.

Lemma max_restyle ws r c f :
  max_row (restyle ws r c f) = max_row ws
  /\ max_column (restyle ws r c f) = max_column ws.
Proof.
  unfold restyle. destruct (cells ws !! (r, c)) as [x|] eqn:E; [|split; reflexivity].
  unfold max_row, max_column. simpl.
  rewrite (bool_decide_eq_false_2 (<[_ := _]> _ = ∅)) by apply insert_non_empty.
  rewrite (bool_decide_eq_false_2 (cells ws = ∅))
    by (intros E0; rewrite E0 in E; discriminate).
  rewrite (keys_max_insert fst), (keys_max_insert snd).
  now rewrite <- (keys_max_present fst _ _ _ E), <- (keys_max_present snd _ _ _ E).
Qed.

Lemma style_cols_run (f : nat -> nat -> Style -> Style) r cs :
  NoDup cs ->
  forall ws, 1 <= r <= max_row ws -> Forall (fun c => 1 <= c <= max_column ws) cs ->
    let w' := foldl (fun w c => restyle (fst (get_cell w r c)) r c (f r c)) ws cs in
    max_row w' = max_row ws /\ max_column w' = max_column ws
    /\ forall q, cell_at w' q
                 = if decide (fst q = r /\ snd q ∈ cs)
                   then with_style (f r (snd q)) (cell_at ws q)
                   else cell_at ws q.
Proof.
  induction 1 as [|c cs Hc _ IH]; intros ws Hr Hcs; simpl.
  - repeat split. intros q. rewrite decide_False; [reflexivity|].
    intros [_ H]. now apply elem_of_nil in H.
  - apply Forall_cons in Hcs as [Hc1 Hcs].
    set (w1 := restyle (fst (get_cell ws r c)) r c (f r c)).
    assert (Hmax : max_row w1 = max_row ws /\ max_column w1 = max_column ws).
    { subst w1. destruct (max_restyle (fst (get_cell ws r c)) r c (f r c)) as [-> ->].
      now apply max_get_cell. }
    destruct Hmax as [Hm1 Hm2].
    destruct (IH w1) as (A & B & C).
    { now rewrite Hm1. }
    { now rewrite Hm2. }
    split; [congruence|]. split; [congruence|].
    intros q. rewrite C. subst w1. rewrite cell_at_touch.
    destruct q as [qr qc]. simpl fst. simpl snd.
    destruct (decide (qr = r /\ qc ∈ cs)) as [[-> Hi]|Hn].
    + rewrite (decide_True (P := r = r /\ qc ∈ c :: cs)) by (split; [reflexivity|now right]).
      rewrite decide_False; [reflexivity|]. intros [= ->]. contradiction.
    + destruct (decide ((qr, qc) = (r, c))) as [[= -> ->]|Hq].
      * rewrite decide_True; [reflexivity|]. split; [reflexivity|now left].
      * rewrite decide_False; [reflexivity|].
        intros [-> [->|Hi]%elem_of_cons]; [now apply Hq|apply Hn; auto].
Qed.

Lemma style_row_run (f : nat -> nat -> Style -> Style) ws r :
  1 <= r <= max_row ws ->
  max_row (style_row f ws r) = max_row ws
  /\ max_column (style_row f ws r) = max_column ws
  /\ forall q, cell_at (style_row f ws r) q
               = if decide (fst q = r /\ 1 <= snd q <= max_column ws)
                 then with_style (f r (snd q)) (cell_at ws q)
                 else cell_at ws q.
Proof.
  intros Hr. unfold style_row.
  destruct (style_cols_run f r (seq 1 (max_column ws)) (NoDup_seq _ _) ws Hr)
    as (A & B & C).
  { apply Forall_forall. intros c Hc%list_elem_of_In%in_seq. lia. }
  split; [exact A|]. split; [exact B|]. intros q. rewrite C.
  destruct (decide (fst q = r /\ snd q ∈ _)) as [[H1 H2%list_elem_of_In%in_seq]|Hn].
  - rewrite decide_True; [reflexivity|]. split; [exact H1|lia].
  - rewrite decide_False; [reflexivity|]. intros [H1 H2]. apply Hn.
    split; [exact H1|]. apply list_elem_of_In, in_seq. lia.
Qed.

Lemma style_rows_run (f : nat -> nat -> Style -> Style) rs :
  NoDup rs ->
  forall ws, Forall (fun r => 1 <= r <= max_row ws) rs ->
    max_row (foldl (style_row f) ws rs) = max_row ws
    /\ max_column (foldl (style_row f) ws rs) = max_column ws
    /\ forall q, cell_at (foldl (style_row f) ws rs) q
                 = if decide (fst q ∈ rs /\ 1 <= snd q <= max_column ws)
                   then with_style (f (fst q) (snd q)) (cell_at ws q)
                   else cell_at ws q.
Proof.
  induction 1 as [|r rs Hr _ IH]; intros ws Hrs; simpl.
  - repeat split.
  - apply Forall_cons in Hrs as [Hr1 Hrs].
    destruct (style_row_run f ws r Hr1) as (A & B & C).
    destruct (IH (style_row f ws r)) as (A2 & B2 & C2).
    { now rewrite A. }
    split; [congruence|]. split; [congruence|].
    intros q. rewrite C2, C, B. destruct q as [qr qc]. simpl fst. simpl snd.
    destruct (decide (qr ∈ rs /\ _)) as [[Hi Hj]|Hn].
    + rewrite (decide_True (P := qr ∈ r :: rs /\ _)) by (split; [now right|exact Hj]).
      rewrite decide_False; [reflexivity|]. intros [<- _]. contradiction.
    + destruct (decide (qr = r /\ _)) as [[<- Hj]|Hn'].
      * rewrite decide_True; [reflexivity|]. split; [now left|exact Hj].
      * rewrite decide_False; [reflexivity|].
        intros [[->|Hi]%elem_of_cons Hj]; [apply Hn'|apply Hn]; auto.
Qed.

(** X18. What [auto_format_sheet] does to each cell of the used block
    (rows 1..max_row, columns 1..max_column): a cell of the first
    [max(1, min(header_rows, max_row))] rows receives the header
    assignments, every other cell the data assignments, each exactly once,
    applied to the style the cell had. *)
Theorem auto_format_sheet_styles (sheet : Worksheet) (header_rows : nat)
    (skip_fill_rows : list nat) (r c : nat) :
  1 <= r <= max_row sheet -> 1 <= c <= max_column sheet ->
  cell_at (auto_format_sheet float_repr sheet header_rows skip_fill_rows) (r, c)
  = with_style
      (if (r <=? Nat.max 1 (Nat.min header_rows (max_row sheet)))%nat
       then format_header_cell skip_fill_rows r c
       else format_data_cell)
      (cell_at sheet (r, c)).
Proof.
  intros Hr Hc. unfold auto_format_sheet. rewrite cell_at_auto_widths.
  set (hr := Nat.max 1 (Nat.min header_rows (max_row sheet))).
  assert (Hhr : 1 <= hr <= max_row sheet) by (subst hr; lia).
  destruct (style_rows_run (format_header_cell skip_fill_rows) (seq 1 hr)
              (NoDup_seq _ _) sheet) as (A & B & C).
  { apply Forall_forall. intros r' Hr'%list_elem_of_In%in_seq. lia. }
  set (s1 := foldl (style_row (format_header_cell skip_fill_rows)) sheet (seq 1 hr)) in *.
  destruct (style_rows_run (fun _ _ => format_data_cell) (seq (S hr) (max_row s1 - hr))
              (NoDup_seq _ _) s1) as (_ & _ & C2).
  { apply Forall_forall. intros r' Hr'%list_elem_of_In%in_seq. lia. }
  rewrite C2, C, B. simpl fst. simpl snd.
  destruct (r <=? hr)%nat eqn:Hle.
  - apply Nat.leb_le in Hle.
    rewrite decide_False by (intros [H%list_elem_of_In%in_seq _]; lia).
    rewrite decide_True; [reflexivity|]. split; [|exact Hc].
    apply list_elem_of_In, in_seq. lia.
  - apply Nat.leb_gt in Hle.
    rewrite decide_True by (split; [apply list_elem_of_In, in_seq; lia|exact Hc]).
    rewrite decide_False; [reflexivity|]. intros [H%list_elem_of_In%in_seq _]. lia.
Qed.

Lemma style_row_content (f : nat -> nat -> Style -> Style) ws r :
  same_content ws (style_row f ws r).
Proof.
  unfold style_row.
  apply (foldl_invariant (fun w => same_content ws w)).
  - intros w c [Hm Hq]. split.
    + destruct (restyle_keeps (fst (get_cell w r c)) r c (f r c)) as (-> & _ & _).
      now rewrite merged_get_cell.
    + intros q. unfold value_at. rewrite cell_at_touch.
      destruct (decide _); [rewrite value_with_style, is_merged_with_style|]; apply Hq.
  - split; [reflexivity|]. intros q. split; reflexivity.
Qed.

Lemma same_content_trans a b c :
  same_content a b -> same_content b c -> same_content a c.
Proof.
  intros [M1 Q1] [M2 Q2]. split; [congruence|].
  intros q. destruct (Q1 q), (Q2 q). split; congruence.
Qed.

Lemma merged_auto_widths ws : merged (auto_widths float_repr ws) = merged ws.
Proof.
  unfold auto_widths. destruct (current_row ws =? 0)%nat; [reflexivity|].
  apply (foldl_invariant (fun w => merged w = merged ws)); [|reflexivity].
  intros w c Hw. simpl. rewrite <- Hw.
  apply (foldl_invariant (fun w' => merged w' = merged w)); [|reflexivity].
  intros w' r Hw'. now rewrite merged_get_cell.
Qed.

Lemma auto_format_content sheet header_rows skip_fill_rows :
  same_content sheet (auto_format_sheet float_repr sheet header_rows skip_fill_rows).
Proof.
  unfold auto_format_sheet.
  set (hr := Nat.max 1 (Nat.min header_rows (max_row sheet))).
  set (s1 := foldl _ sheet (seq 1 hr)).
  set (s2 := foldl _ s1 _).
  assert (H1 : same_content sheet s1).
  { subst s1. apply (foldl_invariant (fun w => same_content sheet w)).
    - intros w r Hw. eapply same_content_trans; [exact Hw|apply style_row_content].
    - split; [reflexivity|]. intros q. split; reflexivity. }
  assert (H2 : same_content s1 s2).
  { subst s2. apply (foldl_invariant (fun w => same_content s1 w)).
    - intros w r Hw. eapply same_content_trans; [exact Hw|apply style_row_content].
    - split; [reflexivity|]. intros q. split; reflexivity. }
  eapply same_content_trans; [exact H1|]. eapply same_content_trans; [exact H2|].
  split; [apply merged_auto_widths|].
  intros q. unfold value_at. rewrite cell_at_auto_widths. split; reflexivity.
Qed.

(** X19. [auto_format_sheet] is a pure formatting pass: whatever the
    sheet and the arguments, no value changes, no cell becomes or stops
    being a merged cell, and the merged ranges stay as they are. *)
Theorem auto_format_sheet_keeps_content (sheet : Worksheet) (header_rows : nat)
    (skip_fill_rows : list nat) :
  same_content sheet (auto_format_sheet float_repr sheet header_rows skip_fill_rows).
Proof. apply auto_format_content. Qed.

(** X20. [finalize_formatting] keeps the sheets and their order; a sheet
    whose title is not the forms sheet name is untouched, and the forms
    sheet keeps its values, merged cells and merged ranges. *)
Theorem finalize_formatting_touches_forms_only (wb : Workbook) (forms_sheet_name : string) :
  sheetnames (finalize_formatting float_repr wb forms_sheet_name) = sheetnames wb
  /\ forall i sh, wb !! i = Some sh ->
       exists sh', finalize_formatting float_repr wb forms_sheet_name !! i = Some sh'
         /\ same_content (content sh) (content sh')
         /\ (title sh <> forms_sheet_name -> sh' = sh).
Proof.
  unfold finalize_formatting, sheetnames. split.
  - rewrite map_map. apply map_ext. intros sh. now destruct (String.eqb _ _).
  - intros i sh Hi.
    assert (L : forall f : Sheet -> Sheet, map f wb !! i = f <$> (wb !! i))
      by (intros f; exact (list_lookup_fmap f wb i)).
    rewrite L, Hi. simpl.
    eexists. split; [reflexivity|].
    destruct (String.eqb (title sh) forms_sheet_name) eqn:E; simpl.
    + split; [apply auto_format_content|]. apply String.eqb_eq in E. congruence.
    + split; [|reflexivity]. split; [reflexivity|]. intros q. split; reflexivity.
Qed.

End AutoFormatMore.

Lemma auto_format_sheet_styles_witness :
  Xl.cell_at (Graft.auto_format_sheet (fun _ _ => "") Examples.titled_sheet 1 []) (1, 1)
  = Xl.with_style (Graft.format_header_cell [] 1 1)
      (Xl.cell_at Examples.titled_sheet (1, 1)).
Proof.
  apply (auto_format_sheet_styles (fun _ _ => "") Examples.titled_sheet 1 [] 1 1).
  - vm_compute. repeat split; repeat constructor.
  - vm_compute. repeat split; repeat constructor.
Defined.

(** ** More on the grafting into the template *)

Section GraftMore.
Import PyStr PyVal Xl Graft Examples.

Lemma filter_all {A} (P : A -> bool) (l : list A) :
  (forall x, x ∈ l -> P x = true) -> List.filter P l = l.
Proof.
  induction l as [|x l IH]; intros H; simpl; [reflexivity|].
  rewrite (H x) by now left. f_equal. apply IH. intros y Hy. apply H. now right.
Qed.

Lemma elem_of_names_filter (P : Sheet -> bool) n wb :
  n ∈ sheetnames (List.filter P wb) -> n ∈ sheetnames wb.
Proof.
  unfold sheetnames. induction wb as [|sh wb IH]; simpl; [easy|].
  destruct (P sh); simpl.
  - intros [->|H]%elem_of_cons; [now left|right; auto].
  - intros H. right. auto.
Qed.

Lemma NoDup_names_filter (P : Sheet -> bool) wb :
  NoDup (sheetnames wb) -> NoDup (sheetnames (List.filter P wb)).
Proof.
  unfold sheetnames. induction wb as [|sh wb IH]; simpl; [easy|].
  intros [Hn Hd]%NoDup_cons. destruct (P sh); simpl; [|auto].
  apply NoDup_cons. split; [|auto]. intros H. apply Hn.
  now apply (elem_of_names_filter P).
Qed.

Lemma remove_sheet_filter n wb :
  NoDup (sheetnames wb) ->
  remove_sheet n wb = List.filter (fun sh => negb (String.eqb (title sh) n)) wb.
Proof.
  unfold sheetnames. induction wb as [|sh wb IH]; simpl; [easy|].
  intros [Hn Hd]%NoDup_cons. destruct (String.eqb (title sh) n) eqn:E; simpl.
  - apply String.eqb_eq in E. symmetry. apply filter_all. intros x Hx.
    apply negb_true_iff, String.eqb_neq. intros Hx'. apply Hn. rewrite E, <- Hx'.
    apply list_elem_of_fmap. eauto.
  - f_equal. auto.
Qed.

Lemma filter_both (P Q : Sheet -> bool) wb :
  List.filter Q (List.filter P wb) = List.filter (fun sh => P sh && Q sh) wb.
Proof.
  induction wb as [|sh wb IH]; simpl; [reflexivity|].
  destruct (P sh); simpl; [|exact IH]. destruct (Q sh); simpl; now rewrite IH.
Qed.

Lemma remove_both s f wb :
  NoDup (sheetnames wb) -> remove_sheet f (remove_sheet s wb) = others s f wb.
Proof.
  intros Hd. rewrite (remove_sheet_filter s wb Hd).
  rewrite remove_sheet_filter by now apply NoDup_names_filter.
  apply filter_both.
Qed.

Lemma remove_absent n wb : n ∉ sheetnames wb -> remove_sheet n wb = wb.
Proof.
  unfold sheetnames. induction wb as [|sh wb IH]; simpl; [easy|].
  intros H. destruct (String.eqb (title sh) n) eqn:E.
  - apply String.eqb_eq in E. exfalso. apply H. rewrite E. now left.
  - f_equal. apply IH. intros H'. apply H. now right.
Qed.

Lemma elem_of_names_others s f n wb :
  n ∈ sheetnames (others s f wb) -> n ∈ sheetnames wb /\ n <> s /\ n <> f.
Proof.
  unfold others, sheetnames. induction wb as [|sh wb IH]; simpl.
  - intros H. now apply elem_of_nil in H.
  - destruct (String.eqb (title sh) s) eqn:Es; simpl.
    + intros H. destruct (IH H) as (? & ? & ?). repeat split; auto. now right.
    + destruct (String.eqb (title sh) f) eqn:Ef; simpl.
      * intros H. destruct (IH H) as (? & ? & ?). repeat split; auto. now right.
      * apply String.eqb_neq in Es, Ef.
        intros [->|H]%elem_of_cons; [repeat split; auto; now left|].
        destruct (IH H) as (? & ? & ?). repeat split; auto. now right.
Qed.

Lemma avoid_duplicate_name_fresh names v :
  (forall n, n ∈ names -> lower n <> lower v) -> avoid_duplicate_name names v = v.
Proof.
  intros H. unfold avoid_duplicate_name.
  replace (existsb _ names) with false; [reflexivity|].
  symmetry. apply not_true_is_false. intros (n & Hn & E)%existsb_exists.
  apply String.eqb_eq in E. apply (H n); [now apply list_elem_of_In|exact E].
Qed.

Lemma app_insert_at {A} (x : A) (l : list A) :
  (l ++ [x])%list = list_insert_at (List.length l) x l.
Proof. induction l as [|y l IH]; simpl; [reflexivity|now rewrite IH]. Qed.

Lemma elem_of_names_insert_at n i sh wb :
  n ∈ sheetnames (list_insert_at i sh wb) <-> n = title sh \/ n ∈ sheetnames wb.
Proof.
  unfold sheetnames. revert i. induction wb as [|y wb IH]; intros [|i]; simpl;
    rewrite ?elem_of_cons, ?IH, ?elem_of_cons; tauto.
Qed.

Lemma update_sheet_absent t g wb : t ∉ sheetnames wb -> update_sheet t g wb = ret wb.
Proof.
  unfold sheetnames. induction wb as [|sh wb IH]; simpl; [reflexivity|].
  intros H. destruct (String.eqb (title sh) t) eqn:E.
  - apply String.eqb_eq in E. exfalso. apply H. rewrite E. now left.
  - rewrite IH; [reflexivity|]. intros H'. apply H. now right.
Qed.

Lemma update_sheet_inserted t g i w wb :
  t ∉ sheetnames wb ->
  update_sheet t g (list_insert_at i (mkSheet t w) wb)
  = let! w' := g w in ret (list_insert_at i (mkSheet t w') wb).
Proof.
  unfold sheetnames. revert i. induction wb as [|sh wb IH]; intros i H.
  - destruct i; simpl; rewrite String.eqb_refl; now destruct (g w).
  - destruct i; simpl.
    + rewrite String.eqb_refl. now destruct (g w).
    + destruct (String.eqb (title sh) t) eqn:E.
      * apply String.eqb_eq in E. exfalso. apply H. simpl. rewrite E. now left.
      * rewrite IH by (intros H'; apply H; now right). now destruct (g w).
Qed.

Lemma update_sheet_beside t g j sh wb :
  title sh <> t ->
  update_sheet t g (list_insert_at j sh wb)
  = let! wb' := update_sheet t g wb in ret (list_insert_at j sh wb').
Proof.
  intros Hne. apply String.eqb_neq in Hne.
  revert j. induction wb as [|y wb IH]; intros j.
  - destruct j; simpl; now rewrite Hne.
  - destruct j; simpl.
    + rewrite Hne. now destruct (String.eqb (title y) t), (g (content y)),
        (update_sheet t g wb).
    + destruct (String.eqb (title y) t).
      * now destruct (g (content y)).
      * rewrite IH. now destruct (update_sheet t g wb).
Qed.

Lemma length_insert_at {A} i (x : A) l :
  List.length (list_insert_at i x l) = S (List.length l).
Proof.
  revert i. induction l as [|y l IH]; intros [|i]; simpl; try reflexivity.
  now rewrite IH.
Qed.

Lemma create_sheet_fresh wb name idx p :
  p = default (List.length wb) idx ->
  (forall n, n ∈ sheetnames wb -> lower n <> lower name) ->
  create_sheet wb name idx = (list_insert_at p (mkSheet name empty_sheet) wb, name).
Proof.
  intros -> H. unfold create_sheet. rewrite (avoid_duplicate_name_fresh _ _ H).
  destruct idx; simpl; [reflexivity|]. now rewrite app_insert_at.
Qed.

(** X21. With a template whose titles are distinct and clash with the
    two target names in no other spelling, a successful grafting returns
    exactly the other sheets of the template, unchanged and in their
    order, with two sheets inserted under the target names: the schedule
    sheet at the index its predecessor had (or at the end), then the forms
    sheet at the index its predecessor had once the schedule sheet was
    removed (or at the end); each holds the copy of the first sheet of its
    generated workbook into an empty sheet. *)
Theorem replace_sheets_result (wb_template wb_schedule wb_forms : Workbook)
    (s f : string) (fast : bool) (wb' : Workbook) :
  NoDup (sheetnames wb_template) ->
  (forall n, n ∈ sheetnames wb_template -> lower n = lower s -> n = s) ->
  (forall n, n ∈ sheetnames wb_template -> lower n = lower f -> n = f) ->
  lower s <> lower f ->
  replace_sheets_in_template wb_template wb_schedule wb_forms s f fast = inr wb' ->
  let rest := others s f wb_template in
  let i := if bool_decide (s ∈ sheetnames wb_template)
           then index_of s (sheetnames wb_template) else List.length rest in
  let j := if bool_decide (f ∈ sheetnames (remove_sheet s wb_template))
           then index_of f (sheetnames (remove_sheet s wb_template))
           else S (List.length rest) in
  exists src_s src_f cs cf,
    first_sheet wb_schedule = inr src_s /\ first_sheet wb_forms = inr src_f
    /\ (if fast
        then inr (_copy_header_styles src_s (_copy_worksheet_values_only src_s empty_sheet) 5)
        else _copy_worksheet_contents src_s empty_sheet) = inr cs
    /\ (if fast
        then inr (_copy_header_styles src_f (_copy_worksheet_values_only src_f empty_sheet) 3)
        else _copy_worksheet_contents src_f empty_sheet) = inr cf
    /\ wb' = list_insert_at j (mkSheet f cf) (list_insert_at i (mkSheet s cs) rest).
Proof.
  intros Hd Hs Hf Hsf E rest i j.
  assert (Hne : s <> f) by (intros ->; now apply Hsf).
  unfold replace_sheets_in_template in E.
  set (wb1 := remove_sheet s wb_template) in *.
  assert (E1 : (if bool_decide (s ∈ sheetnames wb_template)
                then (Some (index_of s (sheetnames wb_template)), wb1)
                else (None, wb_template))
               = (if bool_decide (s ∈ sheetnames wb_template)
                  then Some (index_of s (sheetnames wb_template)) else None, wb1)).
  { destruct (bool_decide_reflect (s ∈ sheetnames wb_template)) as [|Hn];
      [reflexivity|]. subst wb1. now rewrite remove_absent. }
  rewrite E1 in E. clear E1.
  assert (E2 : (if bool_decide (f ∈ sheetnames wb1)
                then (Some (index_of f (sheetnames wb1)), remove_sheet f wb1)
                else (None, wb1))
               = (if bool_decide (f ∈ sheetnames wb1)
                  then Some (index_of f (sheetnames wb1)) else None, rest)).
  { subst rest. rewrite <- (remove_both s f wb_template Hd). fold wb1.
    destruct (bool_decide_reflect (f ∈ sheetnames wb1)) as [|Hn];
      [reflexivity|]. now rewrite remove_absent. }
  rewrite E2 in E. clear E2.
  assert (Hrest : forall n, n ∈ sheetnames rest -> lower n <> lower s /\ lower n <> lower f).
  { intros n Hn. apply elem_of_names_others in Hn as (Hn & Hns & Hnf). split; intros El.
    - now apply Hns, Hs.
    - now apply Hnf, Hf. }
  assert (Hsr : s ∉ sheetnames rest) by (intros H; now destruct (Hrest s H)).
  assert (Hfr : f ∉ sheetnames rest) by (intros H; now destruct (Hrest f H)).
  set (wb3 := list_insert_at i (mkSheet s empty_sheet) rest).
  rewrite (create_sheet_fresh rest s _ i) in E; fold wb3 in E.
  2:{ subst i. now destruct (bool_decide _). }
  2:{ intros n Hn. now destruct (Hrest n Hn). }
  assert (Hf3 : f ∉ sheetnames wb3).
  { subst wb3. rewrite elem_of_names_insert_at. simpl. intros [->|H]; auto. }
  set (wb4 := list_insert_at j (mkSheet f empty_sheet) wb3).
  rewrite (create_sheet_fresh wb3 f _ j) in E; fold wb4 in E.
  2:{ subst j wb3. fold wb1. rewrite length_insert_at.
      destruct (bool_decide (f ∈ sheetnames wb1)); reflexivity. }
  2:{ intros n Hn. subst wb3. apply elem_of_names_insert_at in Hn as [->|Hn].
      - exact Hsf.
      - now destruct (Hrest n Hn). }
  destruct (first_sheet wb_schedule) as [e|src_s] eqn:Fs; [discriminate|].
  destruct (first_sheet wb_forms) as [e|src_f] eqn:Ff; [discriminate|].
  simpl in E. exists src_s, src_f.
  assert (U1 : forall g w1 w2,
             update_sheet s g (list_insert_at j (mkSheet f w2)
                                 (list_insert_at i (mkSheet s w1) rest))
             = let! w' := g w1 in
               ret (list_insert_at j (mkSheet f w2) (list_insert_at i (mkSheet s w') rest))).
  { intros g w1 w2. rewrite update_sheet_beside by (simpl; congruence).
    rewrite update_sheet_inserted by exact Hsr. now destruct (g w1). }
  assert (U2 : forall g w1 w2,
             update_sheet f g (list_insert_at j (mkSheet f w2)
                                 (list_insert_at i (mkSheet s w1) rest))
             = let! w' := g w2 in
               ret (list_insert_at j (mkSheet f w') (list_insert_at i (mkSheet s w1) rest))).
  { intros g w1 w2. apply update_sheet_inserted.
    rewrite elem_of_names_insert_at. simpl. intros [->|H]; auto. }
  subst wb4 wb3. destruct fast.
  - rewrite U1 in E. simpl in E. rewrite U2 in E. simpl in E.
    rewrite U1 in E. simpl in E. rewrite U2 in E. simpl in E.
    injection E as <-. eexists _, _. repeat split.
  - rewrite U1 in E.
    destruct (_copy_worksheet_contents src_s empty_sheet) as [e|cs]; [discriminate|].
    simpl in E. rewrite U2 in E.
    destruct (_copy_worksheet_contents src_f empty_sheet) as [e|cf]; [discriminate|].
    simpl in E. injection E as <-. exists cs, cf. repeat split.
Qed.

Lemma update_sheet_pure t (g : Worksheet -> Worksheet) wb :
  exists wb', update_sheet t (fun d => ret (g d)) wb = inr wb'.
Proof.
  induction wb as [|sh wb [wb' IH]]; simpl; [now eexists|].
  destruct (String.eqb (title sh) t); simpl; [now eexists|].
  rewrite IH. simpl. now eexists.
Qed.

(** X22. In fast mode the grafting fails in one case only: it returns a
    workbook exactly when both generated workbooks have a first sheet,
    whatever the template and the sheets hold. *)
Theorem replace_sheets_fast_succeeds (wb_template wb_schedule wb_forms : Workbook)
    (s f : string) :
  (exists wb', replace_sheets_in_template wb_template wb_schedule wb_forms s f true
               = inr wb')
  <-> wb_schedule <> [] /\ wb_forms <> [].
Proof.
  unfold replace_sheets_in_template.
  destruct (if bool_decide (s ∈ sheetnames wb_template) then _ else _) as [si wb1].
  destruct (if bool_decide (f ∈ sheetnames wb1) then _ else _) as [fi wb2].
  destruct (create_sheet wb2 s si) as [wb3 ds].
  destruct (create_sheet wb3 f fi) as [wb4 df].
  split.
  - intros [wb' E]. destruct wb_schedule; [discriminate|].
    destruct wb_forms; [discriminate|]. split; discriminate.
  - intros [Hs Hf]. destruct wb_schedule as [|ss ?]; [contradiction|].
    destruct wb_forms as [|sf ?]; [contradiction|]. simpl.
    destruct (update_sheet_pure ds (_copy_worksheet_values_only (content ss)) wb4)
      as [wb5 ->]. simpl.
    destruct (update_sheet_pure df (_copy_worksheet_values_only (content sf)) wb5)
      as [wb6 ->]. simpl.
    destruct (update_sheet_pure ds (fun d => _copy_header_styles (content ss) d 5) wb6)
      as [wb7 ->]. simpl.
    apply (update_sheet_pure df (fun d => _copy_header_styles (content sf) d 3)).
Qed.

End GraftMore.

Lemma replace_sheets_result_witness :
  exists cs cf,
    Graft.replace_sheets_in_template Examples.template_wb Examples.generated_wb
      Examples.generated_wb "Schedule Grid" "Study Specific Forms" true
    = inr [Graft.mkSheet "Schedule Grid" cs; Graft.mkSheet "Study Specific Forms" cf;
           Graft.mkSheet "Notes" Examples.titled_sheet].
Proof.
  destruct (Graft.replace_sheets_in_template Examples.template_wb Examples.generated_wb
              Examples.generated_wb "Schedule Grid" "Study Specific Forms" true)
    as [e|wb'] eqn:E; [vm_compute in E; discriminate|].
  destruct (replace_sheets_result Examples.template_wb Examples.generated_wb
              Examples.generated_wb "Schedule Grid" "Study Specific Forms" true wb')
    as (src_s & src_f & cs & cf & _ & _ & _ & _ & ->).
  - change (NoDup ["Schedule Grid"; "Notes"; "Study Specific Forms"]).
    repeat (apply NoDup_cons; split;
            [intros H; repeat (apply elem_of_cons in H as [H|H]; [discriminate|]);
             now apply elem_of_nil in H|]).
    apply NoDup_nil_2.
  - intros n Hn. vm_compute in Hn.
    apply elem_of_cons in Hn as [->|Hn]; [reflexivity|].
    apply elem_of_cons in Hn as [->|Hn]; [intros H; vm_compute in H; discriminate|].
    apply elem_of_cons in Hn as [->|Hn]; [intros H; vm_compute in H; discriminate|].
    now apply elem_of_nil in Hn.
  - intros n Hn. vm_compute in Hn.
    apply elem_of_cons in Hn as [->|Hn]; [intros H; vm_compute in H; discriminate|].
    apply elem_of_cons in Hn as [->|Hn]; [intros H; vm_compute in H; discriminate|].
    apply elem_of_cons in Hn as [->|Hn]; [reflexivity|].
    now apply elem_of_nil in Hn.
  - vm_compute. discriminate.
  - exact E.
  - exists cs, cf. reflexivity.
Defined.

(** ** Files written by the grid generator *)

Section FilesMore.
Import PyStr PyVal Xl Layout Examples.
Variable FileData : Type.
Variable parse_excel parse_csv : FileData -> Result DataFrame.
Variable encode_workbook : string -> Worksheet -> FileData.
Variable float_repr : Z -> Z -> string.


Lemma build_outcome vx fc ox config (w : World FileData) :
  match fst (build_schedule_layout FileData parse_excel parse_csv encode_workbook float_repr vx fc ox config w) with
  | inl _ => files FileData (snd (build_schedule_layout FileData parse_excel parse_csv encode_workbook float_repr vx fc ox config w)) = files FileData w
  | inr p =>
      p = ox
      /\ exists df_visits df_forms ws,
           read_with FileData parse_excel w vx = inr df_visits
           /\ read_with FileData parse_csv w fc = inr df_forms
           /\ build_worksheet float_repr df_visits df_forms config = inr ws
           /\ files FileData (snd (build_schedule_layout FileData parse_excel parse_csv encode_workbook float_repr vx fc ox config w))
              = <[ox := encode_workbook "Final PTD" ws]> (files FileData w)
  end.
Proof.
  unfold build_schedule_layout.
  set (w1 := logging FileData _ w).
  change (read_with FileData parse_excel w1 vx) with (read_with FileData parse_excel w vx).
  change (read_with FileData parse_csv w1 fc) with (read_with FileData parse_csv w fc).
  destruct (read_with FileData parse_excel w vx) as [e|dv]; [reflexivity|].
  destruct (read_with FileData parse_csv w fc) as [e|df]; [reflexivity|].
  cbn [bind ret].
  destruct (build_worksheet float_repr dv df config) as [e|ws] eqn:Eb; [reflexivity|].
  simpl. split; [reflexivity|]. exists dv, df, ws. repeat split. exact Eb.
Qed.

Lemma build_ignores_log vx fc ox config (w : World FileData) rec :
  fst (build_schedule_layout FileData parse_excel parse_csv encode_workbook float_repr vx fc ox config (logging FileData rec w)) = fst (build_schedule_layout FileData parse_excel parse_csv encode_workbook float_repr vx fc ox config w)
  /\ files FileData (snd (build_schedule_layout FileData parse_excel parse_csv encode_workbook float_repr vx fc ox config (logging FileData rec w)))
     = files FileData (snd (build_schedule_layout FileData parse_excel parse_csv encode_workbook float_repr vx fc ox config w)).
Proof.
  unfold build_schedule_layout.
  set (w1 := logging FileData _ (logging FileData rec w)).
  set (w2 := logging FileData _ w).
  change (read_with FileData parse_excel w1 vx) with (read_with FileData parse_excel w vx).
  change (read_with FileData parse_csv w1 fc) with (read_with FileData parse_csv w fc).
  change (read_with FileData parse_excel w2 vx) with (read_with FileData parse_excel w vx).
  change (read_with FileData parse_csv w2 fc) with (read_with FileData parse_csv w fc).
  destruct (read_with FileData parse_excel w vx) as [e|dv]; [split; reflexivity|].
  destruct (read_with FileData parse_csv w fc) as [e|df]; [split; reflexivity|].
  cbn [bind ret].
  destruct (build_worksheet float_repr dv df config) as [e|ws]; split; reflexivity.
Qed.

(** X23. [generate_schedule_grid] has the outcome of
    [build_schedule_layout] and leaves the same files.  It writes all or
    nothing: when it raises, whatever the cause, every file is as before;
    when it returns, it returns the output path, and the files differ from
    the ones before only at that path, which holds the saved workbook. *)
Theorem generate_schedule_grid_writes_all_or_nothing
    (visits_xlsx forms_csv output_xlsx : string) (config : Config) (w : World FileData) :
  let out := generate_schedule_grid FileData parse_excel parse_csv encode_workbook float_repr visits_xlsx forms_csv output_xlsx config w in
  let built := build_schedule_layout FileData parse_excel parse_csv encode_workbook float_repr visits_xlsx forms_csv output_xlsx config w in
  fst out = fst built
  /\ files FileData (snd out) = files FileData (snd built)
  /\ match fst out with
     | inl _ => files FileData (snd out) = files FileData w
     | inr p =>
         p = output_xlsx
         /\ is_Some (files FileData (snd out) !! output_xlsx)
         /\ forall q, q <> output_xlsx ->
              files FileData (snd out) !! q = files FileData w !! q
     end.
Proof.
  intros out built. subst out built. unfold generate_schedule_grid.
  set (rec := LogInfo _).
  destruct (build_ignores_log visits_xlsx forms_csv output_xlsx config w rec) as [Hr Hf].
  pose proof (build_outcome visits_xlsx forms_csv output_xlsx config w) as Ho.
  destruct (build_schedule_layout FileData parse_excel parse_csv encode_workbook float_repr visits_xlsx forms_csv output_xlsx config (logging FileData rec w))
    as [[e|p] w'] eqn:Eb; simpl in Hr, Hf |- *; rewrite <- Hr in Ho; rewrite <- Hf in *.
  - split; [exact Hr|]. split; [reflexivity|]. exact Ho.
  - split; [exact Hr|]. split; [reflexivity|].
    destruct Ho as (-> & dv & df & ws & _ & _ & _ & Hfiles).
    split; [reflexivity|]. rewrite Hfiles. split.
    + rewrite lookup_insert_eq. now eexists.
    + intros q Hq. now rewrite lookup_insert_ne by congruence.
Qed.




End FilesMore.


(** ** The output path of the command line *)

Section MainFacts.
Import PyStr Main.
Variable abspath : string -> string.
Variable splitext_root : string -> string.

Lemma endswith_app a suffix : endswith suffix (a ++ suffix) = true.
Proof.
  induction a as [|c a IH].
  - rewrite app_nil_str. destruct suffix; cbn [endswith]; now rewrite String.eqb_refl.
  - rewrite app_cons_str. cbn [endswith]. rewrite IH. now destruct (String.eqb _ _).
Qed.

(** X25. The path [main] writes to always ends in ".xlsx" (in any
    letter case): a path with another ending has its extension replaced.
    With [--inplace] the path is made from the template path and [--out]
    plays no part in it; without [--inplace] there is no path (and [main]
    returns 2) exactly when [--out] is absent or empty. *)
Theorem output_path_is_xlsx (args : Args) :
  (forall p, output_path abspath splitext_root args = Some p ->
             endswith ".xlsx" (lower p) = true)
  /\ (inplace args = true ->
      output_path abspath splitext_root args = Some (normalize_extension splitext_root (template args)))
  /\ (inplace args = false ->
      (output_path abspath splitext_root args = None <-> given (out args) = false)).
Proof.
  unfold output_path, choose_output. split; [|split].
  - intros p. destruct (inplace args); [|destruct (negb (given (out args)))]; simpl;
      try discriminate; intros [= <-]; unfold normalize_extension;
      match goal with
      | |- context [negb (endswith ".xlsx" (lower ?x))] =>
          destruct (endswith ".xlsx" (lower x)) eqn:E; simpl; [exact E|]
      end; rewrite lower_app; apply (endswith_app _ ".xlsx").
  - intros ->. reflexivity.
  - intros ->. destruct (given (out args)); simpl; split; congruence.
Qed.

End MainFacts.

Lemma output_path_is_xlsx_witness :
  Main.output_path (fun p => p) (fun p => p)
    (Main.mkArgs "e.json" "p.json" "Template.XLSX" (Some "o.xls") true false)
  = Some "Template.XLSX".
Proof.
  rewrite (proj1 (proj2 (output_path_is_xlsx (fun p => p) (fun p => p)
             (Main.mkArgs "e.json" "p.json" "Template.XLSX" (Some "o.xls") true false))));
    reflexivity.
Defined.

(** ** When the grid builder succeeds *)

Section BuildMore.
Import PyStr PyVal Xl EventName Layout Examples.
Variable float_repr : Z -> Z -> string.















Section Rows.
Variable df_visits : DataFrame.
Variables visit_groups visit_labels event_names : list string.
Variables rand_idx n_left col_rtsm c0 : nat.
Hypothesis Hleft : 1 <= n_left.
Hypothesis Hrtsm : n_left < col_rtsm.
Hypothesis Hc0 : n_left < c0.
Hypothesis Hfin : forall r x, r ∈ rows df_visits -> x ∈ r -> is_infinite x = false.





End Rows.



End BuildMore.


(** ** Column widths *)

Section WidthMore.
Import PyVal Xl Graft Layout Examples.
Variable float_repr : Z -> Z -> string.

Lemma fetch_rows_run c rs :
  forall w,
    (forall r, r ∈ rs -> 1 <= r <= max_row w) -> 1 <= c <= max_column w ->
    let w1 := foldl (fun w r => fst (get_cell w r c)) w rs in
    max_row w1 = max_row w /\ max_column w1 = max_column w
    /\ col_width w1 = col_width w
    /\ forall q, cell_at w1 q = cell_at w q.
Proof.
  induction rs as [|r rs IH]; intros w Hrs Hc; simpl; [repeat split|].
  destruct (max_get_cell w r c) as [A B]; [apply Hrs; now left|exact Hc|].
  assert (H1 : forall r', r' ∈ rs -> 1 <= r' <= max_row (fst (get_cell w r c))).
  { intros r' Hr'. rewrite A. apply Hrs. now right. }
  assert (H2 : 1 <= c <= max_column (fst (get_cell w r c))) by now rewrite B.
  pose proof (IH (fst (get_cell w r c)) H1 H2) as H. cbv zeta in H.
  destruct H as (A' & B' & C' & D').
  split; [congruence|]. split; [congruence|]. split.
  - rewrite C'. unfold get_cell. now destruct (cells w !! (r, c)).
  - intros q. now rewrite D', cell_at_get_cell.
Qed.

Lemma widths_fold (len : Value -> nat) (g : nat -> nat) cs :
  NoDup cs ->
  forall ws,
    (forall c, c ∈ cs -> 1 <= c <= max_column ws) ->
    let ws' :=
      foldl (fun w c =>
               let w1 := foldl (fun w r => fst (get_cell w r c)) w (seq 1 (max_row w)) in
               let m := max_list (map (fun r => len (value_at w1 (r, c)))
                                    (seq 1 (max_row w1))) in
               mkWorksheet (cells w1) (merged w1) (current_row w1)
                 (<[c := VInt (Z.of_nat (g m))]> (col_width w1))
                 (row_height w1) (freeze_panes w1))
            ws cs in
    max_row ws' = max_row ws /\ max_column ws' = max_column ws
    /\ (forall q, cell_at ws' q = cell_at ws q)
    /\ forall c, col_width ws' !! c
                 = if decide (c ∈ cs)
                   then Some (VInt (Z.of_nat
                          (g (max_list (map (fun r => len (value_at ws (r, c)))
                                          (seq 1 (max_row ws)))))))
                   else col_width ws !! c.
Proof.
  induction 1 as [|c cs Hc _ IH]; intros ws Hcs; cbn [foldl].
  - repeat split.
  - destruct (fetch_rows_run c (seq 1 (max_row ws)) ws) as (A & B & C & D).
    { intros r Hr%list_elem_of_In%in_seq. lia. }
    { apply Hcs. now left. }
    set (w1 := foldl (fun w r => fst (get_cell w r c)) ws (seq 1 (max_row ws))) in *.
    set (w2 := mkWorksheet (cells w1) _ _ _ _ _).
    assert (A2 : max_row w2 = max_row ws) by exact A.
    assert (B2 : max_column w2 = max_column ws) by exact B.
    assert (D2 : forall q, cell_at w2 q = cell_at ws q) by exact D.
    assert (Hcs2 : forall c', c' ∈ cs -> 1 <= c' <= max_column w2).
    { intros c' Hc'. rewrite B2. apply Hcs. now right. }
    pose proof (IH w2 Hcs2) as H. cbv zeta in H. destruct H as (A3 & B3 & D3 & W3).
    split; [congruence|]. split; [congruence|]. split; [intros q; now rewrite D3|].
    intros c'. rewrite W3. rewrite A2.
    destruct (decide (c' ∈ cs)) as [Hin|Hnin].
    + rewrite decide_True by now right. repeat apply f_equal.
      apply map_ext. intros r. unfold value_at. now rewrite D2.
    + destruct (decide (c' = c)) as [->|Hne].
      * rewrite decide_True by now left. subst w2. cbn [col_width].
        rewrite lookup_insert_eq. rewrite A. repeat apply f_equal.
        apply map_ext. intros r. unfold value_at. now rewrite D.
      * rewrite decide_False by (intros [?|?]%elem_of_cons; contradiction).
        subst w2. cbn [col_width]. rewrite lookup_insert_ne by congruence. now rewrite C.
Qed.

(** X27. The column fitting of the grid builder (lines 337-345) gives
    every column of the used block the width max(10, L + 2), where L is the
    length, in code points, of the longest rendered value of the column (0
    without one), and changes no cell. *)
Theorem fit_columns_widths (ws : Worksheet) (c : nat) :
  1 <= c <= max_column ws ->
  col_width (fit_columns float_repr ws) !! c
  = Some (VInt (Z.of_nat
       (Nat.max 10
          (max_list (map (fun r => match value_at ws (r, c) with
                                   | VNone => 0
                                   | v => PyStr.len (PyVal.str float_repr v)
                                   end) (seq 1 (max_row ws))) + 2))))
  /\ forall q, cell_at (fit_columns float_repr ws) q = cell_at ws q.
Proof.
  intros Hc. unfold fit_columns.
  destruct (widths_fold
              (fun v => match v with
                        | VNone => 0
                        | VStr s => PyStr.len (PyVal.str float_repr (VStr s))
                        | VInt z => PyStr.len (PyVal.str float_repr (VInt z))
                        | VFloat f => PyStr.len (PyVal.str float_repr (VFloat f))
                        | VBool b => PyStr.len (PyVal.str float_repr (VBool b))
                        end)
              (fun m => Nat.max 10 (m + 2)) (seq 1 (max_column ws)) (NoDup_seq _ _) ws)
    as (_ & _ & D & W).
  { intros c' Hc'%list_elem_of_In%in_seq. lia. }
  split; [|exact D]. rewrite W, decide_True; [reflexivity|].
  apply list_elem_of_In, in_seq. lia.
Qed.

Lemma style_row_current (f : nat -> nat -> Style -> Style) ws r :
  current_row ws <> 0 -> current_row (style_row f ws r) <> 0.
Proof.
  intros H. unfold style_row. apply foldl_invariant; [|exact H].
  intros w c Hw. unfold restyle, get_cell.
  destruct (cells w !! (r, c)) as [x|] eqn:E; simpl.
  - rewrite E. exact Hw.
  - rewrite lookup_insert_eq. simpl. lia.
Qed.

(** X28. After [auto_format_sheet] every column of the used block of a
    sheet that holds cells has the width max(10, min(80, L + 3)), where L
    is the length, in code points, of the longest rendered value of the
    column (0 without one): widths lie between 10 and 80. *)
Theorem auto_format_sheet_widths (sheet : Worksheet) (header_rows : nat)
    (skip_fill_rows : list nat) (c : nat) :
  current_row sheet <> 0 -> 1 <= max_row sheet -> 1 <= c <= max_column sheet ->
  col_width (auto_format_sheet float_repr sheet header_rows skip_fill_rows) !! c
  = Some (VInt (Z.of_nat
       (Nat.max 10
          (Nat.min 80
             (max_list (map (fun r => value_len float_repr (value_at sheet (r, c)))
                          (seq 1 (max_row sheet))) + 3))))).
Proof.
  intros Hcur Hrow Hc. unfold auto_format_sheet.
  set (hr := Nat.max 1 (Nat.min header_rows (max_row sheet))).
  assert (Hhr : 1 <= hr <= max_row sheet) by (subst hr; lia).
  destruct (style_rows_run (format_header_cell skip_fill_rows) (seq 1 hr)
              (NoDup_seq _ _) sheet) as (A & B & _).
  { apply Forall_forall. intros r' Hr'%list_elem_of_In%in_seq. lia. }
  set (s1 := foldl (style_row (format_header_cell skip_fill_rows)) sheet (seq 1 hr)) in *.
  destruct (style_rows_run (fun _ _ => format_data_cell) (seq (S hr) (max_row s1 - hr))
              (NoDup_seq _ _) s1) as (A2 & B2 & _).
  { apply Forall_forall. intros r' Hr'%list_elem_of_In%in_seq. lia. }
  set (s2 := foldl (style_row (fun _ _ => format_data_cell)) s1 _) in *.
  assert (Hv : forall q, value_at s2 q = value_at sheet q).
  { intros q.
    assert (H1 : same_content sheet s1).
    { subst s1. apply (foldl_invariant (fun w => same_content sheet w)).
      - intros w r Hw. eapply same_content_trans; [exact Hw|apply style_row_content].
      - split; [reflexivity|]. intros q'. split; reflexivity. }
    assert (H2 : same_content s1 s2).
    { subst s2. apply (foldl_invariant (fun w => same_content s1 w)).
      - intros w r Hw. eapply same_content_trans; [exact Hw|apply style_row_content].
      - split; [reflexivity|]. intros q'. split; reflexivity. }
    destruct H1 as [_ H1], H2 as [_ H2]. rewrite (proj1 (H2 q)). apply H1. }
  assert (Hcur2 : current_row s2 <> 0).
  { subst s2. apply foldl_invariant; [intros; now apply style_row_current|].
    subst s1. apply foldl_invariant; [intros; now apply style_row_current|exact Hcur]. }
  unfold auto_widths. apply Nat.eqb_neq in Hcur2. rewrite Hcur2.
  destruct (widths_fold (value_len float_repr) (fun m => Nat.max 10 (Nat.min 80 (m + 3)))
              (seq 1 (max_column s2)) (NoDup_seq _ _) s2) as (_ & _ & _ & W).
  { intros c' Hc'%list_elem_of_In%in_seq. lia. }
  rewrite W, decide_True by (apply list_elem_of_In, in_seq; lia).
  replace (max_row s2) with (max_row sheet) by congruence.
  rewrite (map_ext (fun r => value_len float_repr (value_at s2 (r, c)))
             (fun r => value_len float_repr (value_at sheet (r, c))))
    by (intros r; now rewrite Hv).
  reflexivity.
Qed.

End WidthMore.

Lemma fit_columns_widths_witness :
  PyStr.len "≥ 18 years old" = 14
  /\ Xl.col_width (Layout.fit_columns (fun _ _ => "") Examples.age_sheet) !! 1
     = Some (PyVal.VInt 16).
Proof.
  split; [reflexivity|].
  destruct (fit_columns_widths (fun _ _ => "") Examples.age_sheet 1) as [H _].
  - vm_compute. repeat split; repeat constructor.
  - rewrite H. vm_compute. reflexivity.
Defined.

Lemma auto_format_sheet_widths_witness :
  Xl.col_width (Graft.auto_format_sheet (fun _ _ => "") Examples.age_sheet 1 []) !! 1
  = Some (PyVal.VInt 17).
Proof.
  rewrite (auto_format_sheet_widths (fun _ _ => "") Examples.age_sheet 1 [] 1).
  - vm_compute. reflexivity.
  - vm_compute. discriminate.
  - vm_compute. repeat constructor.
  - vm_compute. repeat split; repeat constructor.
Defined.
